(** * Marketplace dashboard front end: renewal page, upload and import
      modals, image proxy route

    A shallow embedding of the event handlers and effects of
    - [src/app/dashboard/renew/page.tsx]   (module [Renew]),
    - the bulk upload modal                 (module [BulkUpload]),
    - the import session modal              (module [ImportSession]),
    - [src/app/api/image-proxy/route.ts]    (module [ImageProxy]),
    followed by the properties proved about them.

    Conventions.  A component is a record of its [useState] cells; a
    handler or an effect is a function on a [World] (component state, the
    browser's localStorage, and the list of calls made to the outside:
    alerts, toasts, network requests, timers).  A handler reads the cells
    through the closure of the render it was created in, so it takes that
    render's state [r] as an argument and writes through the setters.
    An [await] splits a handler in the part that runs up to the request
    and the part that runs when the request settles.  What the browser
    supplies (JSON, Date, String.prototype.trim) is a [Runtime]; a
    reference runtime at the end of the definitions makes every definition
    runnable. *)

From Stdlib Require Import ZArith List String Ascii Bool Lia.
From stdpp Require Import base option list gmap strings pretty.
Import ListNotations.

Open Scope string_scope.
Open Scope list_scope.
Open Scope Z_scope.

(** ** JavaScript values and operators *)

Module JS.

(** A [Date] object is its time value in milliseconds since the epoch,
    or NaN ("Invalid Date"). *)
Inductive Date :=
| InvalidDate
| TimeValue (ms : Z).

(** [d.getTime() > t]: a comparison with NaN is false. *)
Definition getTime_gt (d : Date) (t : Z) : bool :=
  match d with
  | TimeValue ms => t <? ms
  | InvalidDate => false
  end.

(** [x || d] on an optional number: undefined, null and 0 are falsy. *)
Definition num_or (x : option Z) (d : Z) : Z :=
  match x with
  | Some v => if v =? 0 then d else v
  | None => d
  end.

(** Truthiness of a string: only the empty string is falsy. *)
Definition truthy (s : string) : bool := negb (String.eqb s "").

(** [x || d] on an optional string. *)
Definition str_or (x : option string) (d : string) : string :=
  match x with
  | Some s => if truthy s then s else d
  | None => d
  end.

(** Values that [JSON.parse] returns.  A number that is an integer is
    kept as that integer, any other number as its literal. *)
#[warnings="-register-all"]
Inductive json :=
| JNull
| JBool (b : bool)
| JNum (n : Z)
| JFrac (lit : string)
| JStr (s : string)
| JArr (items : list json)
| JObj (members : list (string * json)).

(** Own property lookup [o.k]; in an object literal with a repeated key
    the last one wins. *)
Fixpoint prop (k : string) (members : list (string * json)) : option json :=
  match members with
  | [] => None
  | (k', v) :: rest =>
      match prop k rest with
      | Some v' => Some v'
      | None => if String.eqb k k' then Some v else None
      end
  end.

(** [k in o], for own properties *)
Definition has_prop (k : string) (members : list (string * json)) : bool :=
  existsb (fun m => String.eqb k (fst m)) members.

(** The properties of [{ ...o, k: v }]: a property [k] of [o] keeps its
    place and takes the value [v], otherwise [k] is added at the end. *)
Definition set_prop (k : string) (v : json) (members : list (string * json))
  : list (string * json) :=
  if has_prop k members then
    map (fun m => if String.eqb k (fst m) then (k, v) else m) members
  else members ++ [(k, v)].

(** The own enumerable properties of a value, which a spread [{ ...v }]
    copies: the members of an object, the elements of an array and the
    code units of a string under their indices, nothing for null, a
    boolean or a number. *)
Definition spread (v : json) : list (string * json) :=
  match v with
  | JObj members => members
  | JArr items => imap (fun i item => (pretty (Z.of_nat i), item)) items
  | JStr s =>
      imap (fun i c => (pretty (Z.of_nat i), JStr (String c EmptyString)))
           (list_ascii_of_string s)
  | JNull | JBool _ | JNum _ | JFrac _ => []
  end.

(** Truthiness of a value: null, false, 0 and the empty string are
    falsy; a number that is not an integer is not 0. *)
Definition truthy_value (v : json) : bool :=
  match v with
  | JNull => false
  | JBool b => b
  | JNum n => negb (n =? 0)
  | JFrac _ => true
  | JStr s => truthy s
  | JArr _ | JObj _ => true
  end.

(** [x || 0], [x] being a property that may be missing *)
Definition or_zero (x : option json) : json :=
  match x with
  | Some v => if truthy_value v then v else JNum 0
  | None => JNum 0
  end.

(** Two selections with the same elements, whatever the order. *)
Definition same_set (a b : list Z) : Prop :=
  forall x, In x a <-> In x b.

(** A selection that is empty, or holds every id once. *)
Definition empty_or_full (ids sel : list Z) : Prop :=
  sel = [] \/ (List.NoDup sel /\ incl sel ids /\ length sel = length ids).

(** The built-ins the components call. *)
Class Runtime := {
  (** [JSON.parse(s)], [None] when it throws *)
  JSON_parse : string -> option json;
  (** [JSON.stringify(v)] *)
  JSON_stringify : json -> string;
  (** [new Date(s)] for a string [s] *)
  Date_parse : string -> Date;
  (** [new Date(v)] for a number that is not an integer, an array or an
      object [v]: the conversion to a primitive comes first, and
      [None] is for the TypeError it can throw *)
  Date_of : json -> option Date;
  (** [new Date(t).toISOString()] *)
  toISOString : Z -> string;
  (** [a + b] for operands that are not both integers; [None] when the
      conversion of an operand to a primitive throws *)
  add : json -> json -> option json;
  (** [s.trim()] *)
  trim : string -> string
}.

(** [new Date(v)], [v] being a property that may be missing:
    [new Date(undefined)] is invalid, null, booleans and numbers are
    taken as a time value, which is valid up to 8.64e15 ms either side
    of the epoch. *)
Definition new_Date `{Runtime} (v : option json) : option Date :=
  match v with
  | None => Some InvalidDate
  | Some (JStr s) => Some (Date_parse s)
  | Some JNull => Some (TimeValue 0)
  | Some (JBool b) => Some (TimeValue (if b then 1 else 0))
  | Some (JNum n) =>
      Some (if Z.abs n <=? 8640000000000000 then TimeValue n else InvalidDate)
  | Some v => Date_of v
  end.

(** [a + b]: integers are added as integers. *)
Definition plus `{Runtime} (a b : json) : option json :=
  match a, b with
  | JNum x, JNum y => Some (JNum (x + y))
  | _, _ => add a b
  end.

(** [s.startsWith(p)] and [s.endsWith(p)] *)
Definition startsWith (s p : string) : bool := String.prefix p s.

Definition endsWith (s p : string) : bool :=
  let n := String.length s in
  let m := String.length p in
  (m <=? n)%nat && String.eqb (substring (n - m) m s) p.

End JS.

(** ** Renewal page: [src/app/dashboard/renew/page.tsx] *)

Module Renew.
Import JS.

Module Account.
Record t := mk { id : Z; email : string }.
End Account.

(** A result object of the page, [{ ...fields, timestamp }]: the own
    properties it was spread from, in their order, and the [timestamp]
    put on top of them, which takes the place of a [timestamp] among
    [fields].  [interface RenewalResult] declares [account_id], [email],
    [renewed_count], [available_count], [success], [message] and
    [condition_met]; nothing checks them, and the page itself reads
    [renewed_count] and [timestamp] only.  The type of [timestamp] is
    left open: the page keeps a [Date] there ([timestamp?: Date], [None]
    for a result as the API returns it, before the page stamps it), the
    stored log a string. *)
Record Log (T : Type) := mkLog {
  fields : list (string * json);
  timestamp : T
}.
Arguments mkLog {T}.
Arguments fields {T}.
Arguments timestamp {T}.

Abbreviation RenewalResult := (Log (option Date)).
Abbreviation StoredLog := (Log string).

(** [{ ...log, timestamp: t }] *)
Definition with_timestamp {A B : Type} (log : Log A) (t : B) : Log B :=
  mkLog (fields log) t.

(** [log.renewed_count] *)
Definition renewed_count {T : Type} (log : Log T) : option json :=
  prop "renewed_count" (fields log).

(** The JSON object of a stored entry, as [JSON.stringify] sees the
    entry. *)
Definition log_to_json (log : StoredLog) : json :=
  JObj (set_prop "timestamp" (JStr (timestamp log)) (fields log)).

(** The elements of [parsedLogs], for [parsedLogs.map]: a value that is
    not an array has no [map] (a TypeError). *)
Definition as_array (j : json) : option (list json) :=
  match j with
  | JArr items => Some items
  | _ => None
  end.

(** [log.timestamp] for an element of the parsed array: a TypeError
    ([None]) for null, the own property for an object, undefined for
    every other value. *)
Definition timestamp_of (log : json) : option (option json) :=
  match log with
  | JNull => None
  | JObj members => Some (prop "timestamp" members)
  | JBool _ | JNum _ | JFrac _ | JStr _ | JArr _ => Some None
  end.

(** The [useState] cells of [RenewListingsPage].  [totalRenewed] is
    declared a number; the load effect can put there whatever the sum
    over the stored entries gives. *)
Record State := mkState {
  accounts : list Account.t;
  selectedAccounts : list Z;
  renewalCount : Z;
  loading : bool;
  results : list RenewalResult;
  totalRenewed : json;
  activeRenewalJobId : option string
}.

(** Calls to the outside. *)
Inductive Event :=
| Alert (msg : string)
| ConsoleLog (msg : string)
| ConsoleError (msg : string)
| ListAccounts
| RenewListings (account_ids : list Z) (renewal_count : Z).

Record World := mkWorld {
  st : State;
  localStorage : gmap string string;
  out : list Event
}.

Definition Action := World -> World.

Definition seq (a b : Action) : Action := fun w => b (a w).
Notation "a >> b" := (seq a b) (at level 85, right associativity).
Definition skip : Action := fun w => w.

Definition modify (f : State -> State) : Action :=
  fun w => mkWorld (f (st w)) (localStorage w) (out w).

Definition setAccounts (v : list Account.t) : Action :=
  modify (fun s => mkState v (selectedAccounts s) (renewalCount s)
    (loading s) (results s) (totalRenewed s) (activeRenewalJobId s)).
Definition setSelectedAccounts (v : list Z) : Action :=
  modify (fun s => mkState (accounts s) v (renewalCount s)
    (loading s) (results s) (totalRenewed s) (activeRenewalJobId s)).
Definition setRenewalCount (v : Z) : Action :=
  modify (fun s => mkState (accounts s) (selectedAccounts s) v
    (loading s) (results s) (totalRenewed s) (activeRenewalJobId s)).
Definition setLoading (v : bool) : Action :=
  modify (fun s => mkState (accounts s) (selectedAccounts s) (renewalCount s)
    v (results s) (totalRenewed s) (activeRenewalJobId s)).
Definition setResults (v : list RenewalResult) : Action :=
  modify (fun s => mkState (accounts s) (selectedAccounts s) (renewalCount s)
    (loading s) v (totalRenewed s) (activeRenewalJobId s)).
Definition setTotalRenewed (v : json) : Action :=
  modify (fun s => mkState (accounts s) (selectedAccounts s) (renewalCount s)
    (loading s) (results s) v (activeRenewalJobId s)).
Definition setActiveRenewalJobId (v : option string) : Action :=
  modify (fun s => mkState (accounts s) (selectedAccounts s) (renewalCount s)
    (loading s) (results s) (totalRenewed s) v).

Definition setItem (k v : string) : Action :=
  fun w => mkWorld (st w) (<[k := v]> (localStorage w)) (out w).
Definition removeItem (k : string) : Action :=
  fun w => mkWorld (st w) (delete k (localStorage w)) (out w).
Definition getItem (w : World) (k : string) : option string :=
  localStorage w !! k.

Definition emit (e : Event) : Action :=
  fun w => mkWorld (st w) (localStorage w) (out w ++ [e]).
Definition alert (msg : string) : Action := emit (Alert msg).

(** The first render: every cell at its initial value, the job id read
    from localStorage by the [useState] initialiser. *)
Definition initialState (ls : gmap string string) : State :=
  mkState [] [] 20 false [] (JNum 0) (ls !! "activeRenewalJobId").

Definition isRecent (twentyFourHoursAgo : Z) (log : RenewalResult) : bool :=
  match timestamp log with
  | Some d => getTime_gt d twentyFourHoursAgo
  | None => false
  end.

Section WithRuntime.
Context `{Runtime}.

(** [logs.reduce((sum, result) => sum + (result.renewed_count || 0), 0)];
    [None] when an addition throws. *)
Definition sumRenewed {T : Type} (logs : list (Log T)) : option json :=
  fold_left (fun sum result =>
               sum ≫= fun sum => plus sum (or_zero (renewed_count result)))
            logs (Some (JNum 0)).

(** [{ ...log, timestamp: new Date(log.timestamp) }] *)
Definition withDate (log : json) : option RenewalResult :=
  t ← timestamp_of log;
  d ← new_Date t;
  Some (mkLog (spread log) (Some d)).

(** [JSON.parse(savedLogs)] and [parsedLogs.map(...)]: the value of
    [logsWithDates], [None] when one of the two throws. *)
Definition readLogs (savedLogs : string) : option (list RenewalResult) :=
  parsedLogs ← JSON_parse savedLogs;
  items ← as_array parsedLogs;
  mapM withDate items.

(** The [catch] block of the load effect. *)
Definition loadLogs_catch : Action :=
  emit (ConsoleError "Failed to load renewal activity logs:") >>
  removeItem "renewalActivityLogs".

(** First effect: load the activity log (lines 49-94).  [now] is the
    value of [new Date()]. *)
Definition loadLogs (now : Z) : Action := fun w =>
  match getItem w "renewalActivityLogs" with
  | Some savedLogs =>
      if truthy savedLogs then
        match readLogs savedLogs with
        | Some logsWithDates =>
            let twentyFourHoursAgo := now - 24 * 60 * 60 * 1000 in
            let recentLogs :=
              List.filter (isRecent twentyFourHoursAgo) logsWithDates in
            (setResults recentLogs >>
             match sumRenewed recentLogs with
             | Some calculatedTotal => setTotalRenewed calculatedTotal
             | None => loadLogs_catch
             end) w
        | None => loadLogs_catch w
        end
      else w
  | None => w
  end.

(** Second effect: save the activity log (lines 97-108).  [clock i] is
    the value of [new Date()] taken for the entry at index [i]. *)
Definition logsWithTimestamp (clock : nat -> Z) (rs : list RenewalResult)
  : list StoredLog :=
  imap (fun i log => with_timestamp log (toISOString (clock i))) rs.

Definition saveLogs (r : State) (clock : nat -> Z) : Action :=
  if (0 <? length (results r))%nat then
    setItem "renewalActivityLogs"
            (JSON_stringify
               (JArr (map log_to_json (logsWithTimestamp clock (results r)))))
  else skip.

End WithRuntime.

(** Third effect: [loadAccounts] (lines 110-112, 148-155), up to the
    request and from the settled request on; [None] when
    [accountsAPI.list()] rejects. *)
Definition loadAccounts_request : Action := emit ListAccounts.

Definition loadAccounts_settle (response : option (list Account.t)) : Action :=
  match response with
  | Some data => setAccounts data
  | None => emit (ConsoleError "Error loading accounts:")
  end.

(** Fourth effect: the renewal status check (lines 114-146). *)
Definition checkRenewalStatus (r : State) : Action :=
  match activeRenewalJobId r with
  | Some jobId =>
      if truthy jobId then
        if (0 <? length (results r))%nat then
          removeItem "activeRenewalJobId" >>
          setActiveRenewalJobId None >>
          setLoading false
        else
          emit (ConsoleLog "Found stale renewal job ID, clearing...") >>
          removeItem "activeRenewalJobId" >>
          setActiveRenewalJobId None >>
          setLoading false
      else skip
  | None => skip
  end.

(** [setSelectedAccounts((prev) => ...)]: an updater, applied to the
    current value of the cell. *)
Definition toggleAccount (accountId : Z) : Action := fun w =>
  let prev := selectedAccounts (st w) in
  setSelectedAccounts
    (if existsb (Z.eqb accountId) prev
     then List.filter (fun id => negb (id =? accountId)) prev
     else prev ++ [accountId]) w.

Definition selectAll (r : State) : Action :=
  if (length (selectedAccounts r) =? length (accounts r))%nat then
    setSelectedAccounts []
  else
    setSelectedAccounts (map Account.id (accounts r)).

(** [onChange] of the count input: [parseInt(e.target.value) || 0]. *)
Definition onRenewalCountChange (parsed : option Z) : Action :=
  setRenewalCount (num_or parsed 0).

Definition resetRenewalState : Action :=
  setLoading false >>
  setActiveRenewalJobId None >>
  removeItem "activeRenewalJobId".

Definition clearActivityLogs : Action :=
  setResults [] >>
  setSelectedAccounts [] >>
  setTotalRenewed (JNum 0) >>
  removeItem "renewalActivityLogs" >>
  resetRenewalState.

(** [response.data] of [accountsAPI.renewListings]. *)
Module Response.
Record data := mk {
  results : list RenewalResult;
  total_renewed : option Z
}.
End Response.

(** What the [catch] block can see of a rejection: an error without a
    [response] property, or one with [response?.data?.error]. *)
Inductive Rejection :=
| NoResponse
| WithResponse (error : option string).

Inductive Outcome :=
| Resolved (d : Response.data)
| Rejected (e : Rejection).

Definition errorMessage (e : Rejection) : string :=
  match e with
  | NoResponse => "Failed to renew listings. Please try again."
  | WithResponse error =>
      str_or error "Failed to renew listings. Please try again."
  end.

(** [`renewal_${Date.now()}_${Math.random().toString(36).substr(2, 9)}`];
    [rnd] is the random suffix. *)
Definition jobId (now : Z) (rnd : string) : string :=
  "renewal_" +:+ pretty now +:+ "_" +:+ rnd.

(** [handleRenewal] from the guards to the request (lines 173-199). *)
Definition handleRenewal_request (r : State) (now : Z) (rnd : string) : Action :=
  if (length (selectedAccounts r) =? 0)%nat then
    alert "Please select at least one account"
  else if (renewalCount r <? 1) || (renewalCount r >? 20) then
    alert "Renewal count must be between 1 and 20 (Facebook limit)"
  else
    setLoading true >>
    setResults [] >>
    setTotalRenewed (JNum 0) >>
    setActiveRenewalJobId (Some (jobId now rnd)) >>
    setItem "activeRenewalJobId" (jobId now rnd) >>
    emit (RenewListings (selectedAccounts r) (renewalCount r)).

Section Settle.
Context `{Runtime}.

(** [response.data.total_renewed || response.data.results.reduce(...)]:
    the sum is computed when the aggregate is missing or 0. *)
Definition calculatedTotal (d : Response.data) : option json :=
  match Response.total_renewed d with
  | Some n =>
      if n =? 0 then sumRenewed (Response.results d) else Some (JNum n)
  | None => sumRenewed (Response.results d)
  end.

(** [handleRenewal] from the settled request to the end (lines 200-237).
    [clock i] is the value of [new Date()] taken for result [i].  An
    addition that throws in the sum is caught like a rejection without
    a [response]. *)
Definition handleRenewal_settle (clock : nat -> Z) (o : Outcome) : Action :=
  match o with
  | Resolved d =>
      setResults
        (imap (fun i result =>
                 with_timestamp result (Some (TimeValue (clock i))))
              (Response.results d)) >>
      match calculatedTotal d with
      | Some total =>
          setTotalRenewed total >>
          resetRenewalState
      | None =>
          alert (errorMessage NoResponse) >>
          resetRenewalState
      end
  | Rejected e =>
      alert (errorMessage e) >>
      resetRenewalState
  end >>
  setLoading false.

End Settle.

(** Did [handleRenewal] pass its guards? *)
Definition submits (r : State) : bool :=
  negb (length (selectedAccounts r) =? 0)%nat
  && negb ((renewalCount r <? 1) || (renewalCount r >? 20)).

(** The whole handler, with nothing else running while the request is
    in flight. *)
Definition handleRenewal `{Runtime} (api : list Z -> Z -> Outcome)
    (r : State) (now : Z) (rnd : string) (clock : nat -> Z) : Action :=
  handleRenewal_request r now rnd >>
  (if submits r then
     handleRenewal_settle clock (api (selectedAccounts r) (renewalCount r))
   else skip).

(** [disabled] of the Execute Renewal button. *)
Definition executeDisabled (r : State) : bool :=
  loading r
  || (length (selectedAccounts r) =? 0)%nat
  || (renewalCount r <? 1)
  || (renewalCount r >? 20).

(** *** The page as a transition system *)

(** A fresh mount over a given store: the first render, nothing emitted. *)
Definition mount (ls : gmap string string) : World :=
  mkWorld (initialState ls) ls [].

(** The handlers and effects of the page, each with the inputs it takes
    from outside and, where it reads cells through a closure, the
    render [r] of that closure. *)
Inductive Op :=
| op_loadLogs (now : Z)
| op_saveLogs (r : State) (clock : nat -> Z)
| op_loadAccounts_request
| op_loadAccounts_settle (response : option (list Account.t))
| op_checkRenewalStatus (r : State)
| op_toggleAccount (accountId : Z)
| op_selectAll (r : State)
| op_onRenewalCountChange (parsed : option Z)
| op_handleRenewal_request (r : State) (now : Z) (rnd : string)
| op_handleRenewal_settle (clock : nat -> Z) (o : Outcome)
| op_clearActivityLogs.

Section Steps.
Context `{Runtime}.

Definition step (op : Op) : Action :=
  match op with
  | op_loadLogs now => loadLogs now
  | op_saveLogs r clock => saveLogs r clock
  | op_loadAccounts_request => loadAccounts_request
  | op_loadAccounts_settle response => loadAccounts_settle response
  | op_checkRenewalStatus r => checkRenewalStatus r
  | op_toggleAccount accountId => toggleAccount accountId
  | op_selectAll r => selectAll r
  | op_onRenewalCountChange parsed => onRenewalCountChange parsed
  | op_handleRenewal_request r now rnd => handleRenewal_request r now rnd
  | op_handleRenewal_settle clock o => handleRenewal_settle clock o
  | op_clearActivityLogs => clearActivityLogs
  end.

Definition run (ops : list Op) (w : World) : World :=
  fold_left (fun w op => step op w) ops w.

(** A text that [JSON.parse] reads as an array with at least one
    element. *)
Definition nonempty_array_text (text : string) : Prop :=
  exists item items, JSON_parse text = Some (JArr (item :: items)).

(** The log key is absent or holds a non-empty array. *)
Definition logs_key_ok (ls : gmap string string) : Prop :=
  match ls !! "renewalActivityLogs" with
  | Some text => nonempty_array_text text
  | None => True
  end.

(** What one operation may do to the log key: leave it, remove it, or
    write a non-empty array. *)
Definition key_step (before after : gmap string string) : Prop :=
  after !! "renewalActivityLogs" = before !! "renewalActivityLogs"
  \/ after !! "renewalActivityLogs" = None
  \/ exists text, after !! "renewalActivityLogs" = Some text
                  /\ nonempty_array_text text.

(** [JSON.parse] reads back what [JSON.stringify] wrote for [v]. *)
Definition reads_back (v : json) : Prop :=
  JSON_parse (JSON_stringify v) = Some v.

(** The runtime reads back the array that a save writes. *)
Definition save_reads_back (op : Op) : Prop :=
  match op with
  | op_saveLogs r clock =>
      reads_back (JArr (map log_to_json (logsWithTimestamp clock (results r))))
  | _ => True
  end.

(** The effects of the first commit, in the order they are declared
    (lines 49-146), all closed over the first render; [loadAccounts]
    runs up to its request. *)
Definition mountEffects (now : Z) (clock : nat -> Z)
    (ls : gmap string string) : World :=
  (loadLogs now >>
   saveLogs (initialState ls) clock >>
   loadAccounts_request >>
   checkRenewalStatus (initialState ls)) (mount ls).

(** Save with the render [r], then load at [now] in a fresh mount over
    the resulting store. *)
Definition persist_then_reload (r : State) (clock : nat -> Z) (now : Z)
    (w : World) : World :=
  loadLogs now (mount (localStorage (saveLogs r clock w))).

End Steps.

(** Job marker and loading flag are both cleared. *)
Definition cleared (w : World) : Prop :=
  activeRenewalJobId (st w) = None
  /\ localStorage w !! "activeRenewalJobId" = None
  /\ loading (st w) = false.

(** *** The stored log in the words of the specification *)

(** A stored entry of the declared shape: an object, with the string
    under its [timestamp]. *)
Abbreviation Stored := (list (string * json) * string)%type.

(** [renewed_count] is a number that is an integer, null, or missing. *)
Definition counted (members : list (string * json)) : Prop :=
  match prop "renewed_count" members with
  | Some (JNum _) | Some JNull | None => True
  | Some _ => False
  end.

(** [renewed_count], a missing one counted as 0. *)
Definition count (members : list (string * json)) : Z :=
  match prop "renewed_count" members with
  | Some (JNum n) => n
  | _ => 0
  end.

(** Sum of [renewed_count] over objects. *)
Definition sum_counts (objects : list (list (string * json))) : Z :=
  fold_right (fun members acc => count members + acc) 0 objects.

(** [log[k]] for a property other than [timestamp]. *)
Definition field {T : Type} (k : string) (log : Log T) : option json :=
  prop k (fields log).

(** A click on the select-all button of the current render. *)
Definition onClick_selectAll : Action := fun w => selectAll (st w) w.

(** *** Handlers and effects on the current render *)

(** A click on Execute Renewal in the current render. *)
Definition onClick_execute (now : Z) (rnd : string) : Action := fun w =>
  handleRenewal_request (st w) now rnd w.

(** The status check, run after the current render was committed. *)
Definition effect_checkRenewalStatus : Action := fun w =>
  checkRenewalStatus (st w) w.

(** The renewal requests among the calls to the outside. *)
Definition requests (calls : list Event) : list (list Z * Z) :=
  omap (fun e => match e with
                 | RenewListings account_ids renewal_count =>
                     Some (account_ids, renewal_count)
                 | _ => None
                 end) calls.

(** The number of [accountsAPI.list()] requests among them. *)
Definition account_requests (calls : list Event) : nat :=
  length (List.filter (fun e => match e with ListAccounts => true | _ => false end)
                      calls).

(** The alerts among the calls to the outside. *)
Definition alerts (calls : list Event) : list string :=
  omap (fun e => match e with Alert msg => Some msg | _ => None end) calls.

End Renew.

(** ** Bulk upload modal: [BulkUploadPostsModal] *)

Module BulkUpload.
Import JS.

Record FacebookAccount := mkAccount {
  id : Z;
  email : string;
  session_exists : bool
}.

(** What the modal reads of a [File]. *)
Module File.
Record t := mk { name : string; type : string }.
End File.

Record UploadError := mkUploadError { row : Z; error : string }.

Record Stats := mkStats {
  success_count : Z;
  error_count : Z;
  num_posts : Z;
  num_accounts : Z
}.

(** The [uploadResult] cell.  On success [message] is [data.message],
    which the response may lack. *)
Record UploadResult := mkUploadResult {
  success : bool;
  message : option string;
  stats : option Stats;
  errors : option (list UploadError);
  additional_errors : option Z
}.

Record State := mkState {
  accounts : list FacebookAccount;
  selectedAccounts : list Z;
  txtFile : option File.t;
  imageFiles : list File.t;
  loading : bool;
  uploadResult : option UploadResult
}.

Inductive ToastType := toast_success | toast_error.

(** The multipart request of [handleSubmit]. *)
Record Request := mkRequest {
  authorization : string;
  txt_file : File.t;
  account_ids : list string;
  images : list File.t
}.

Inductive Callback := call_onClose.

(** Calls to the outside: the props [onToast], [onSuccess], the
    request, and [setTimeout]. *)
Inductive Event :=
| OnToast (type : ToastType) (message : option string)
| OnSuccess
| Fetch (request : Request)
| SetTimeout (callback : Callback) (ms : Z).

Record World := mkWorld {
  st : State;
  out : list Event
}.

Definition Action := World -> World.
Definition seq (a b : Action) : Action := fun w => b (a w).
Notation "a >> b" := (seq a b) (at level 85, right associativity).
Definition skip : Action := fun w => w.

Definition modify (f : State -> State) : Action :=
  fun w => mkWorld (f (st w)) (out w).
Definition emit (e : Event) : Action :=
  fun w => mkWorld (st w) (out w ++ [e]).

Definition setAccounts (v : list FacebookAccount) : Action :=
  modify (fun s => mkState v (selectedAccounts s) (txtFile s)
    (imageFiles s) (loading s) (uploadResult s)).
Definition setSelectedAccounts (v : list Z) : Action :=
  modify (fun s => mkState (accounts s) v (txtFile s)
    (imageFiles s) (loading s) (uploadResult s)).
Definition setTxtFile (v : option File.t) : Action :=
  modify (fun s => mkState (accounts s) (selectedAccounts s) v
    (imageFiles s) (loading s) (uploadResult s)).
Definition setImageFiles (v : list File.t) : Action :=
  modify (fun s => mkState (accounts s) (selectedAccounts s) (txtFile s)
    v (loading s) (uploadResult s)).
Definition setLoading (v : bool) : Action :=
  modify (fun s => mkState (accounts s) (selectedAccounts s) (txtFile s)
    (imageFiles s) v (uploadResult s)).
Definition setUploadResult (v : option UploadResult) : Action :=
  modify (fun s => mkState (accounts s) (selectedAccounts s) (txtFile s)
    (imageFiles s) (loading s) v).

Definition handleAccountToggle (accountId : Z) : Action := fun w =>
  let prev := selectedAccounts (st w) in
  setSelectedAccounts
    (if existsb (Z.eqb accountId) prev
     then List.filter (fun id => negb (id =? accountId)) prev
     else prev ++ [accountId]) w.

Definition handleSelectAllAccounts (r : State) : Action :=
  if (length (selectedAccounts r) =? length (accounts r))%nat then
    setSelectedAccounts []
  else
    setSelectedAccounts (map id (accounts r)).

(** A click on the select-all button of the current render. *)
Definition onClick_selectAll : Action := fun w =>
  handleSelectAllAccounts (st w) w.

(** The body of a response, as [await response.json()] returns it. *)
Module Data.
Record t := mk {
  error : option string;
  message : option string;
  stats : option Stats;
  errors : option (list UploadError);
  additional_errors : option Z
}.
End Data.

(** How the request settles: [fetch] or [response.json()] throws an
    error with the given [message], or a body arrives with
    [response.ok] as given. *)
Inductive Outcome :=
| Threw (message : string)
| Responded (ok : bool) (data : Data.t).

(** [`Bearer ${token}`], [token] being [localStorage.getItem("token")]. *)
Definition bearer (token : option string) : string :=
  "Bearer " +:+ match token with Some t => t | None => "null" end.

(** [handleSubmit] from the guards to the request (lines 154-198). *)
Definition handleSubmit_request (r : State) (token : option string) : Action :=
  match txtFile r with
  | None => emit (OnToast toast_error (Some "Please select a TXT file"))
  | Some file =>
      if (length (selectedAccounts r) =? 0)%nat then
        emit (OnToast toast_error (Some "Please select at least one account"))
      else
        setLoading true >>
        setUploadResult None >>
        emit (Fetch (mkRequest (bearer token) file
                       (map (fun accountId => pretty accountId)
                            (selectedAccounts r))
                       (imageFiles r)))
  end.

(** The [catch] block (lines 228-235). *)
Definition handleSubmit_catch (message : string) : Action :=
  let errorMessage := str_or (Some message) "Failed to upload TXT file" in
  setUploadResult (Some (mkUploadResult false (Some errorMessage) None None None)) >>
  emit (OnToast toast_error (Some errorMessage)).

(** [handleSubmit] from the settled request to the end (lines 200-238). *)
Definition handleSubmit_settle (o : Outcome) : Action :=
  match o with
  | Threw message => handleSubmit_catch message
  | Responded ok data =>
      if negb ok then
        handleSubmit_catch (str_or (Data.error data) "Upload failed")
      else
        setUploadResult
          (Some (mkUploadResult true (Data.message data) (Data.stats data)
                   (Data.errors data) (Data.additional_errors data))) >>
        emit (OnToast toast_success (Data.message data)) >>
        setTxtFile None >>
        setImageFiles [] >>
        setSelectedAccounts [] >>
        emit OnSuccess >>
        emit (SetTimeout call_onClose 2000)
  end >>
  setLoading false.

(** *** The other handlers of the modal *)

(** [fetchAccounts]: [None] when [accountsAPI.list()] rejects
    (lines 66-74). *)
Definition fetchAccounts (response : option (list FacebookAccount)) : Action :=
  match response with
  | Some data => setAccounts data
  | None => emit (OnToast toast_error (Some "Failed to load accounts"))
  end.

(** [handleFileChange] (lines 76-86); [file] is [e.target.files?.[0]]. *)
Definition handleFileChange (file : option File.t) : Action :=
  match file with
  | Some file =>
      if negb (endsWith (File.name file) ".txt") then
        emit (OnToast toast_error (Some "Please select a TXT file"))
      else
        setTxtFile (Some file) >>
        setUploadResult None
  | None => skip
  end.

Definition isImage (file : File.t) : bool :=
  startsWith (File.type file) "image/".

(** [handleImageFilesChange] (lines 88-102); [files] is
    [e.target.files]. *)
Definition handleImageFilesChange (files : option (list File.t)) : Action :=
  match files with
  | Some imageFilesArray =>
      let validImages := List.filter isImage imageFilesArray in
      (if negb (length validImages =? length imageFilesArray)%nat then
         emit (OnToast toast_error (Some "Some files are not valid images"))
       else skip) >>
      setImageFiles validImages >>
      setUploadResult None
  | None => skip
  end.

(** [handleClose] (lines 241-246): the cells it resets, and the prop it
    calls last. *)
Definition handleClose (w : World) : World * Callback :=
  ((setTxtFile None >>
    setSelectedAccounts [] >>
    setUploadResult None) w,
   call_onClose).

(** [disabled] of the submit button (line 608). *)
Definition submitDisabled (r : State) : bool :=
  loading r || match txtFile r with Some _ => false | None => true end.




End BulkUpload.

(** ** Import session modal: [ImportSessionModal] *)

Module ImportSession.
Import JS.

(** [response.data.details] *)
Module Details.
Record t := mk {
  filename : string;
  format : string;
  converted : bool;
  cookies_count : Z;
  facebook_user_id : string;
  email : string;
  account_created : bool;
  account_id : Z
}.
End Details.

Inductive InputMethod := paste | upload.

Record State := mkState {
  sessionData : string;
  filename : string;
  loading : bool;
  error : string;
  success : bool;
  importDetails : option Details.t;
  inputMethod : InputMethod
}.

Inductive MessageType := type_success | type_error.

(** The two timer callbacks: [handleClose(); onSuccess(message, type)]. *)
Inductive Callback :=
| close_and_notify (message : string) (type : MessageType).

(** Calls to the outside: the request, [setTimeout], [console.error]
    and the props [onClose], [onSuccess]. *)
Inductive Event :=
| ImportSessionCall (session_data : json) (filename : string)
| SetTimeout (callback : Callback) (ms : Z)
| ConsoleError (msg : string)
| OnClose
| OnSuccess (message : string) (type : MessageType).

Record World := mkWorld {
  st : State;
  out : list Event
}.

Definition Action := World -> World.
Definition seq (a b : Action) : Action := fun w => b (a w).
Notation "a >> b" := (seq a b) (at level 85, right associativity).
Definition skip : Action := fun w => w.

Definition modify (f : State -> State) : Action :=
  fun w => mkWorld (f (st w)) (out w).
Definition emit (e : Event) : Action :=
  fun w => mkWorld (st w) (out w ++ [e]).

Definition setSessionData (v : string) : Action :=
  modify (fun s => mkState v (filename s) (loading s) (error s)
    (success s) (importDetails s) (inputMethod s)).
Definition setFilename (v : string) : Action :=
  modify (fun s => mkState (sessionData s) v (loading s) (error s)
    (success s) (importDetails s) (inputMethod s)).
Definition setLoading (v : bool) : Action :=
  modify (fun s => mkState (sessionData s) (filename s) v (error s)
    (success s) (importDetails s) (inputMethod s)).
Definition setError (v : string) : Action :=
  modify (fun s => mkState (sessionData s) (filename s) (loading s) v
    (success s) (importDetails s) (inputMethod s)).
Definition setSuccess (v : bool) : Action :=
  modify (fun s => mkState (sessionData s) (filename s) (loading s) (error s)
    v (importDetails s) (inputMethod s)).
Definition setImportDetails (v : option Details.t) : Action :=
  modify (fun s => mkState (sessionData s) (filename s) (loading s) (error s)
    (success s) v (inputMethod s)).
Definition setInputMethod (v : InputMethod) : Action :=
  modify (fun s => mkState (sessionData s) (filename s) (loading s) (error s)
    (success s) (importDetails s) v).

Definition initialState : State :=
  mkState "" "" false "" false None upload.

(** [name.endsWith(suffix)] *)
Definition endsWith (name suffix : string) : bool :=
  let n := String.length name in
  let m := String.length suffix in
  (m <=? n)%nat && String.eqb (substring (n - m) m name) suffix.

(** [name.replace(pattern, "")] for a string pattern: the first
    occurrence is removed. *)
Definition remove_first (pattern name : string) : string :=
  match index 0 pattern name with
  | Some i =>
      substring 0 i name
      +:+ substring (i + String.length pattern)
                    (String.length name - (i + String.length pattern)) name
  | None => name
  end.

Definition handleClose : Action :=
  setSessionData "" >>
  setFilename "" >>
  setError "" >>
  setSuccess false >>
  setImportDetails None >>
  setInputMethod upload >>
  emit OnClose.

(** A timer callback, when it fires. *)
Definition fire (c : Callback) : Action :=
  match c with
  | close_and_notify message type =>
      handleClose >> emit (OnSuccess message type)
  end.

(** What the [catch] block reads of a rejection:
    [error.response?.data?.error] and [error.response?.status]. *)
Inductive Rejection :=
| NoResponse
| WithResponse (error : option string) (status : option Z).

Inductive Outcome :=
| Resolved (details : Details.t)
| Rejected (e : Rejection).

Definition errorMsg (e : Rejection) : string :=
  match e with
  | NoResponse => "Failed to import session"
  | WithResponse error _ => str_or error "Failed to import session"
  end.

(** [error.response?.status !== 400] *)
Definition unexpected (e : Rejection) : bool :=
  match e with
  | WithResponse _ (Some status) => negb (status =? 400)
  | _ => true
  end.

Definition successMsg (details : Details.t) : string :=
  "Session imported successfully for " +:+ Details.email details +:+ "! "
  +:+ (if Details.account_created details
       then "New account created."
       else "Account updated.").

Section WithRuntime.
Context `{Runtime}.

(** [!s.trim()] *)
Definition blank (s : string) : bool := negb (truthy (trim s)).

(** [handleFileUpload] up to [reader.readAsText(file)] (lines 36-49);
    [file] is the name of [e.target.files?.[0]]. *)
Definition handleFileUpload (file : option string) : Action :=
  match file with
  | None => skip
  | Some name =>
      if negb (endsWith name ".json") then
        setError "Please upload a JSON file"
      else
        setFilename (remove_first ".json" name)
  end.

(** Whether [handleFileUpload] goes on to read the file. *)
Definition reads (file : option string) : bool :=
  match file with
  | Some name => endsWith name ".json"
  | None => false
  end.

(** [reader.onload] (lines 52-63) *)
Definition reader_onload (content : string) : Action :=
  match JSON_parse content with
  | Some _ => setSessionData content >> setError ""
  | None => setError "Invalid JSON file format" >> setSessionData ""
  end.

(** [onChange] of the textarea (lines 314-333) *)
Definition textarea_onChange (value : string) : Action :=
  setSessionData value >>
  if blank value then
    setError ""
  else
    match JSON_parse value with
    | Some _ => setError ""
    | None => setError "Invalid JSON format. Please check your pasted data."
    end.

(** [handleSubmit] from the start to the request (lines 67-103) *)
Definition handleSubmit_request (r : State) : Action :=
  setError "" >>
  setSuccess false >>
  setImportDetails None >>
  if blank (sessionData r) then
    setError "Please provide session data"
  else if blank (filename r) then
    setError "Please provide a filename"
  else
    setLoading true >>
    match JSON_parse (sessionData r) with
    | None =>
        setError "Invalid JSON format. Please paste valid JSON data from your browser session export." >>
        setLoading false >>
        setLoading false
    | Some parsedData =>
        emit (ImportSessionCall parsedData (filename r))
    end.

(** [handleSubmit] from the settled request to the end (lines 105-142) *)
Definition handleSubmit_settle (o : Outcome) : Action :=
  match o with
  | Resolved details =>
      setSuccess true >>
      setImportDetails (Some details) >>
      emit (SetTimeout (close_and_notify (successMsg details) type_success) 1500)
  | Rejected e =>
      setError (errorMsg e) >>
      emit (SetTimeout (close_and_notify (errorMsg e) type_error) 3000) >>
      if unexpected e then emit (ConsoleError "Import session error:") else skip
  end >>
  setLoading false.

(** [disabled] of the Import Session button (line 427) *)
Definition submitDisabled (r : State) : bool :=
  loading r || blank (sessionData r) || blank (filename r).

(** The error panel is rendered when [error] is truthy (line 227). *)
Definition errorShown (r : State) : bool := truthy (error r).

End WithRuntime.

(** *** Calls to the outside, by kind *)

Definition calls (events : list Event) : list (json * string) :=
  omap (fun e => match e with
                 | ImportSessionCall session_data filename =>
                     Some (session_data, filename)
                 | _ => None
                 end) events.

Definition timers (events : list Event) : list (Callback * Z) :=
  omap (fun e => match e with
                 | SetTimeout callback ms => Some (callback, ms)
                 | _ => None
                 end) events.

Definition console_errors (events : list Event) : list string :=
  omap (fun e => match e with ConsoleError msg => Some msg | _ => None end)
       events.

End ImportSession.

(** ** Image proxy route: [src/app/api/image-proxy/route.ts] *)

Module ImageProxy.
Import JS.

Inductive Body :=
| Text (s : string)
| ArrayBuffer (bytes : list Z).

(** A [NextResponse]: body, status, and the headers it carries, each
    under its name in lower case. *)
Record NextResponse := mkResponse {
  body : Body;
  status : Z;
  headers : list (string * string)
}.

(** What the handler reads of the upstream response: [status],
    [headers.get("content-type")], and [arrayBuffer()], which is [None]
    when reading the body throws. *)
Module Upstream.
Record t := mk {
  status : Z;
  content_type : option string;
  arrayBuffer : option (list Z)
}.

(** [response.ok]: the status is in the range 200 to 299. *)
Definition ok (response : t) : bool :=
  (200 <=? status response) && (status response <=? 299).
End Upstream.




(** The statuses with which [new Response(body, { status })] throws for
    a body that is not null: a RangeError outside 200 to 599, a
    TypeError for a null body status. *)
Definition constructor_throws (status : Z) : bool :=
  (status <? 200) || (599 <? status)
  || (status =? 204) || (status =? 205) || (status =? 304).

(** [new NextResponse(text, { status })], for a status that the
    constructor accepts: a text body gets the content type of text. *)
Definition text_response (text : string) (status : Z) : NextResponse :=
  mkResponse (Text text) status
             [("content-type", "text/plain;charset=UTF-8")].

(** [fetch(url, { headers })]: [None] when it throws. *)
Definition Fetch := string -> list (string * string) -> option Upstream.t.

Definition GET (fetch : Fetch) (url : option string) : NextResponse :=
  (* the catch block: console.error, then the answer *)
  let caught := text_response "Failed to load image" 500 in
  match url with
  | Some imageUrl =>
      if truthy imageUrl then
        match fetch imageUrl [("ngrok-skip-browser-warning", "true")] with
        | Some response =>
            if negb (Upstream.ok response) then
              if constructor_throws (Upstream.status response) then caught
              else text_response "Failed to fetch image"
                                 (Upstream.status response)
            else
              match Upstream.arrayBuffer response with
              | Some imageBuffer =>
                  let contentType :=
                    str_or (Upstream.content_type response) "image/jpeg" in
                  mkResponse (ArrayBuffer imageBuffer) 200
                    [("content-type", contentType);
                     ("cache-control", "public, max-age=31536000, immutable")]
              | None => caught
              end
        | None => caught
        end
      else text_response "Missing image URL" 400
  | None => text_response "Missing image URL" 400
  end.

End ImageProxy.

(** ** A reference runtime

    Executable versions of the built-ins, used to run the definitions
    above on concrete inputs: JSON text after ECMA-404, the date-time
    format that [toISOString] writes, the conversions of [+] and
    [new Date], and [trim] for ASCII white space.  The properties below
    are stated for every [Runtime]; this one makes their hypotheses
    checkable on examples. *)

Module Reference.
Import JS.

Definition code (c : ascii) : Z := Z.of_nat (nat_of_ascii c).
Definition char (n : Z) : ascii := ascii_of_nat (Z.to_nat n).
Definition ch (n : Z) (c : ascii) : bool := code c =? n.

(** *** String.prototype.trim *)

Definition is_space (c : ascii) : bool :=
  ((9 <=? code c) && (code c <=? 13)) || ch 32 c.

Fixpoint trimStart (s : string) : string :=
  match s with
  | String c r => if is_space c then trimStart r else s
  | EmptyString => EmptyString
  end.

Definition trim (s : string) : string :=
  String.rev (trimStart (String.rev (trimStart s))).

(** *** JSON.parse *)

Definition is_digit (c : ascii) : bool := (48 <=? code c) && (code c <=? 57).
Definition is_ws (c : ascii) : bool := ch 32 c || ch 9 c || ch 10 c || ch 13 c.

Fixpoint skip_ws (s : list ascii) : list ascii :=
  match s with
  | c :: r => if is_ws c then skip_ws r else s
  | [] => []
  end.

Fixpoint span_digits (s : list ascii) : list ascii * list ascii :=
  match s with
  | c :: r =>
      if is_digit c
      then let '(d, r') := span_digits r in (c :: d, r')
      else ([], s)
  | [] => ([], [])
  end.

Definition digits_value (d : list ascii) : Z :=
  fold_left (fun acc c => 10 * acc + (code c - 48)) d 0.

(** [int]: a single 0, or a non-empty run of digits not starting with 0 *)
Definition span_int (s : list ascii) : option (list ascii * list ascii) :=
  match s with
  | c :: r =>
      if ch 48 c then Some ([c], r)
      else if is_digit c then Some (span_digits s)
      else None
  | [] => None
  end.

Definition span_frac (s : list ascii) : option (list ascii * list ascii) :=
  match s with
  | c :: r =>
      if ch 46 c then
        match span_digits r with
        | ([], _) => None
        | (d, r') => Some (c :: d, r')
        end
      else Some ([], s)
  | [] => Some ([], [])
  end.

Definition span_sign (s : list ascii) : list ascii * list ascii :=
  match s with
  | c :: r => if ch 43 c || ch 45 c then ([c], r) else ([], s)
  | [] => ([], [])
  end.

Definition span_exp (s : list ascii) : option (list ascii * list ascii) :=
  match s with
  | c :: r =>
      if ch 101 c || ch 69 c then
        let '(sg, r1) := span_sign r in
        match span_digits r1 with
        | ([], _) => None
        | (d, r2) => Some (c :: sg ++ d, r2)
        end
      else Some ([], s)
  | [] => Some ([], [])
  end.

(** The value [m * 10^e] of a number literal: its digits before and
    after the point as one integer, and the exponent less the number of
    digits after the point. *)
Definition exponent (exp : list ascii) : Z :=
  match exp with
  | _ :: sign :: d =>
      if ch 45 sign then - digits_value d
      else if ch 43 sign then digits_value d
      else digits_value (sign :: d)
  | _ => 0
  end.

Definition decimal (neg : bool) (int frac exp : list ascii) : Z * Z :=
  let m := digits_value (int ++ tl frac) in
  (if neg then - m else m, exponent exp - Z.of_nat (length (tl frac))).

(** [m * 10^e] as an integer, when it is one (and not too long to
    write out). *)
Definition integer (d : Z * Z) : option Z :=
  let '(m, e) := d in
  if m =? 0 then Some 0
  else if 400 <? Z.abs e then None
  else if 0 <=? e then Some (m * 10 ^ e)
  else if Z.rem m (10 ^ (- e)) =? 0 then Some (Z.quot m (10 ^ (- e)))
  else None.

(** [v] in decimal, at least [width] digits *)
Fixpoint pad (width : nat) (v : Z) : list ascii :=
  match width with
  | O => []
  | S w => pad w (v / 10) ++ [char (48 + v mod 10)]
  end.

(** [m * 10^e] without zeros at the end of [m], as far as [e] is
    negative. *)
Fixpoint strip (fuel : nat) (m e : Z) : Z * Z :=
  match fuel with
  | O => (m, e)
  | S fuel =>
      if (e <? 0) && (Z.rem m 10 =? 0) then strip fuel (Z.quot m 10) (e + 1)
      else (m, e)
  end.

(** The number [m * 10^e]: an integer, or the literal of a number with
    digits after the point. *)
Definition number_of (d : Z * Z) : json :=
  match integer d with
  | Some n => JNum n
  | None =>
      let '(m, e) := strip (Z.to_nat (- snd d)) (fst d) (snd d) in
      let p := 10 ^ (- e) in
      JFrac ((if m <? 0 then "-" else "")
             +:+ pretty (Z.abs m / p) +:+ "."
             +:+ string_of_list_ascii (pad (Z.to_nat (- e)) (Z.abs m mod p)))
  end.

(** A number is read as the value of its literal; a literal with an
    exponent beyond 400 is kept as it is written. *)
Definition parse_number (s : list ascii) : option (json * list ascii) :=
  let '(neg, s1) :=
    match s with
    | c :: r => if ch 45 c then (true, r) else (false, s)
    | [] => (false, s)
    end in
  '(int, s2) ← span_int s1;
  '(frac, s3) ← span_frac s2;
  '(exp, s4) ← span_exp s3;
  let d := decimal neg int frac exp in
  if 400 <? Z.abs (snd d) then
    Some (JFrac (string_of_list_ascii
                   ((if neg then [char 45] else []) ++ int ++ frac ++ exp)),
          s4)
  else Some (number_of d, s4).

Definition hex_value (c : ascii) : option Z :=
  if is_digit c then Some (code c - 48)
  else if (97 <=? code c) && (code c <=? 102) then Some (code c - 87)
  else if (65 <=? code c) && (code c <=? 70) then Some (code c - 55)
  else None.

(** The bytes (UTF-8) of a code unit below 0x10000. *)
Definition utf8 (u : Z) : list ascii :=
  if u <? 128 then [char u]
  else if u <? 2048 then [char (192 + u / 64); char (128 + u mod 64)]
  else [char (224 + u / 4096); char (128 + (u / 64) mod 64);
        char (128 + u mod 64)].

Definition unescape (c : ascii) : option ascii :=
  if ch 34 c || ch 92 c || ch 47 c then Some c
  else if ch 98 c then Some (char 8)
  else if ch 102 c then Some (char 12)
  else if ch 110 c then Some (char 10)
  else if ch 114 c then Some (char 13)
  else if ch 116 c then Some (char 9)
  else None.

(** The characters of a string literal after its opening quote. *)
Fixpoint parse_string (s : list ascii) : option (list ascii * list ascii) :=
  match s with
  | [] => None
  | c :: r =>
      if ch 34 c then Some ([], r)
      else if ch 92 c then
        match r with
        | e :: r1 =>
            match unescape e with
            | Some c' =>
                '(cs, r') ← parse_string r1; Some (c' :: cs, r')
            | None =>
                if ch 117 e then
                  match r1 with
                  | h1 :: h2 :: h3 :: h4 :: r2 =>
                      a ← hex_value h1; b ← hex_value h2;
                      c ← hex_value h3; d ← hex_value h4;
                      '(cs, r') ← parse_string r2;
                      Some (utf8 (4096 * a + 256 * b + 16 * c + d) ++ cs, r')
                  | _ => None
                  end
                else None
            end
        | [] => None
        end
      else if code c <? 32 then None
      else '(cs, r') ← parse_string r; Some (c :: cs, r')
  end.

Fixpoint strip_prefix (p s : list ascii) : option (list ascii) :=
  match p, s with
  | [], _ => Some s
  | a :: p', b :: s' => if Ascii.eqb a b then strip_prefix p' s' else None
  | _ :: _, [] => None
  end.

Definition parse_literal (word : string) (v : json) (s : list ascii)
  : option (json * list ascii) :=
  r ← strip_prefix (list_ascii_of_string word) s; Some (v, r).

Fixpoint parse_value (fuel : nat) (s : list ascii)
  : option (json * list ascii) :=
  match fuel with
  | O => None
  | S fuel =>
      match skip_ws s with
      | [] => None
      | c :: r =>
          if ch 34 c then
            '(cs, r') ← parse_string r;
            Some (JStr (string_of_list_ascii cs), r')
          else if ch 91 c then
            match skip_ws r with
            | c' :: r' =>
                if ch 93 c' then Some (JArr [], r')
                else '(items, r'') ← parse_elements fuel r;
                     Some (JArr items, r'')
            | [] => None
            end
          else if ch 123 c then
            match skip_ws r with
            | c' :: r' =>
                if ch 125 c' then Some (JObj [], r')
                else '(members, r'') ← parse_members fuel r;
                     Some (JObj members, r'')
            | [] => None
            end
          else if ch 110 c then parse_literal "null" JNull (c :: r)
          else if ch 116 c then parse_literal "true" (JBool true) (c :: r)
          else if ch 102 c then parse_literal "false" (JBool false) (c :: r)
          else parse_number (c :: r)
      end
  end
with parse_elements (fuel : nat) (s : list ascii)
  : option (list json * list ascii) :=
  match fuel with
  | O => None
  | S fuel =>
      '(v, r) ← parse_value fuel s;
      match skip_ws r with
      | c :: r' =>
          if ch 44 c then
            '(vs, r'') ← parse_elements fuel r'; Some (v :: vs, r'')
          else if ch 93 c then Some ([v], r')
          else None
      | [] => None
      end
  end
with parse_members (fuel : nat) (s : list ascii)
  : option (list (string * json) * list ascii) :=
  match fuel with
  | O => None
  | S fuel =>
      match skip_ws s with
      | q :: r0 =>
          if ch 34 q then
            '(k, r1) ← parse_string r0;
            match skip_ws r1 with
            | colon :: r2 =>
                if ch 58 colon then
                  '(v, r3) ← parse_value fuel r2;
                  match skip_ws r3 with
                  | c :: r4 =>
                      if ch 44 c then
                        '(ms, r5) ← parse_members fuel r4;
                        Some ((string_of_list_ascii k, v) :: ms, r5)
                      else if ch 125 c then
                        Some ([(string_of_list_ascii k, v)], r4)
                      else None
                  | [] => None
                  end
                else None
            | [] => None
            end
          else None
      | [] => None
      end
  end.

Definition JSON_parse (text : string) : option json :=
  let s := list_ascii_of_string text in
  '(v, r) ← parse_value (2 * length s + 2) s;
  match skip_ws r with
  | [] => Some v
  | _ :: _ => None
  end.

(** *** JSON.stringify *)

Definition hex_digit (n : Z) : ascii :=
  if n <? 10 then char (48 + n) else char (87 + n).

Definition escape (c : ascii) : list ascii :=
  if ch 34 c || ch 92 c then [char 92; c]
  else if ch 8 c then [char 92; char 98]
  else if ch 12 c then [char 92; char 102]
  else if ch 10 c then [char 92; char 110]
  else if ch 13 c then [char 92; char 114]
  else if ch 9 c then [char 92; char 116]
  else if code c <? 32 then
    [char 92; char 117; char 48; char 48;
     hex_digit (code c / 16); hex_digit (code c mod 16)]
  else [c].

Definition quote (s : string) : string :=
  string_of_list_ascii
    ([char 34] ++ concat (map escape (list_ascii_of_string s)) ++ [char 34]).

Fixpoint join (sep : string) (parts : list string) : string :=
  match parts with
  | [] => ""
  | [p] => p
  | p :: rest => p +:+ sep +:+ join sep rest
  end.

Fixpoint JSON_stringify (j : json) : string :=
  match j with
  | JNull => "null"
  | JBool true => "true"
  | JBool false => "false"
  | JNum n => pretty n
  | JFrac lit => lit
  | JStr s => quote s
  | JArr items => "[" +:+ join "," (map JSON_stringify items) +:+ "]"
  | JObj members =>
      "{" +:+ join "," (map (fun m => quote (fst m) +:+ ":"
                                      +:+ JSON_stringify (snd m)) members)
      +:+ "}"
  end.

(** *** Date: the format [YYYY-MM-DDTHH:mm:ss.sssZ]

    Days are counted from 1970-01-01 in the proleptic Gregorian
    calendar, years beginning in March inside the computation. *)

Definition days_from_civil (y m d : Z) : Z :=
  let y := if m <=? 2 then y - 1 else y in
  let era := y / 400 in
  let yoe := y - era * 400 in
  let doy := (153 * (if 2 <? m then m - 3 else m + 9) + 2) / 5 + d - 1 in
  let doe := yoe * 365 + yoe / 4 - yoe / 100 + doy in
  era * 146097 + doe - 719468.

Definition civil_from_days (z : Z) : Z * Z * Z :=
  let z := z + 719468 in
  let era := z / 146097 in
  let doe := z - era * 146097 in
  let yoe := (doe - doe / 1460 + doe / 36524 - doe / 146096) / 365 in
  let doy := doe - (365 * yoe + yoe / 4 - yoe / 100) in
  let mp := (5 * doy + 2) / 153 in
  let d := doy - (153 * mp + 2) / 5 + 1 in
  let m := if mp <? 10 then mp + 3 else mp - 9 in
  let y := yoe + era * 400 in
  (if m <=? 2 then y + 1 else y, m, d).

Definition toISOString (t : Z) : string :=
  let '(y, m, d) := civil_from_days (t / 86400000) in
  let ms := t mod 86400000 in
  string_of_list_ascii
    ((if (0 <=? y) && (y <=? 9999) then pad 4 y
      else (if y <? 0 then [char 45] else [char 43]) ++ pad 6 (Z.abs y))
     ++ [char 45] ++ pad 2 m ++ [char 45] ++ pad 2 d
     ++ [char 84] ++ pad 2 (ms / 3600000)
     ++ [char 58] ++ pad 2 (ms / 60000 mod 60)
     ++ [char 58] ++ pad 2 (ms / 1000 mod 60)
     ++ [char 46] ++ pad 3 (ms mod 1000)
     ++ [char 90]).

(** Exactly [n] digits *)
Fixpoint take_digits (n : nat) (s : list ascii) : option (list ascii * list ascii) :=
  match n, s with
  | O, _ => Some ([], s)
  | S n', c :: r =>
      if is_digit c
      then '(d, r') ← take_digits n' r; Some (c :: d, r')
      else None
  | S _, [] => None
  end.

Definition number (n : nat) (s : list ascii) : option (Z * list ascii) :=
  '(d, r) ← take_digits n s; Some (digits_value d, r).

Definition expect (n : Z) (s : list ascii) : option (list ascii) :=
  match s with
  | c :: r => if ch n c then Some r else None
  | [] => None
  end.

Definition parse_year (s : list ascii) : option (Z * list ascii) :=
  match s with
  | c :: r =>
      if ch 43 c then number 6 r
      else if ch 45 c then '(y, r') ← number 6 r; Some (- y, r')
      else number 4 s
  | [] => None
  end.

Definition days_in_month (y m : Z) : Z :=
  days_from_civil (if m =? 12 then y + 1 else y) (if m =? 12 then 1 else m + 1) 1
  - days_from_civil y m 1.

(** [new Date(s)] for the format above; any other text gives an
    invalid date here. *)
Definition Date_parse (text : string) : Date :=
  let parsed :=
    '(y, s) ← parse_year (list_ascii_of_string text);
    s ← expect 45 s; '(m, s) ← number 2 s;
    s ← expect 45 s; '(d, s) ← number 2 s;
    s ← expect 84 s; '(hh, s) ← number 2 s;
    s ← expect 58 s; '(mm, s) ← number 2 s;
    s ← expect 58 s; '(ss, s) ← number 2 s;
    s ← expect 46 s; '(ms, s) ← number 3 s;
    s ← expect 90 s;
    match s with
    | [] =>
        if (1 <=? m) && (m <=? 12) && (1 <=? d) && (d <=? days_in_month y m)
           && (hh <=? 23) && (mm <=? 59) && (ss <=? 59)
        then Some (days_from_civil y m d * 86400000
                   + hh * 3600000 + mm * 60000 + ss * 1000 + ms)
        else None
    | _ :: _ => None
    end in
  match parsed with
  | Some t =>
      if Z.abs t <=? 8640000000000000 then TimeValue t else InvalidDate
  | None => InvalidDate
  end.

(** *** Conversions: what [+] and [new Date] do to a value that is
    not a string or an integer

    Numbers that are not integers are taken as exact decimals, without
    the rounding of doubles, and written without an exponent. *)

(** [String(v)]; [None] for the TypeError of an object whose own
    [toString] is not a function.  Elements of an array are joined with
    commas, null as the empty string; an integer is written in decimal
    digits, whatever its size. *)
Fixpoint to_string (v : json) : option string :=
  match v with
  | JNull => Some "null"
  | JBool true => Some "true"
  | JBool false => Some "false"
  | JNum n => Some (pretty n)
  | JFrac lit => Some lit
  | JStr s => Some s
  | JArr items =>
      join "," <$> mapM (fun item =>
                           match item with
                           | JNull => Some ""
                           | _ => to_string item
                           end) items
  | JObj members =>
      if has_prop "toString" members then None else Some "[object Object]"
  end.

(** The primitive that an operand of [+] or the argument of [new Date]
    is converted to. *)
Definition primitive (v : json) : option json :=
  match v with
  | JArr _ | JObj _ => JStr <$> to_string v
  | _ => Some v
  end.

(** The value of a number literal. *)
Definition literal_decimal (lit : string) : option (Z * Z) :=
  let s := list_ascii_of_string lit in
  let '(neg, s1) :=
    match s with
    | c :: r => if ch 45 c then (true, r) else (false, s)
    | [] => (false, s)
    end in
  '(int, s2) ← span_int s1;
  '(frac, s3) ← span_frac s2;
  '(exp, s4) ← span_exp s3;
  match s4 with
  | [] => Some (decimal neg int frac exp)
  | _ :: _ => None
  end.

(** The number that a primitive other than a string is converted to. *)
Definition to_number (v : json) : option (Z * Z) :=
  match v with
  | JNull => Some (0, 0)
  | JBool b => Some (if b then 1 else 0, 0)
  | JNum n => Some (n, 0)
  | JFrac lit => literal_decimal lit
  | JStr _ | JArr _ | JObj _ => None
  end.

Definition scale (d : Z * Z) (e : Z) : Z := fst d * 10 ^ (snd d - e).

(** [a + b] *)
Definition add (a b : json) : option json :=
  a ← primitive a;
  b ← primitive b;
  match a, b with
  | JStr _, _ | _, JStr _ =>
      sa ← to_string a; sb ← to_string b; Some (JStr (sa +:+ sb))
  | _, _ =>
      da ← to_number a; db ← to_number b;
      let e := Z.min (snd da) (snd db) in
      Some (number_of (scale da e + scale db e, e))
  end.

(** [new Date(v)] for a value that is not a string: a number is cut to
    an integer time value. *)
Definition Date_of (v : json) : option Date :=
  p ← primitive v;
  Some match p with
       | JStr s => Date_parse s
       | _ =>
           match to_number p with
           | Some (m, e) =>
               let t := if 0 <=? e then m * 10 ^ e else Z.quot m (10 ^ (- e)) in
               if Z.abs t <=? 8640000000000000 then TimeValue t else InvalidDate
           | None => InvalidDate
           end
       end.

Definition runtime : Runtime :=
  {| JS.JSON_parse := JSON_parse;
     JS.JSON_stringify := JSON_stringify;
     JS.Date_parse := Date_parse;
     JS.Date_of := Date_of;
     JS.toISOString := toISOString;
     JS.add := add;
     JS.trim := trim |}.

End Reference.

(** ** Concrete inputs

    Stores, renders and responses on which the properties below are run
    with the reference runtime. *)

Module Examples.
Import JS.

(** 2025-11-03T00:00:00.000Z *)
Definition now0 : Z := 1762128000000.
Definition hour : Z := 3600000.
Definition day : Z := 86400000.

(** *** Renewal page *)

(** The properties of a result as the API returns it; a missing
    [renewed_count] is left out. *)
Definition result_fields (account : Z) (renewed : option Z)
  : list (string * json) :=
  [("account_id", JNum account); ("email", JStr "a@example.com")]
  ++ match renewed with
     | Some n => [("renewed_count", JNum n)]
     | None => []
     end
  ++ [("available_count", JNum 20); ("success", JBool true);
      ("message", JStr "ok"); ("condition_met", JStr "met")].

(** A result as the API returns it. *)
Definition entry (account : Z) (renewed : option Z) : Renew.RenewalResult :=
  Renew.mkLog (result_fields account renewed) None.

(** The same entry as the save effect writes it at time [t]. *)
Definition stored_at (t : Z) (account : Z) (renewed : option Z)
  : Renew.StoredLog :=
  Renew.with_timestamp (entry account renewed) (Reference.toISOString t).

Definition logs_text (logs : list Renew.StoredLog) : string :=
  Reference.JSON_stringify (JArr (map Renew.log_to_json logs)).

Definition old_log : Renew.StoredLog := stored_at (now0 - 2 * day) 1 (Some 4).
Definition fresh_log : Renew.StoredLog := stored_at (now0 - hour) 2 (Some 5).

Definition logs_store : gmap string string :=
  {[ "renewalActivityLogs" := logs_text [old_log; fresh_log] ]}.

(** A stored entry as the load effect reads it: the object that was
    written, and the string under its [timestamp]. *)
Definition as_stored (log : Renew.StoredLog) : Renew.Stored :=
  (set_prop "timestamp" (JStr (Renew.timestamp log)) (Renew.fields log),
   Renew.timestamp log).



(** Stores whose log was not written by the page: an array holding the
    empty object, and an array holding null. *)
Definition empty_object_store : gmap string string :=
  {[ "renewalActivityLogs" := "[{}]" ]}.

Definition null_store : gmap string string :=
  {[ "renewalActivityLogs" := "[null]" ]}.

Definition marked_store : gmap string string :=
  {[ "activeRenewalJobId" := Renew.jobId now0 "k3x9q2m1z" ]}.

Definition two_accounts : list Renew.Account.t :=
  [Renew.Account.mk 1 "a@example.com"; Renew.Account.mk 2 "b@example.com"].

(** A render with the given selection, count and results. *)
Definition render (selected : list Z) (count : Z)
    (results : list Renew.RenewalResult) : Renew.State :=
  Renew.mkState two_accounts selected count false results (JNum 0) None.

Definition page (selected : list Z) : Renew.World :=
  Renew.mkWorld (render selected 20 []) ∅ [].

(** [new Date()] for entry [i], one millisecond apart, from [t]. *)
Definition ticking (t : Z) : nat -> Z := fun i => t + Z.of_nat i.

(** A visit to the page: the log is loaded, a renewal for account 1 is
    submitted and resolves with one result, the save effect runs on the
    render with that result, and the select-all button is clicked. *)
Definition renewal_run : list Renew.Op :=
  [Renew.op_loadLogs now0;
   Renew.op_handleRenewal_request (render [1] 20 []) now0 "k3x9q2m1z";
   Renew.op_handleRenewal_settle (ticking now0)
     (Renew.Resolved (Renew.Response.mk [entry 1 (Some 5)] None));
   Renew.op_saveLogs
     (render [1] 20
        [Renew.with_timestamp (entry 1 (Some 5)) (Some (TimeValue now0))])
     (ticking now0);
   Renew.op_selectAll (render [1] 20 [])].

(** *** Bulk upload modal *)

Definition modal_accounts : list BulkUpload.FacebookAccount :=
  [BulkUpload.mkAccount 1 "a@example.com" true;
   BulkUpload.mkAccount 2 "b@example.com" false].

Definition posts_txt : BulkUpload.File.t := BulkUpload.File.mk "posts.txt" "text/plain".
Definition photo_jpg : BulkUpload.File.t := BulkUpload.File.mk "photo.jpg" "image/jpeg".

Definition modal (selected : list Z) : BulkUpload.World :=
  BulkUpload.mkWorld
    (BulkUpload.mkState modal_accounts selected (Some posts_txt) [photo_jpg]
       true None)
    [].

Definition no_data : BulkUpload.Data.t :=
  BulkUpload.Data.mk None None None None None.

(** *** Import session modal *)

Definition quoted (s : string) : string := Reference.quote s.

(** The text [{bad json] *)
Definition bad_json : string := "{bad json".

(** The valid text of the scenario: an array of one cookie object with
    the members name (c_user) and value (x). *)
Definition cookie_json : string :=
  "[{" +:+ quoted "name" +:+ ":" +:+ quoted "c_user" +:+ ","
  +:+ quoted "value" +:+ ":" +:+ quoted "x" +:+ "}]".

(** The paste tab, a filename typed in, nothing loading. *)
Definition paste_form : ImportSession.World :=
  ImportSession.mkWorld
    (ImportSession.mkState "" "user@example.com" false "" false None
       ImportSession.paste)
    [].

(** *** Image proxy *)

Definition image_url : string := "https://images.example.com/a.jpg".

Definition jpeg_bytes : list Z := [255; 216; 255; 224].

(** An upstream that answers every request with the given response. *)
Definition answering (response : ImageProxy.Upstream.t) : ImageProxy.Fetch :=
  fun _ _ => Some response.


Definition png_response : ImageProxy.Upstream.t :=
  ImageProxy.Upstream.mk 200 (Some "image/png") (Some jpeg_bytes).



(** *** Further inputs *)

Definition text_file (name : string) : BulkUpload.File.t :=
  BulkUpload.File.mk name "text/plain".

Definition notes_pdf : BulkUpload.File.t :=
  BulkUpload.File.mk "notes.pdf" "application/pdf".

(** The import form after a paste. *)
Definition filled_form : ImportSession.World :=
  ImportSession.mkWorld
    (ImportSession.mkState cookie_json "user@example.com" false "" false None
       ImportSession.paste)
    [].

End Examples.

(** * Properties *)

Section RenewProperties.
Import JS Renew.
Context `{Runtime}.

Lemma resetRenewalState_cleared w : cleared (resetRenewalState w).
Proof.
  unfold cleared, resetRenewalState, seq; cbn.
  split; [reflexivity | split; [apply lookup_delete_eq | reflexivity]].
Qed.

Lemma setLoading_false_cleared w : cleared w -> cleared (setLoading false w).
Proof. intros (Hid & Hls & _). unfold cleared; cbn. auto. Qed.

Lemma settle_cleared clock o w : cleared (handleRenewal_settle clock o w).
Proof.
  unfold handleRenewal_settle, seq.
  apply setLoading_false_cleared.
  destruct o as [d | e]; [destruct (calculatedTotal d) |];
    apply resetRenewalState_cleared.
Qed.

Lemma checkRenewalStatus_cleared r w jobId :
  activeRenewalJobId r = Some jobId -> truthy jobId = true ->
  cleared (checkRenewalStatus r w).
Proof.
  intros Hid Ht. unfold checkRenewalStatus. rewrite Hid, Ht.
  destruct (0 <? length (results r))%nat; unfold cleared, seq; cbn;
    (split; [reflexivity | split; [apply lookup_delete_eq | reflexivity]]).
Qed.

(** C1.  Every way a renewal ends leaves the job marker cleared, in the
    component ([activeRenewalJobId] is null) and in localStorage (the
    key is removed), and [loading] false: [handleRenewal] after a
    resolved request, [handleRenewal] after a rejected request, and the
    status check that runs when the render holds a job id, in
    particular the one read from localStorage by a fresh mount. *)
Theorem C1_termination_clears_marker_and_loading :
  forall (ls : gmap string string) (jobId : string),
    ls !! "activeRenewalJobId" = Some jobId ->
    truthy jobId = true ->
    (forall clock d w, cleared (handleRenewal_settle clock (Resolved d) w))
    /\ (forall clock e w, cleared (handleRenewal_settle clock (Rejected e) w))
    /\ (forall api r now rnd clock w,
           submits r = true -> cleared (handleRenewal api r now rnd clock w))
    /\ (forall r w, activeRenewalJobId r = Some jobId ->
                    cleared (checkRenewalStatus r w))
    /\ (forall now clock, cleared (mountEffects now clock ls)).
Proof.
  intros ls jobId Hls Ht.
  split; [intros; apply settle_cleared |].
  split; [intros; apply settle_cleared |].
  split.
  { intros api r now rnd clock w Hs. unfold handleRenewal, seq.
    rewrite Hs. apply settle_cleared. }
  split; [intros r w Hr; eapply checkRenewalStatus_cleared; eauto |].
  intros now clock. unfold mountEffects, seq.
  eapply checkRenewalStatus_cleared; eauto.
Qed.

(** C6.  With no account selected, or a count below 1 or above 20,
    [handleRenewal] shows one alert and does nothing else: no request
    is issued and results, total, job marker, loading flag and
    localStorage are as before. *)
Theorem C6_invalid_renewal_is_blocked :
  forall api (r : State) now rnd clock (w : World),
    selectedAccounts r = [] \/ renewalCount r < 1 \/ 20 < renewalCount r ->
    exists msg,
      handleRenewal api r now rnd clock w
      = mkWorld (st w) (localStorage w) (out w ++ [Alert msg])
      /\ handleRenewal_request r now rnd w
         = mkWorld (st w) (localStorage w) (out w ++ [Alert msg])
      /\ executeDisabled r = true.
Proof.
  intros api r now rnd clock w Hbad.
  unfold handleRenewal, handleRenewal_request, submits, executeDisabled, seq.
  destruct (selectedAccounts r) as [|a l] eqn:Hsel; cbn.
  - eexists; repeat split. destruct (loading r); reflexivity.
  - destruct Hbad as [Hbad | Hbad]; [discriminate |].
    assert (Hc : (renewalCount r <? 1) || (renewalCount r >? 20) = true).
    { apply orb_true_iff. destruct Hbad; [left | right]; lia. }
    rewrite Hc; cbn. eexists; repeat split.
    destruct (loading r); cbn; [reflexivity | exact Hc].
Qed.
End RenewProperties.

Section Objects.
Import JS.

Lemma prop_absent (k : string) (members : list (string * json)) :
  has_prop k members = false -> prop k members = None.
Proof.
  induction members as [|[k' v'] rest IH]; [reflexivity |].
  unfold has_prop. cbn [existsb fst]. intros Hno.
  apply orb_false_iff in Hno as [Hk Hrest].
  cbn [prop]. rewrite (IH Hrest), Hk. reflexivity.
Qed.

Lemma prop_snoc (k k' : string) (v : json) (members : list (string * json)) :
  prop k (members ++ [(k', v)])
  = if String.eqb k k' then Some v else prop k members.
Proof.
  induction members as [|[k0 v0] rest IH]; cbn [app prop].
  - destruct (String.eqb k k'); reflexivity.
  - rewrite IH. destruct (String.eqb k k'); [reflexivity |].
    reflexivity.
Qed.

Lemma replaced_keeps_others (k : string) (v : json)
    (members : list (string * json)) :
  has_prop k members = false ->
  map (fun m => if String.eqb k (fst m) then (k, v) else m) members = members.
Proof.
  induction members as [|[k' v'] rest IH]; [reflexivity |].
  unfold has_prop. cbn [existsb fst map]. intros Hno.
  apply orb_false_iff in Hno as [Hk Hrest].
  rewrite Hk, (IH Hrest). reflexivity.
Qed.

Lemma prop_replaced (k : string) (v : json) (members : list (string * json)) :
  has_prop k members = true ->
  prop k (map (fun m => if String.eqb k (fst m) then (k, v) else m) members)
  = Some v.
Proof.
  induction members as [|[k' v'] rest IH]; [discriminate |].
  unfold has_prop. cbn [existsb fst map prop]. intros Hhas.
  destruct (existsb (fun m => String.eqb k (fst m)) rest) eqn:Hrest.
  - rewrite (IH Hrest). destruct (String.eqb k k'); reflexivity.
  - rewrite (replaced_keeps_others k v rest Hrest), (prop_absent k rest Hrest).
    rewrite orb_false_r in Hhas. rewrite Hhas.
    rewrite String.eqb_refl. reflexivity.
Qed.

Lemma prop_replaced_other (k k' : string) (v : json)
    (members : list (string * json)) :
  k' <> k ->
  prop k' (map (fun m => if String.eqb k (fst m) then (k, v) else m) members)
  = prop k' members.
Proof.
  intros Hne. induction members as [|[k0 v0] rest IH]; [reflexivity |].
  cbn [map prop fst]. rewrite IH.
  destruct (String.eqb_spec k k0) as [<- | Hk0]; [| reflexivity].
  destruct (prop k' rest); [reflexivity |].
  destruct (String.eqb_spec k' k) as [-> | _]; [congruence | reflexivity].
Qed.

(** [{ ...o, k: v }[k]] is [v]. *)
Lemma prop_set_prop (k : string) (v : json) (members : list (string * json)) :
  prop k (set_prop k v members) = Some v.
Proof.
  unfold set_prop. destruct (has_prop k members) eqn:Hhas.
  - apply prop_replaced. exact Hhas.
  - rewrite prop_snoc, String.eqb_refl. reflexivity.
Qed.

(** [{ ...o, k: v }[k']] is [o[k']] for every other property. *)
Lemma prop_set_prop_other (k k' : string) (v : json)
    (members : list (string * json)) :
  k' <> k -> prop k' (set_prop k v members) = prop k' members.
Proof.
  intros Hne. unfold set_prop. destruct (has_prop k members).
  - apply prop_replaced_other. exact Hne.
  - rewrite prop_snoc.
    destruct (String.eqb_spec k' k) as [-> | _]; [congruence | reflexivity].
Qed.

Lemma has_prop_replaced (k : string) (v : json) (members : list (string * json)) :
  has_prop k (map (fun m => if String.eqb k (fst m) then (k, v) else m) members)
  = has_prop k members.
Proof.
  unfold has_prop. induction members as [|[k' v'] rest IH]; [reflexivity |].
  cbn [map existsb fst]. rewrite IH. f_equal.
  destruct (String.eqb_spec k k') as [<- | Hk]; cbn [fst].
  - apply String.eqb_refl.
  - apply String.eqb_neq. exact Hk.
Qed.

Lemma has_prop_snoc (k : string) (v : json) (members : list (string * json)) :
  has_prop k (members ++ [(k, v)]) = true.
Proof.
  unfold has_prop. rewrite existsb_app. cbn [existsb fst].
  rewrite String.eqb_refl. apply orb_true_iff. right. reflexivity.
Qed.

(** Putting a property twice is putting the second value. *)
Lemma set_prop_twice (k : string) (v v' : json) (members : list (string * json)) :
  set_prop k v' (set_prop k v members) = set_prop k v' members.
Proof.
  unfold set_prop at 2 3. destruct (has_prop k members) eqn:Hhas.
  - unfold set_prop. rewrite has_prop_replaced, Hhas, List.map_map.
    apply map_ext. intros [k0 v0]. cbn [fst].
    destruct (String.eqb_spec k k0) as [<- | Hk]; cbn [fst].
    + rewrite String.eqb_refl. reflexivity.
    + destruct (String.eqb_spec k k0); [congruence | reflexivity].
  - unfold set_prop. rewrite has_prop_snoc, List.map_app.
    rewrite (replaced_keeps_others k v' members Hhas).
    cbn [map fst]. rewrite String.eqb_refl. reflexivity.
Qed.
End Objects.

Section Totals.
Import JS Renew.
Context `{Runtime}.

(** For a count of the declared type, [renewed_count || 0] is the
    count, a missing one taken as 0. *)
Lemma or_zero_counted (members : list (string * json)) :
  counted members -> or_zero (prop "renewed_count" members) = JNum (count members).
Proof.
  unfold counted, count.
  destruct (prop "renewed_count" members) as [[| b | n | lit | s | items | o] |];
    cbn; try tauto.
  intros _. destruct (Z.eqb_spec n 0) as [-> | Hn]; reflexivity.
Qed.

Lemma sumRenewed_from {T} (logs : list (Log T)) (a : Z) :
  Forall (fun log => counted (fields log)) logs ->
  fold_left (fun sum result =>
               sum ≫= fun sum => plus sum (or_zero (renewed_count result)))
            logs (Some (JNum a))
  = Some (JNum (a + sum_counts (map fields logs))).
Proof.
  intros Hall. revert a.
  induction Hall as [|log logs Hlog _ IH]; intros a.
  - cbn. f_equal. f_equal. lia.
  - cbn [fold_left map sum_counts fold_right]. unfold renewed_count at 2.
    rewrite (or_zero_counted _ Hlog). cbn [mbind option_bind plus].
    rewrite IH. unfold sum_counts. f_equal. f_equal. lia.
Qed.

(** Over counts of the declared type the [reduce] is their sum. *)
Lemma sumRenewed_sum_counts {T} (logs : list (Log T)) :
  Forall (fun log => counted (fields log)) logs ->
  sumRenewed logs = Some (JNum (sum_counts (map fields logs))).
Proof. intros Hall. unfold sumRenewed. rewrite sumRenewed_from by exact Hall. reflexivity. Qed.

(** What holds of the total: a present, non-zero aggregate is shown. *)
Lemma calculatedTotal_present d n :
  Response.total_renewed d = Some n -> n <> 0 -> calculatedTotal d = Some (JNum n).
Proof.
  intros Hd Hn. unfold calculatedTotal. rewrite Hd.
  destruct (Z.eqb_spec n 0); congruence.
Qed.

(** Without an aggregate the counts are summed. *)
Lemma calculatedTotal_absent d :
  Response.total_renewed d = None ->
  Forall (fun log => counted (fields log)) (Response.results d) ->
  calculatedTotal d = Some (JNum (sum_counts (map fields (Response.results d)))).
Proof.
  intros Hd Hall. unfold calculatedTotal. rewrite Hd.
  apply sumRenewed_sum_counts. exact Hall.
Qed.

(** An aggregate of 0 is replaced by the sum as well. *)
Lemma calculatedTotal_zero d :
  Response.total_renewed d = Some 0 ->
  Forall (fun log => counted (fields log)) (Response.results d) ->
  calculatedTotal d = Some (JNum (sum_counts (map fields (Response.results d)))).
Proof.
  intros Hd Hall. unfold calculatedTotal. rewrite Hd. cbn.
  apply sumRenewed_sum_counts. exact Hall.
Qed.

(** The scenario of the specification: counts 5, 0, 3 and no aggregate
    give 8. *)
Lemma calculatedTotal_scenario :
  calculatedTotal
    (Response.mk [Examples.entry 1 (Some 5); Examples.entry 2 (Some 0);
                  Examples.entry 3 (Some 3)] None) = Some (JNum 8).
Proof. reflexivity. Qed.

(** C3.  The response [{ results: [{ renewed_count: 5, ... }],
    total_renewed: 0 }] carries the aggregate field, with value 0, yet
    the page shows 5: [total_renewed || ...] takes a present 0 for a
    missing field and falls through to the sum of the counts. *)
Theorem C3_zero_aggregate_replaced_by_sum :
  let d := Response.mk [Examples.entry 1 (Some 5)] (Some 0) in
  Response.total_renewed d = Some 0
  /\ calculatedTotal d = Some (JNum 5)
  /\ forall clock w,
       totalRenewed (st (handleRenewal_settle clock (Resolved d) w)) = JNum 5.
Proof. cbn. repeat split. Qed.
End Totals.

Section SelectAll.
Import JS.

Lemma same_set_refl (a : list Z) : same_set a a.
Proof. intros x; reflexivity. Qed.

(** A duplicate-free selection inside the ids, as long as the ids, has
    every id. *)
Lemma full_selection_same_set (ids sel : list Z) :
  List.NoDup sel -> incl sel ids -> length sel = length ids ->
  same_set ids sel.
Proof.
  intros Hnd Hincl Hlen x; split; [| apply Hincl].
  apply (NoDup_length_incl Hnd); [lia | exact Hincl].
Qed.

Lemma Renew_selectAll_twice (w : Renew.World) :
  Renew.selectedAccounts
    (Renew.st (Renew.onClick_selectAll (Renew.onClick_selectAll w)))
  = if (length (Renew.selectedAccounts (Renew.st w))
        =? length (Renew.accounts (Renew.st w)))%nat
    then map Renew.Account.id (Renew.accounts (Renew.st w))
    else [].
Proof.
  unfold Renew.onClick_selectAll, Renew.selectAll.
  destruct (Nat.eqb_spec (length (Renew.selectedAccounts (Renew.st w)))
              (length (Renew.accounts (Renew.st w)))) as [He | Hne]; cbn.
  - destruct (Renew.accounts (Renew.st w)); reflexivity.
  - rewrite length_map, Nat.eqb_refl. reflexivity.
Qed.

Lemma BulkUpload_selectAll_twice (w : BulkUpload.World) :
  BulkUpload.selectedAccounts
    (BulkUpload.st (BulkUpload.onClick_selectAll (BulkUpload.onClick_selectAll w)))
  = if (length (BulkUpload.selectedAccounts (BulkUpload.st w))
        =? length (BulkUpload.accounts (BulkUpload.st w)))%nat
    then map BulkUpload.id (BulkUpload.accounts (BulkUpload.st w))
    else [].
Proof.
  unfold BulkUpload.onClick_selectAll, BulkUpload.handleSelectAllAccounts.
  destruct (Nat.eqb_spec (length (BulkUpload.selectedAccounts (BulkUpload.st w)))
              (length (BulkUpload.accounts (BulkUpload.st w)))) as [He | Hne]; cbn.
  - destruct (BulkUpload.accounts (BulkUpload.st w)); reflexivity.
  - rewrite length_map, Nat.eqb_refl. reflexivity.
Qed.
End SelectAll.

Section ActivityLog.
Import JS Renew.
Context `{Runtime}.

(** An object with a string under [timestamp] gets the date of that
    string, and keeps its properties. *)
Lemma withDate_stored (members : list (string * json)) (s : string) :
  prop "timestamp" members = Some (JStr s) ->
  withDate (JObj members) = Some (mkLog members (Some (Date_parse s))).
Proof. intros Hp. unfold withDate. cbn. rewrite Hp. reflexivity. Qed.

(** An object without [timestamp] gets an invalid date. *)
Lemma withDate_unstamped (members : list (string * json)) :
  prop "timestamp" members = None ->
  withDate (JObj members) = Some (mkLog members (Some InvalidDate)).
Proof. intros Hp. unfold withDate. cbn. rewrite Hp. reflexivity. Qed.


(** What the load effect leaves when the stored text is read. *)
Lemma loadLogs_loaded now w savedLogs logs :
  getItem w "renewalActivityLogs" = Some savedLogs ->
  truthy savedLogs = true ->
  readLogs savedLogs = Some logs ->
  loadLogs now w
  = let recentLogs := List.filter (isRecent (now - 86400000)) logs in
    match sumRenewed recentLogs with
    | Some calculatedTotal =>
        mkWorld (mkState (accounts (st w)) (selectedAccounts (st w))
                   (renewalCount (st w)) (loading (st w)) recentLogs
                   calculatedTotal (activeRenewalJobId (st w)))
                (localStorage w) (out w)
    | None =>
        mkWorld (mkState (accounts (st w)) (selectedAccounts (st w))
                   (renewalCount (st w)) (loading (st w)) recentLogs
                   (totalRenewed (st w)) (activeRenewalJobId (st w)))
                (delete "renewalActivityLogs" (localStorage w))
                (out w ++ [ConsoleError "Failed to load renewal activity logs:"])
    end.
Proof.
  intros Hget Ht Hp. unfold loadLogs. rewrite Hget, Ht, Hp.
  change (24 * 60 * 60 * 1000) with 86400000. cbv zeta. unfold seq.
  destruct (sumRenewed (List.filter (isRecent (now - 86400000)) logs));
    reflexivity.
Qed.

Lemma loadLogs_results now w savedLogs logs :
  getItem w "renewalActivityLogs" = Some savedLogs ->
  truthy savedLogs = true ->
  readLogs savedLogs = Some logs ->
  results (st (loadLogs now w)) = List.filter (isRecent (now - 86400000)) logs.
Proof.
  intros Hget Ht Hp. rewrite (loadLogs_loaded now w savedLogs logs Hget Ht Hp).
  cbv zeta.
  destruct (sumRenewed (List.filter (isRecent (now - 86400000)) logs));
    reflexivity.
Qed.

(** What the load effect leaves when reading the stored text throws. *)
Lemma loadLogs_caught now w savedLogs :
  getItem w "renewalActivityLogs" = Some savedLogs ->
  truthy savedLogs = true ->
  readLogs savedLogs = None ->
  loadLogs now w
  = mkWorld (st w) (delete "renewalActivityLogs" (localStorage w))
      (out w ++ [ConsoleError "Failed to load renewal activity logs:"]).
Proof.
  intros Hget Ht Hp. unfold loadLogs. rewrite Hget, Ht, Hp. reflexivity.
Qed.


(** *** Save, then load *)

Lemma filter_all {A} (p : A -> bool) (l : list A) :
  (forall x, In x l -> p x = true) -> List.filter p l = l.
Proof.
  intros Hp. apply forallb_filter_id, forallb_forall. exact Hp.
Qed.

Lemma mapM_imap {A B C} (g : B -> option C) (f : nat -> A -> B)
    (h : nat -> A -> C) (l : list A) :
  (forall i x, l !! i = Some x -> g (f i x) = Some (h i x)) ->
  mapM g (imap f l) = Some (imap h l).
Proof.
  revert f h. induction l as [|x l IH]; intros f h Hg; [reflexivity |].
  rewrite !imap_cons. apply mapM_Some_2. constructor.
  - apply (Hg 0%nat x). reflexivity.
  - apply mapM_Some_1, IH. intros i y Hi. apply (Hg (S i) y). exact Hi.
Qed.

(** A stored entry is read back as the object that was written, with
    the date of the string written under [timestamp]. *)
Lemma withDate_log_to_json (log : StoredLog) :
  withDate (log_to_json log)
  = Some (mkLog (set_prop "timestamp" (JStr (timestamp log)) (fields log))
                (Some (Date_parse (timestamp log)))).
Proof.
  unfold log_to_json. apply withDate_stored, prop_set_prop.
Qed.

Lemma saveLogs_nonempty r clock w :
  results r <> [] ->
  saveLogs r clock w
  = mkWorld (st w)
      (<["renewalActivityLogs" :=
           JSON_stringify
             (JArr (map log_to_json (logsWithTimestamp clock (results r))))]>
         (localStorage w))
      (out w).
Proof.
  intros Hne. unfold saveLogs. destruct (results r); [congruence | reflexivity].
Qed.

Lemma saveLogs_empty r clock w : results r = [] -> saveLogs r clock w = w.
Proof. intros He. unfold saveLogs. rewrite He. reflexivity. Qed.

Lemma saved_all_recent (clock : nat -> Z) (rs : list RenewalResult) th
    (f : nat -> RenewalResult -> list (string * json)) :
  (forall i, (i < length rs)%nat -> th < clock i) ->
  forall x,
    In x (imap (fun i log => mkLog (f i log) (Some (TimeValue (clock i)))) rs) ->
    isRecent th x = true.
Proof.
  intros Hc x Hin. apply list_elem_of_In in Hin.
  apply elem_of_lookup_imap_1 in Hin as (i & log & -> & Hi).
  unfold isRecent, getTime_gt. cbn [timestamp].
  apply Z.ltb_lt, Hc. eapply lookup_lt_Some; eauto.
Qed.

(** What a load shows after a save, less than 24 hours later. *)
Lemma reload_shows_saved (r : State) (clock : nat -> Z) (now : Z) (w : World) :
  results r <> [] ->
  truthy (JSON_stringify
            (JArr (map log_to_json (logsWithTimestamp clock (results r))))) = true ->
  reads_back (JArr (map log_to_json (logsWithTimestamp clock (results r)))) ->
  (forall i, (i < length (results r))%nat ->
             Date_parse (toISOString (clock i)) = TimeValue (clock i)) ->
  (forall i, (i < length (results r))%nat -> now - 86400000 < clock i) ->
  results (st (persist_then_reload r clock now w))
  = imap (fun i log =>
            mkLog (set_prop "timestamp" (JStr (toISOString (clock i))) (fields log))
                  (Some (TimeValue (clock i))))
         (results r).
Proof.
  intros Hne Ht Hp Hd Hc. unfold persist_then_reload.
  rewrite (saveLogs_nonempty r clock w Hne).
  erewrite loadLogs_results; [| | exact Ht |].
  - apply filter_all, saved_all_recent. exact Hc.
  - unfold getItem, mount; cbn. apply lookup_insert_eq.
  - unfold readLogs. unfold reads_back in Hp. rewrite Hp. cbn.
    unfold logsWithTimestamp.
    change (map log_to_json ?l) with (log_to_json <$> l). rewrite fmap_imap.
    apply mapM_imap. intros i log Hi. unfold compose.
    rewrite withDate_log_to_json.
    cbn [with_timestamp timestamp fields]. rewrite Hd; [reflexivity |].
    eapply lookup_lt_Some; eauto.
Qed.

(** C5, as the code has it.  When the list is not empty and the page is
    loaded again less than 24 hours after the save, saving and loading
    gives back as many entries, in their order; each has every property
    other than [timestamp] as it was before the save, the ISO string of
    the save under [timestamp] in the stored object, and as its
    timestamp the [Date] of that string, which is the time of the
    save. *)
Theorem C5_persist_then_reload_within_a_day :
  forall (r : State) (clock : nat -> Z) (now : Z) (w : World),
    let stored := logsWithTimestamp clock (results r) in
    let text := JSON_stringify (JArr (map log_to_json stored)) in
    results r <> [] ->
    truthy text = true ->
    JSON_parse text = Some (JArr (map log_to_json stored)) ->
    (forall i, (i < length (results r))%nat ->
               Date_parse (toISOString (clock i)) = TimeValue (clock i)) ->
    (forall i, (i < length (results r))%nat -> now - 86400000 < clock i) ->
    let reloaded := results (st (persist_then_reload r clock now w)) in
    length reloaded = length (results r)
    /\ (forall i log,
          results r !! i = Some log ->
          exists log',
            reloaded !! i = Some log'
            /\ (forall k, k <> "timestamp" -> field k log' = field k log)
            /\ field "timestamp" log' = Some (JStr (toISOString (clock i)))
            /\ timestamp log' = Some (Date_parse (toISOString (clock i)))
            /\ timestamp log' = Some (TimeValue (clock i)))
    /\ reloaded
       = imap (fun i log =>
                 mkLog (set_prop "timestamp" (JStr (toISOString (clock i)))
                                 (fields log))
                       (Some (TimeValue (clock i))))
              (results r).
Proof.
  intros r clock now w stored text Hne Ht Hp Hd Hc reloaded.
  assert (Hload : reloaded
                  = imap (fun i log =>
                            mkLog (set_prop "timestamp"
                                            (JStr (toISOString (clock i)))
                                            (fields log))
                                  (Some (TimeValue (clock i))))
                         (results r))
    by (apply reload_shows_saved; assumption).
  split; [rewrite Hload; apply length_imap |].
  split; [| exact Hload].
  intros i log Hi. eexists. split.
  { rewrite Hload, list_lookup_imap, Hi. reflexivity. }
  unfold field. cbn [fields timestamp].
  split; [intros k Hk; apply prop_set_prop_other; exact Hk |].
  split; [apply prop_set_prop |].
  split; [| reflexivity].
  rewrite Hd; [reflexivity |]. eapply lookup_lt_Some; eauto.
Qed.
End ActivityLog.

Section LogsKey.
Import JS Renew.
Context `{Runtime}.

Lemma key_step_same w : key_step (localStorage w) (localStorage w).
Proof. left; reflexivity. Qed.

Lemma key_step_job_removed w :
  key_step (localStorage w) (delete "activeRenewalJobId" (localStorage w)).
Proof. left. apply lookup_delete_ne. discriminate. Qed.

(** The load effect leaves the store as it is, or removes the log key. *)
Lemma loadLogs_store now w :
  localStorage (loadLogs now w) = localStorage w
  \/ localStorage (loadLogs now w)
     = delete "renewalActivityLogs" (localStorage w).
Proof.
  unfold loadLogs.
  destruct (getItem w "renewalActivityLogs") as [savedLogs|]; [| left; reflexivity].
  destruct (truthy savedLogs); [| left; reflexivity].
  destruct (readLogs savedLogs) as [logs|]; [| right; reflexivity].
  cbv zeta. unfold seq.
  destruct (sumRenewed _); [left | right]; reflexivity.
Qed.

Lemma loadLogs_key_step now w :
  key_step (localStorage w) (localStorage (loadLogs now w)).
Proof.
  destruct (loadLogs_store now w) as [-> | ->].
  - left; reflexivity.
  - right; left. apply lookup_delete_eq.
Qed.

Lemma saveLogs_writes r clock w :
  results r <> [] ->
  reads_back (JArr (map log_to_json (logsWithTimestamp clock (results r)))) ->
  exists text,
    localStorage (saveLogs r clock w) !! "renewalActivityLogs" = Some text
    /\ nonempty_array_text text.
Proof.
  intros Hne Hback. rewrite (saveLogs_nonempty r clock w Hne). cbn [localStorage].
  eexists. split; [apply lookup_insert_eq |].
  unfold nonempty_array_text. unfold reads_back in Hback. rewrite Hback.
  unfold logsWithTimestamp.
  destruct (results r) as [|x rs]; [congruence |].
  rewrite imap_cons. cbn [map]. eexists _, _. reflexivity.
Qed.

Lemma saveLogs_key_step r clock w :
  reads_back (JArr (map log_to_json (logsWithTimestamp clock (results r)))) ->
  key_step (localStorage w) (localStorage (saveLogs r clock w)).
Proof.
  intros Hback. destruct (results r) as [|x rs] eqn:Hr.
  - rewrite saveLogs_empty by exact Hr. left; reflexivity.
  - right; right. apply saveLogs_writes; [congruence | rewrite Hr; exact Hback].
Qed.

Lemma step_key_step op w :
  save_reads_back op ->
  key_step (localStorage w) (localStorage (step op w)).
Proof.
  destruct op; cbn [step save_reads_back]; intros Hback.
  - apply loadLogs_key_step.
  - apply saveLogs_key_step. exact Hback.
  - left; reflexivity.
  - destruct response; (left; reflexivity).
  - unfold checkRenewalStatus.
    destruct (activeRenewalJobId r) as [j|]; [| (left; reflexivity)].
    destruct (truthy j); [| (left; reflexivity)].
    destruct (0 <? length (results r))%nat; apply key_step_job_removed.
  - (left; reflexivity).
  - unfold selectAll.
    destruct (length (selectedAccounts r) =? length (accounts r))%nat;
      (left; reflexivity).
  - (left; reflexivity).
  - unfold handleRenewal_request.
    destruct (length (selectedAccounts r) =? 0)%nat; [(left; reflexivity) |].
    destruct ((renewalCount r <? 1) || (renewalCount r >? 20));
      [(left; reflexivity) |].
    left. cbn. apply lookup_insert_ne. discriminate.
  - unfold handleRenewal_settle, seq.
    destruct o as [d | e]; [destruct (calculatedTotal d) |];
      apply key_step_job_removed.
  - right; left. cbn. rewrite lookup_delete_ne by discriminate.
    apply lookup_delete_eq.
Qed.

Lemma key_step_preserves before after :
  key_step before after -> logs_key_ok before -> logs_key_ok after.
Proof.
  unfold logs_key_ok.
  intros [Heq | [Hnone | (text & Hsome & Hne)]] Hok.
  - rewrite Heq. exact Hok.
  - rewrite Hnone. exact I.
  - rewrite Hsome. exact Hne.
Qed.

Lemma run_preserves ops w :
  Forall save_reads_back ops ->
  logs_key_ok (localStorage w) -> logs_key_ok (localStorage (run ops w)).
Proof.
  intros Hback. revert w.
  induction Hback as [|op ops Hop _ IH]; intros w Hok; [exact Hok |].
  cbn [run fold_left]. apply IH.
  eapply key_step_preserves; [apply step_key_step; exact Hop | exact Hok].
Qed.

(** The three ways in which reading the stored text throws. *)
Lemma readLogs_throws (text : string) :
  JSON_parse text = None
  \/ (exists v, JSON_parse text = Some v /\ forall items, v <> JArr items)
  \/ (exists items, JSON_parse text = Some (JArr items) /\ In JNull items) ->
  readLogs text = None.
Proof.
  unfold readLogs.
  intros [-> | [(v & -> & Hv) | (items & -> & Hnull)]]; [reflexivity | |].
  - cbn. destruct v; try reflexivity. destruct (Hv items). reflexivity.
  - cbn. destruct (mapM withDate items) as [logs|] eqn:Hm; [| reflexivity].
    apply mapM_Some_1 in Hm. exfalso.
    induction Hm as [|x y l k Hxy _ IH]; [destruct Hnull |].
    destruct Hnull as [-> | Hnull]; [discriminate Hxy | exact (IH Hnull)].
Qed.

(** An array of objects whose [timestamp] is a string or missing is
    read without throwing. *)
Lemma readLogs_objects (text : string)
    (objects : list (list (string * json))) :
  JSON_parse text = Some (JArr (map JObj objects)) ->
  (forall members, In members objects ->
     prop "timestamp" members = None
     \/ exists s, prop "timestamp" members = Some (JStr s)) ->
  exists logs,
    readLogs text = Some logs /\ map fields logs = objects.
Proof.
  intros Hp Hstamp. unfold readLogs. rewrite Hp. cbn. clear Hp.
  induction objects as [|members objects IH].
  - exists []. split; reflexivity.
  - destruct IH as (logs & Hlogs & Hfields).
    { intros m Hm. apply Hstamp. right. exact Hm. }
    destruct (Hstamp members (or_introl eq_refl)) as [Hno | [s Hs]].
    + exists (mkLog members (Some InvalidDate) :: logs). split.
      * cbn [map]. apply mapM_Some_2. constructor;
          [apply withDate_unstamped; exact Hno | apply mapM_Some_1; exact Hlogs].
      * cbn [map fields]. f_equal. exact Hfields.
    + exists (mkLog members (Some (Date_parse s)) :: logs). split.
      * cbn [map]. apply mapM_Some_2. constructor;
          [apply withDate_stored; exact Hs | apply mapM_Some_1; exact Hlogs].
      * cbn [map fields]. f_equal. exact Hfields.
Qed.

(** C10.  The page never stores an empty list under
    ['renewalActivityLogs']: each of its handlers and effects leaves the
    key as it is, removes it, or writes a non-empty array; the save
    effect writes nothing for an empty result list; clearing the log
    removes the key, and so does the load effect whenever reading the
    stored text throws (text that is not JSON, a value that is not an
    array, an array with a null in it), while an array of objects, the
    empty object included, is left where it is.  Hence, from a store
    where the key is absent or holds a non-empty array, the same is
    true after any sequence of operations of the page; JSON.parse is
    taken to read back the arrays that the save effect writes. *)
Theorem C10_logs_key_never_holds_empty_list :
  forall (ops : list Op) (w : World),
    logs_key_ok (localStorage w) ->
    Forall save_reads_back ops ->
    logs_key_ok (localStorage (run ops w))
    /\ (forall op w',
           save_reads_back op ->
           key_step (localStorage w') (localStorage (step op w')))
    /\ (forall r clock w',
           results r = [] -> localStorage (saveLogs r clock w') = localStorage w')
    /\ (forall r clock w',
           results r <> [] ->
           save_reads_back (op_saveLogs r clock) ->
           exists text,
             localStorage (saveLogs r clock w') !! "renewalActivityLogs" = Some text
             /\ nonempty_array_text text)
    /\ (forall w', localStorage (clearActivityLogs w') !! "renewalActivityLogs" = None)
    /\ (forall now w' text,
           getItem w' "renewalActivityLogs" = Some text -> truthy text = true ->
           JSON_parse text = None
           \/ (exists v, JSON_parse text = Some v /\ forall items, v <> JArr items)
           \/ (exists items, JSON_parse text = Some (JArr items) /\ In JNull items) ->
           localStorage (loadLogs now w') !! "renewalActivityLogs" = None)
    /\ (forall now w' text objects,
           getItem w' "renewalActivityLogs" = Some text ->
           JSON_parse text = Some (JArr (map JObj objects)) ->
           (forall members, In members objects ->
              (prop "timestamp" members = None
               \/ exists s, prop "timestamp" members = Some (JStr s))
              /\ counted members) ->
           localStorage (loadLogs now w') = localStorage w').
Proof.
  intros ops w Hok Hback.
  split; [apply run_preserves; assumption |].
  split; [intros; apply step_key_step; assumption |].
  split; [intros r clock w' He; rewrite saveLogs_empty by exact He; reflexivity |].
  split; [intros r clock w' Hne Hb; apply saveLogs_writes; assumption |].
  split.
  { intros w'. cbn. rewrite lookup_delete_ne by discriminate.
    apply lookup_delete_eq. }
  split.
  { intros now w' text Hget Ht Hthrows.
    rewrite (loadLogs_caught now w' text Hget Ht (readLogs_throws text Hthrows)).
    cbn [localStorage]. apply lookup_delete_eq. }
  intros now w' text objects Hget Hp Hobjects.
  destruct (truthy text) eqn:Ht.
  - destruct (readLogs_objects text objects Hp) as (logs & Hlogs & Hfields).
    { intros members Hin. apply (Hobjects members Hin). }
    rewrite (loadLogs_loaded now w' text logs Hget Ht Hlogs). cbv zeta.
    rewrite sumRenewed_sum_counts; [reflexivity |].
    apply List.Forall_forall. intros log Hin.
    apply filter_In in Hin as [Hin _].
    apply (Hobjects (fields log)). rewrite <- Hfields.
    apply in_map. exact Hin.
  - unfold loadLogs. rewrite Hget, Ht. reflexivity.
Qed.
End LogsKey.

Section SelectAllTwice.
Import JS.

Lemma twice_from_empty_or_full (ids sel : list Z) :
  empty_or_full ids sel ->
  same_set (if (length sel =? length ids)%nat then ids else []) sel.
Proof.
  intros [-> | (Hnd & Hincl & Hlen)].
  - destruct ids; apply same_set_refl.
  - rewrite Hlen, Nat.eqb_refl. apply full_selection_same_set; assumption.
Qed.

(** C4, as the code has it.  On both pages, two clicks on the select-all
    button give back the selection, as a set, when it was empty or held
    every account once; from a selection of any other size they leave
    the selection empty. *)
Theorem C4_select_all_twice :
  forall (w : Renew.World) (b : BulkUpload.World),
    let sel := Renew.selectedAccounts (Renew.st w) in
    let ids := map Renew.Account.id (Renew.accounts (Renew.st w)) in
    let sel' := BulkUpload.selectedAccounts (BulkUpload.st b) in
    let ids' := map BulkUpload.id (BulkUpload.accounts (BulkUpload.st b)) in
    (empty_or_full ids sel ->
     same_set (Renew.selectedAccounts
                 (Renew.st (Renew.onClick_selectAll (Renew.onClick_selectAll w))))
              sel)
    /\ (length sel <> length ids ->
        Renew.selectedAccounts
          (Renew.st (Renew.onClick_selectAll (Renew.onClick_selectAll w))) = [])
    /\ (empty_or_full ids' sel' ->
        same_set (BulkUpload.selectedAccounts
                    (BulkUpload.st (BulkUpload.onClick_selectAll
                                      (BulkUpload.onClick_selectAll b))))
                 sel')
    /\ (length sel' <> length ids' ->
        BulkUpload.selectedAccounts
          (BulkUpload.st (BulkUpload.onClick_selectAll
                            (BulkUpload.onClick_selectAll b))) = []).
Proof.
  intros w b sel ids sel' ids'.
  rewrite Renew_selectAll_twice, BulkUpload_selectAll_twice.
  fold sel ids sel' ids'.
  rewrite <- (length_map Renew.Account.id (Renew.accounts (Renew.st w))).
  rewrite <- (length_map BulkUpload.id (BulkUpload.accounts (BulkUpload.st b))).
  fold ids ids'.
  split; [| split; [| split]].
  - apply twice_from_empty_or_full.
  - intros Hne. destruct (Nat.eqb_spec (length sel) (length ids)); congruence.
  - apply twice_from_empty_or_full.
  - intros Hne. destruct (Nat.eqb_spec (length sel') (length ids')); congruence.
Qed.
End SelectAllTwice.

Section BulkUploadProperties.
Import JS BulkUpload.

(** C9.  After a response with [response.ok], [handleSubmit] clears the
    text file, the image files and the account selection, calls
    [onSuccess], and schedules [onClose] 2000 ms later.  After a
    failure it puts the error message in [uploadResult] with [success:
    false] and in an error toast, and leaves text file, image files and
    selection as they were, with no close scheduled; the message is the
    message of the exception (or "Failed to upload TXT file" when that
    is empty), and for a response that is not ok its [error] (or
    "Upload failed" when that is missing or empty). *)
Theorem C9_upload_outcomes :
  forall (w : World) (message : string) (data : Data.t),
    (let w' := handleSubmit_settle (Responded true data) w in
        txtFile (st w') = None
        /\ imageFiles (st w') = []
        /\ selectedAccounts (st w') = []
        /\ uploadResult (st w')
           = Some (mkUploadResult true (Data.message data) (Data.stats data)
                     (Data.errors data) (Data.additional_errors data))
        /\ loading (st w') = false
        /\ out w' = out w ++ [OnToast toast_success (Data.message data);
                              OnSuccess; SetTimeout call_onClose 2000])
    /\ (forall o surfaced,
        (o = Threw message
         /\ surfaced = if String.eqb message ""
                       then "Failed to upload TXT file" else message)
        \/ (o = Responded false data
            /\ surfaced = match Data.error data with
                          | Some error =>
                              if String.eqb error "" then "Upload failed" else error
                          | None => "Upload failed"
                          end) ->
        let w' := handleSubmit_settle o w in
        uploadResult (st w')
        = Some (mkUploadResult false (Some surfaced) None None None)
        /\ out w' = out w ++ [OnToast toast_error (Some surfaced)]
        /\ txtFile (st w') = txtFile (st w)
        /\ imageFiles (st w') = imageFiles (st w)
        /\ selectedAccounts (st w') = selectedAccounts (st w)
        /\ loading (st w') = false).
Proof.
  intros w message data. split.
  - cbn. rewrite <- !app_assoc. repeat split.
  - intros o surfaced [[-> ->] | [-> ->]].
    + unfold handleSubmit_settle, handleSubmit_catch, seq, str_or, truthy.
      destruct (String.eqb message ""); cbn; repeat split.
    + unfold handleSubmit_settle, handleSubmit_catch, seq, str_or, truthy.
      cbn [negb].
      destruct (Data.error data) as [error|]; [| cbn; repeat split].
      destruct (String.eqb error "") eqn:He; cbn [negb]; [cbn; repeat split |].
      rewrite He. cbn. repeat split.
Qed.
End BulkUploadProperties.

Section ImportSessionProperties.
Import JS ImportSession.
Context `{Runtime}.

Lemma handleSubmit_request_unparsable r w :
  JSON_parse (sessionData r) = None ->
  out (handleSubmit_request r w) = out w.
Proof.
  intros Hp. unfold handleSubmit_request, seq.
  destruct (blank (sessionData r)); [reflexivity |].
  destruct (blank (filename r)); [reflexivity |].
  rewrite Hp. reflexivity.
Qed.

(** C8, as the code has it.  Pasting non-blank text that does not parse
    as JSON sets the inline error "Invalid JSON format. ..." and leaves
    the submit control enabled whenever a non-blank filename is present
    and nothing is loading; pasting text that parses clears the error,
    with the submit control enabled under the same conditions.  A file
    that does not parse sets "Invalid JSON file format" and empties the
    session data.  Whatever the input path, [handleSubmit] issues no
    request while the session data does not parse. *)
Theorem C8_paste_validation :
  forall (value : string) (w : World),
    blank value = false ->
    loading (st w) = false ->
    blank (filename (st w)) = false ->
    let w' := textarea_onChange value w in
    sessionData (st w') = value
    /\ submitDisabled (st w') = false
    /\ out w' = out w
    /\ (JSON_parse value = None ->
        error (st w') = "Invalid JSON format. Please check your pasted data."
        /\ errorShown (st w') = true
        /\ out (handleSubmit_request (st w') w') = out w')
    /\ (JSON_parse value <> None ->
        error (st w') = "" /\ errorShown (st w') = false)
    /\ (forall content,
        JSON_parse content = None ->
        sessionData (st (reader_onload content w)) = ""
        /\ error (st (reader_onload content w)) = "Invalid JSON file format")
    /\ (forall r w0,
        JSON_parse (sessionData r) = None ->
        out (handleSubmit_request r w0) = out w0).
Proof.
  intros value w Hb Hl Hf w'. subst w'.
  unfold textarea_onChange, seq. rewrite Hb.
  split; [destruct (JSON_parse value); reflexivity |].
  split.
  { unfold submitDisabled.
    destruct (JSON_parse value); cbn; rewrite Hl, Hb, Hf; reflexivity. }
  split; [destruct (JSON_parse value); reflexivity |].
  split.
  { intros Hp. rewrite Hp.
    split; [reflexivity | split; [reflexivity |]].
    apply handleSubmit_request_unparsable. exact Hp. }
  split.
  { intros Hp. destruct (JSON_parse value); [| congruence]. split; reflexivity. }
  split.
  { intros content Hp. unfold reader_onload. rewrite Hp. split; reflexivity. }
  intros r w0. apply handleSubmit_request_unparsable.
Qed.
End ImportSessionProperties.

Section ImageProxyProperties.
Import JS ImageProxy.



End ImageProxyProperties.

(** * The properties on concrete inputs *)

Section Instances.
Import JS Examples.

Lemma C1_witness :
  marked_store !! "activeRenewalJobId" = Some (Renew.jobId now0 "k3x9q2m1z")
  /\ truthy (Renew.jobId now0 "k3x9q2m1z") = true
  /\ Renew.cleared
       (@Renew.mountEffects Reference.runtime now0 (ticking now0) marked_store)
  /\ Renew.cleared
       (@Renew.handleRenewal_settle Reference.runtime (ticking now0)
          (Renew.Rejected Renew.NoResponse) (Renew.mount marked_store)).
Proof.
  assert (Hget : marked_store !! "activeRenewalJobId"
                 = Some (Renew.jobId now0 "k3x9q2m1z")) by reflexivity.
  assert (Ht : truthy (Renew.jobId now0 "k3x9q2m1z") = true) by reflexivity.
  destruct (@C1_termination_clears_marker_and_loading Reference.runtime
              marked_store _ Hget Ht) as (_ & Herr & _ & _ & Hmount).
  split; [exact Hget | split; [exact Ht | split]].
  - apply Hmount.
  - apply Herr.
Defined.



Lemma C4_witness :
  empty_or_full [1; 2] [2; 1]
  /\ empty_or_full [1; 2] []
  /\ same_set
       (Renew.selectedAccounts
          (Renew.st (Renew.onClick_selectAll
                       (Renew.onClick_selectAll (page [2; 1])))))
       [2; 1]
  /\ same_set
       (BulkUpload.selectedAccounts
          (BulkUpload.st (BulkUpload.onClick_selectAll
                            (BulkUpload.onClick_selectAll (modal [])))))
       [].
Proof.
  assert (Hfull : empty_or_full [1; 2] [2; 1]).
  { right. split; [| split; [| reflexivity]].
    - repeat constructor; cbn; intuition lia.
    - intros x Hx; cbn in *; intuition. }
  assert (Hempty : empty_or_full [1; 2] []) by (left; reflexivity).
  destruct (C4_select_all_twice (page [2; 1]) (modal []))
    as (Hrenew & _ & Hbulk & _).
  split; [exact Hfull | split; [exact Hempty | split]].
  - apply Hrenew. exact Hfull.
  - apply Hbulk. exact Hempty.
Defined.

(** C4 as stated fails: from the selection {1} of the accounts 1 and 2,
    two clicks on select-all end with the empty selection, on both
    pages. *)
Lemma C4_counterexample :
  ~ same_set
      (Renew.selectedAccounts
         (Renew.st (Renew.onClick_selectAll
                      (Renew.onClick_selectAll (page [1])))))
      [1]
  /\ ~ same_set
         (BulkUpload.selectedAccounts
            (BulkUpload.st (BulkUpload.onClick_selectAll
                              (BulkUpload.onClick_selectAll (modal [1])))))
         [1].
Proof.
  split; intros Hsame; destruct (proj2 (Hsame 1)) ; left; reflexivity.
Qed.

Lemma C5_witness :
  Renew.results (render [1; 2] 20 [entry 1 (Some 5); entry 2 None]) <> []
  /\ now0 + hour - 86400000 < ticking now0 0
  /\ now0 + hour - 86400000 < ticking now0 1
  /\ length
       (Renew.results
          (Renew.st
             (@Renew.persist_then_reload Reference.runtime
                (render [1; 2] 20 [entry 1 (Some 5); entry 2 None])
                (ticking now0) (now0 + hour) (page []))))
     = 2%nat
  /\ exists log',
       Renew.results
         (Renew.st
            (@Renew.persist_then_reload Reference.runtime
               (render [1; 2] 20 [entry 1 (Some 5); entry 2 None])
               (ticking now0) (now0 + hour) (page [])))
         !! 0%nat = Some log'
       /\ Renew.field "account_id" log' = Some (JNum 1)
       /\ Renew.field "renewed_count" log' = Some (JNum 5)
       /\ Renew.field "timestamp" log' = Some (JStr "2025-11-03T00:00:00.000Z")
       /\ Renew.timestamp log' = Some (TimeValue now0).
Proof.
  pose (r := render [1; 2] 20 [entry 1 (Some 5); entry 2 None]).
  assert (Hne : Renew.results r <> []) by discriminate.
  assert (Ht : truthy
                 (@JSON_stringify Reference.runtime
                    (JArr (map Renew.log_to_json
                             (@Renew.logsWithTimestamp Reference.runtime
                                (ticking now0) (Renew.results r)))))
               = true) by (vm_compute; reflexivity).
  assert (Hp : @JSON_parse Reference.runtime
                 (@JSON_stringify Reference.runtime
                    (JArr (map Renew.log_to_json
                             (@Renew.logsWithTimestamp Reference.runtime
                                (ticking now0) (Renew.results r)))))
               = Some (JArr (map Renew.log_to_json
                               (@Renew.logsWithTimestamp Reference.runtime
                                  (ticking now0) (Renew.results r)))))
    by (vm_compute; reflexivity).
  assert (Hd : forall i, (i < length (Renew.results r))%nat ->
                 @Date_parse Reference.runtime
                   (@toISOString Reference.runtime (ticking now0 i))
                 = TimeValue (ticking now0 i)).
  { intros [|[|i]] Hi; [vm_compute; reflexivity | vm_compute; reflexivity |].
    cbn in Hi; lia. }
  assert (Hc : forall i, (i < length (Renew.results r))%nat ->
                 now0 + hour - 86400000 < ticking now0 i).
  { intros i _. unfold ticking, now0, hour. lia. }
  destruct (@C5_persist_then_reload_within_a_day Reference.runtime
              r (ticking now0) (now0 + hour) (page []) Hne Ht Hp Hd Hc)
    as (Hlen & Hentries & _).
  split; [exact Hne | split; [apply Hc; cbn; lia | split; [apply Hc; cbn; lia |]]].
  split; [exact Hlen |].
  destruct (Hentries 0%nat (entry 1 (Some 5)) eq_refl)
    as (log' & Hlook & Hfields & Hstamp & _ & Htime).
  exists log'. split; [exact Hlook |].
  split; [rewrite Hfields by discriminate; reflexivity |].
  split; [rewrite Hfields by discriminate; reflexivity |].
  split; [exact Hstamp | exact Htime].
Defined.

(** C5 as stated fails twice.  An empty list is not written, so a
    reload brings back what the key held before; and entries saved a
    day or more before the reload are dropped by the load. *)
Lemma C5_counterexample :
  Renew.results
    (Renew.st
       (@Renew.persist_then_reload Reference.runtime
          (render [] 20 []) (ticking (now0 - hour)) now0
          (Renew.mount logs_store)))
  <> []
  /\ Renew.results
       (Renew.st
          (@Renew.persist_then_reload Reference.runtime
             (render [1] 20 [entry 1 (Some 5)]) (ticking now0) (now0 + day)
             (page [])))
     = [].
Proof. split; [vm_compute; discriminate | vm_compute; reflexivity]. Qed.

Lemma C6_witness :
  (Renew.selectedAccounts (render [] 20 []) = []
   \/ Renew.renewalCount (render [] 20 []) < 1
   \/ 20 < Renew.renewalCount (render [] 20 []))
  /\ (Renew.selectedAccounts (render [1] 21 []) = []
      \/ Renew.renewalCount (render [1] 21 []) < 1
      \/ 20 < Renew.renewalCount (render [1] 21 []))
  /\ (exists msg,
        @Renew.handleRenewal Reference.runtime
          (fun _ _ => Renew.Rejected Renew.NoResponse)
          (render [] 20 []) now0 "k3x9q2m1z" (ticking now0) (page [])
        = Renew.mkWorld (Renew.st (page [])) (Renew.localStorage (page []))
            [Renew.Alert msg])
  /\ (exists msg,
        @Renew.handleRenewal Reference.runtime
          (fun _ _ => Renew.Rejected Renew.NoResponse)
          (render [1] 21 []) now0 "k3x9q2m1z" (ticking now0) (page [1])
        = Renew.mkWorld (Renew.st (page [1])) (Renew.localStorage (page [1]))
            [Renew.Alert msg]).
Proof.
  assert (H0 : Renew.selectedAccounts (render [] 20 []) = []
               \/ Renew.renewalCount (render [] 20 []) < 1
               \/ 20 < Renew.renewalCount (render [] 20 []))
    by (left; reflexivity).
  assert (H21 : Renew.selectedAccounts (render [1] 21 []) = []
                \/ Renew.renewalCount (render [1] 21 []) < 1
                \/ 20 < Renew.renewalCount (render [1] 21 []))
    by (right; right; cbn; lia).
  split; [exact H0 | split; [exact H21 | split]].
  - destruct (@C6_invalid_renewal_is_blocked Reference.runtime
                (fun _ _ => Renew.Rejected Renew.NoResponse)
                (render [] 20 []) now0 "k3x9q2m1z" (ticking now0) (page []) H0)
      as (msg & Hw & _).
    exists msg. exact Hw.
  - destruct (@C6_invalid_renewal_is_blocked Reference.runtime
                (fun _ _ => Renew.Rejected Renew.NoResponse)
                (render [1] 21 []) now0 "k3x9q2m1z" (ticking now0) (page [1]) H21)
      as (msg & Hw & _).
    exists msg. exact Hw.
Defined.



Lemma C8_witness :
  @ImportSession.blank Reference.runtime bad_json = false
  /\ ImportSession.loading (ImportSession.st paste_form) = false
  /\ @ImportSession.blank Reference.runtime
       (ImportSession.filename (ImportSession.st paste_form)) = false
  /\ @JSON_parse Reference.runtime bad_json = None
  /\ @JSON_parse Reference.runtime cookie_json <> None
  /\ ImportSession.error
       (ImportSession.st
          (@ImportSession.textarea_onChange Reference.runtime bad_json paste_form))
     = "Invalid JSON format. Please check your pasted data."
  /\ ImportSession.error
       (ImportSession.st
          (@ImportSession.textarea_onChange Reference.runtime cookie_json
             (@ImportSession.textarea_onChange Reference.runtime bad_json
                paste_form)))
     = ""
  /\ @ImportSession.submitDisabled Reference.runtime
       (ImportSession.st
          (@ImportSession.textarea_onChange Reference.runtime cookie_json
             (@ImportSession.textarea_onChange Reference.runtime bad_json
                paste_form)))
     = false.
Proof.
  assert (Hb : @ImportSession.blank Reference.runtime bad_json = false)
    by (vm_compute; reflexivity).
  assert (Hb' : @ImportSession.blank Reference.runtime cookie_json = false)
    by (vm_compute; reflexivity).
  assert (Hl : ImportSession.loading (ImportSession.st paste_form) = false)
    by reflexivity.
  assert (Hf : @ImportSession.blank Reference.runtime
                 (ImportSession.filename (ImportSession.st paste_form)) = false)
    by (vm_compute; reflexivity).
  assert (Hbad : @JSON_parse Reference.runtime bad_json = None)
    by (vm_compute; reflexivity).
  assert (Hgood : @JSON_parse Reference.runtime cookie_json <> None)
    by (vm_compute; discriminate).
  destruct (@C8_paste_validation Reference.runtime bad_json paste_form Hb Hl Hf)
    as (_ & _ & _ & Hinvalid & _).
  destruct (@C8_paste_validation Reference.runtime cookie_json
              (@ImportSession.textarea_onChange Reference.runtime bad_json
                 paste_form) Hb' Hl Hf)
    as (_ & Henabled & _ & _ & Hvalid & _).
  split; [exact Hb | split; [exact Hl | split; [exact Hf |]]].
  split; [exact Hbad | split; [exact Hgood |]].
  split; [apply Hinvalid; exact Hbad |].
  split; [apply Hvalid; exact Hgood | exact Henabled].
Defined.

(** C8 as stated fails on the submit control: after pasting the text
    [{bad json], with a filename present, the inline error is set and
    the control is not disabled. *)
Lemma C8_counterexample :
  Reference.JSON_parse bad_json = None
  /\ ImportSession.error
       (ImportSession.st
          (@ImportSession.textarea_onChange Reference.runtime bad_json paste_form))
     = "Invalid JSON format. Please check your pasted data."
  /\ @ImportSession.submitDisabled Reference.runtime
       (ImportSession.st
          (@ImportSession.textarea_onChange Reference.runtime bad_json paste_form))
     <> true.
Proof.
  split; [vm_compute; reflexivity |].
  split; [vm_compute; reflexivity | vm_compute; discriminate].
Qed.

Lemma C9_witness :
  (BulkUpload.Threw "Failed to fetch" = BulkUpload.Threw "Failed to fetch"
   /\ "Failed to fetch"
      = if String.eqb "Failed to fetch" ""
        then "Failed to upload TXT file" else "Failed to fetch")
  /\ BulkUpload.txtFile
       (BulkUpload.st
          (BulkUpload.handleSubmit_settle (BulkUpload.Responded true no_data)
             (modal [1; 2])))
     = None
  /\ BulkUpload.out
       (BulkUpload.handleSubmit_settle (BulkUpload.Responded true no_data)
          (modal [1; 2]))
     = [BulkUpload.OnToast BulkUpload.toast_success None; BulkUpload.OnSuccess;
        BulkUpload.SetTimeout BulkUpload.call_onClose 2000]
  /\ BulkUpload.out
       (BulkUpload.handleSubmit_settle (BulkUpload.Threw "Failed to fetch")
          (modal [1; 2]))
     = [BulkUpload.OnToast BulkUpload.toast_error (Some "Failed to fetch")]
  /\ BulkUpload.uploadResult
       (BulkUpload.st
          (BulkUpload.handleSubmit_settle (BulkUpload.Responded false no_data)
             (modal [1; 2])))
     = Some (BulkUpload.mkUploadResult false (Some "Upload failed") None None None)
  /\ BulkUpload.txtFile
       (BulkUpload.st
          (BulkUpload.handleSubmit_settle (BulkUpload.Responded false no_data)
             (modal [1; 2])))
     = Some posts_txt
  /\ BulkUpload.selectedAccounts
       (BulkUpload.st
          (BulkUpload.handleSubmit_settle (BulkUpload.Responded false no_data)
             (modal [1; 2])))
     = [1; 2].
Proof.
  assert (Hthrew : BulkUpload.Threw "Failed to fetch"
                   = BulkUpload.Threw "Failed to fetch"
                   /\ "Failed to fetch"
                      = if String.eqb "Failed to fetch" ""
                        then "Failed to upload TXT file" else "Failed to fetch")
    by (split; reflexivity).
  destruct (C9_upload_outcomes (modal [1; 2]) "Failed to fetch" no_data)
    as ((Htxt & _ & _ & _ & _ & Hout) & Hfailure).
  destruct (Hfailure (BulkUpload.Threw "Failed to fetch") "Failed to fetch"
              (or_introl Hthrew)) as (_ & Htoast & _).
  destruct (Hfailure (BulkUpload.Responded false no_data) "Upload failed"
              (or_intror (conj eq_refl eq_refl)))
    as (Hpanel & _ & Hkept & _ & Hsel & _).
  split; [exact Hthrew | split; [exact Htxt | split; [exact Hout |]]].
  split; [exact Htoast | split; [exact Hpanel | split]].
  - exact Hkept.
  - exact Hsel.
Defined.

Lemma C10_witness :
  @Renew.logs_key_ok Reference.runtime (Renew.localStorage (Renew.mount logs_store))
  /\ Forall (@Renew.save_reads_back Reference.runtime) renewal_run
  /\ @Renew.logs_key_ok Reference.runtime
       (Renew.localStorage
          (@Renew.run Reference.runtime renewal_run (Renew.mount logs_store)))
  /\ Renew.localStorage
       (@Renew.run Reference.runtime renewal_run (Renew.mount logs_store))
       !! "renewalActivityLogs"
     = Some (logs_text [stored_at now0 1 (Some 5)])
  /\ Renew.localStorage
       (@Renew.loadLogs Reference.runtime now0 (Renew.mount null_store))
       !! "renewalActivityLogs"
     = None
  /\ Renew.localStorage
       (@Renew.loadLogs Reference.runtime now0 (Renew.mount empty_object_store))
     = empty_object_store.
Proof.
  assert (Hok : @Renew.logs_key_ok Reference.runtime
                  (Renew.localStorage (Renew.mount logs_store))).
  { unfold Renew.logs_key_ok, Renew.nonempty_array_text.
    change (Renew.localStorage (Renew.mount logs_store) !! "renewalActivityLogs")
      with (Some (logs_text [old_log; fresh_log])).
    eexists _, _. vm_compute. reflexivity. }
  assert (Hback : Forall (@Renew.save_reads_back Reference.runtime) renewal_run).
  { unfold renewal_run. do 3 (constructor; [exact I |]).
    constructor; [vm_compute; reflexivity |].
    constructor; [exact I | constructor]. }
  destruct (@C10_logs_key_never_holds_empty_list Reference.runtime
              renewal_run (Renew.mount logs_store) Hok Hback)
    as (Hafter & _ & _ & _ & _ & Hthrows & Hobjects).
  split; [exact Hok | split; [exact Hback | split; [exact Hafter |]]].
  split; [vm_compute; reflexivity |].
  split.
  - apply (Hthrows now0 (Renew.mount null_store) "[null]");
      [reflexivity | reflexivity |].
    right; right. exists [JNull]. split; [vm_compute; reflexivity |].
    left; reflexivity.
  - apply (Hobjects now0 (Renew.mount empty_object_store) "[{}]" [[]]);
      [reflexivity | vm_compute; reflexivity |].
    intros members [<- | []]. split; [left; reflexivity | exact I].
Defined.
End Instances.

(** * Further properties of the renewal page *)

Section Toggle.
Import JS.

Lemma includes_In (accountId : Z) (prev : list Z) :
  existsb (Z.eqb accountId) prev = true <-> In accountId prev.
Proof.
  rewrite existsb_exists. split.
  - intros (x & Hin & Heq). apply Z.eqb_eq in Heq. subst. exact Hin.
  - intros Hin. exists accountId. split; [exact Hin | apply Z.eqb_refl].
Qed.

Lemma In_without (accountId x : Z) (prev : list Z) :
  In x (List.filter (fun id => negb (id =? accountId)) prev)
  <-> x <> accountId /\ In x prev.
Proof.
  rewrite filter_In, negb_true_iff, Z.eqb_neq. tauto.
Qed.

(** The list that both toggle handlers compute from [prev]. *)
Lemma toggled_In (accountId x : Z) (prev : list Z) :
  In x (if existsb (Z.eqb accountId) prev
        then List.filter (fun id => negb (id =? accountId)) prev
        else prev ++ [accountId])
  <-> (x = accountId /\ ~ In accountId prev) \/ (x <> accountId /\ In x prev).
Proof.
  destruct (existsb (Z.eqb accountId) prev) eqn:Hex.
  - apply includes_In in Hex. rewrite In_without.
    split; [intros [Hne Hin]; right; tauto |].
    intros [[-> Hn] | Hin]; tauto.
  - assert (Hn : ~ In accountId prev).
    { intros Hin. apply includes_In in Hin. congruence. }
    rewrite in_app_iff. cbn. split.
    + intros [Hin | [<- | []]]; [| left; tauto].
      right. split; [intros -> | ]; tauto.
    + intros [[-> _] | [_ Hin]]; [right; left; reflexivity | left; exact Hin].
Qed.

Lemma toggled_NoDup (accountId : Z) (prev : list Z) :
  List.NoDup prev ->
  List.NoDup (if existsb (Z.eqb accountId) prev
              then List.filter (fun id => negb (id =? accountId)) prev
              else prev ++ [accountId]).
Proof.
  intros Hnd. destruct (existsb (Z.eqb accountId) prev) eqn:Hex.
  - apply List.NoDup_filter. exact Hnd.
  - assert (Hn : ~ In accountId prev).
    { intros Hin. apply includes_In in Hin. congruence. }
    apply List.NoDup_app; [exact Hnd | repeat constructor; intros [] |].
    intros x Hin [<- | []]. exact (Hn Hin).
Qed.

(** X1.  A click on an account's checkbox flips that account and no
    other: afterwards the account is selected exactly if it was not
    before, and every other account is selected exactly if it was.  The
    same holds in the bulk upload modal. *)
Theorem X1_toggle_flips_one_account :
  forall (accountId x : Z) (w : Renew.World) (b : BulkUpload.World),
    (In x (Renew.selectedAccounts (Renew.st (Renew.toggleAccount accountId w)))
     <-> (x = accountId /\ ~ In accountId (Renew.selectedAccounts (Renew.st w)))
         \/ (x <> accountId /\ In x (Renew.selectedAccounts (Renew.st w))))
    /\ (In x (BulkUpload.selectedAccounts
                (BulkUpload.st (BulkUpload.handleAccountToggle accountId b)))
        <-> (x = accountId
             /\ ~ In accountId (BulkUpload.selectedAccounts (BulkUpload.st b)))
            \/ (x <> accountId
                /\ In x (BulkUpload.selectedAccounts (BulkUpload.st b)))).
Proof.
  intros accountId x w b. split; apply toggled_In.
Qed.

(** X2.  Toggling an account of the loaded list keeps the selection a
    duplicate-free list of ids of loaded accounts, on both pages. *)
Theorem X2_toggle_keeps_selection_wellformed :
  forall (accountId : Z) (w : Renew.World) (b : BulkUpload.World),
    let ids := map Renew.Account.id (Renew.accounts (Renew.st w)) in
    let ids' := map BulkUpload.id (BulkUpload.accounts (BulkUpload.st b)) in
    (In accountId ids ->
     List.NoDup (Renew.selectedAccounts (Renew.st w)) ->
     incl (Renew.selectedAccounts (Renew.st w)) ids ->
     List.NoDup (Renew.selectedAccounts
                   (Renew.st (Renew.toggleAccount accountId w)))
     /\ incl (Renew.selectedAccounts
                (Renew.st (Renew.toggleAccount accountId w))) ids)
    /\ (In accountId ids' ->
        List.NoDup (BulkUpload.selectedAccounts (BulkUpload.st b)) ->
        incl (BulkUpload.selectedAccounts (BulkUpload.st b)) ids' ->
        List.NoDup (BulkUpload.selectedAccounts
                      (BulkUpload.st (BulkUpload.handleAccountToggle accountId b)))
        /\ incl (BulkUpload.selectedAccounts
                   (BulkUpload.st (BulkUpload.handleAccountToggle accountId b)))
                ids').
Proof.
  intros accountId w b ids ids'. split.
  - intros Hid Hnd Hincl. split; [apply toggled_NoDup; exact Hnd |].
    intros x Hx. apply toggled_In in Hx as [[-> _] | [_ Hin]]; auto.
  - intros Hid Hnd Hincl. split; [apply toggled_NoDup; exact Hnd |].
    intros x Hx. apply toggled_In in Hx as [[-> _] | [_ Hin]]; auto.
Qed.

Lemma toggled_twice_fresh (accountId : Z) (prev : list Z) :
  ~ In accountId prev ->
  List.filter (fun id => negb (id =? accountId)) (prev ++ [accountId]) = prev.
Proof.
  intros Hn. rewrite List.filter_app. cbn. rewrite Z.eqb_refl. cbn.
  rewrite app_nil_r. apply forallb_filter_id, forallb_forall.
  intros x Hin. apply negb_true_iff, Z.eqb_neq. intros ->. exact (Hn Hin).
Qed.

(** X3.  Two clicks on the same checkbox give back the selection as a
    set; when the account was not selected before, they give back the
    very same list. *)
Theorem X3_toggle_twice :
  forall (accountId : Z) (w : Renew.World) (b : BulkUpload.World),
    same_set (Renew.selectedAccounts
                (Renew.st (Renew.toggleAccount accountId
                             (Renew.toggleAccount accountId w))))
             (Renew.selectedAccounts (Renew.st w))
    /\ same_set (BulkUpload.selectedAccounts
                   (BulkUpload.st (BulkUpload.handleAccountToggle accountId
                                     (BulkUpload.handleAccountToggle accountId b))))
                (BulkUpload.selectedAccounts (BulkUpload.st b))
    /\ (~ In accountId (Renew.selectedAccounts (Renew.st w)) ->
        Renew.selectedAccounts
          (Renew.st (Renew.toggleAccount accountId
                       (Renew.toggleAccount accountId w)))
        = Renew.selectedAccounts (Renew.st w))
    /\ (~ In accountId (BulkUpload.selectedAccounts (BulkUpload.st b)) ->
        BulkUpload.selectedAccounts
          (BulkUpload.st (BulkUpload.handleAccountToggle accountId
                            (BulkUpload.handleAccountToggle accountId b)))
        = BulkUpload.selectedAccounts (BulkUpload.st b)).
Proof.
  intros accountId w b.
  assert (Hset : forall prev x,
    In x (let once := if existsb (Z.eqb accountId) prev
                      then List.filter (fun id => negb (id =? accountId)) prev
                      else prev ++ [accountId] in
          if existsb (Z.eqb accountId) once
          then List.filter (fun id => negb (id =? accountId)) once
          else once ++ [accountId])
    <-> In x prev).
  { intros prev x. cbv zeta. rewrite toggled_In, !toggled_In.
    destruct (Z.eq_dec x accountId) as [-> | Hne]; [| tauto].
    destruct (in_dec Z.eq_dec accountId prev); tauto. }
  assert (Heq : forall prev, ~ In accountId prev ->
    (let once := if existsb (Z.eqb accountId) prev
                 then List.filter (fun id => negb (id =? accountId)) prev
                 else prev ++ [accountId] in
     if existsb (Z.eqb accountId) once
     then List.filter (fun id => negb (id =? accountId)) once
     else once ++ [accountId]) = prev).
  { intros prev Hn. cbv zeta.
    destruct (existsb (Z.eqb accountId) prev) eqn:Hex.
    { apply includes_In in Hex. tauto. }
    assert (Hin : existsb (Z.eqb accountId) (prev ++ [accountId]) = true).
    { apply includes_In, in_app_iff. right; left; reflexivity. }
    rewrite Hin. apply toggled_twice_fresh. exact Hn. }
  split; [intros x; apply Hset |].
  split; [intros x; apply Hset |].
  split; intros Hn; apply Heq; exact Hn.
Qed.
End Toggle.

Section RenewalFlow.
Import JS Renew.
Context `{Runtime}.

Lemma truthy_nonempty (c : ascii) (s t : string) :
  truthy (String c s +:+ t) = true.
Proof. reflexivity. Qed.

Lemma jobId_truthy now rnd : truthy (jobId now rnd) = true.
Proof. unfold jobId. apply truthy_nonempty. Qed.

Lemma delete_both_twice (m : gmap string string) :
  delete "activeRenewalJobId"
    (delete "renewalActivityLogs"
       (delete "activeRenewalJobId" (delete "renewalActivityLogs" m)))
  = delete "activeRenewalJobId" (delete "renewalActivityLogs" m).
Proof.
  apply map_eq. intros k.
  destruct (decide (k = "activeRenewalJobId")) as [-> | Hjob].
  { rewrite !lookup_delete_eq. reflexivity. }
  rewrite !(lookup_delete_ne _ "activeRenewalJobId") by congruence.
  destruct (decide (k = "renewalActivityLogs")) as [-> | Hlog].
  { rewrite !lookup_delete_eq. reflexivity. }
  repeat rewrite lookup_delete_ne by congruence.
  reflexivity.
Qed.

(** The world that [clearActivityLogs] leaves. *)
Lemma clearActivityLogs_world w :
  clearActivityLogs w
  = mkWorld (mkState (accounts (st w)) [] (renewalCount (st w)) false []
               (JNum 0) None)
      (delete "activeRenewalJobId"
         (delete "renewalActivityLogs" (localStorage w)))
      (out w).
Proof. reflexivity. Qed.

(** X4.  Clearing the activity log empties results, selection and
    total, removes both localStorage keys and ends loading; doing it
    again changes nothing; and a page loaded afterwards over the same
    store shows an empty log with total 0. *)
Theorem X4_clear_is_complete_and_idempotent :
  forall (now : Z) (w : World),
    let w' := clearActivityLogs w in
    results (st w') = []
    /\ selectedAccounts (st w') = []
    /\ totalRenewed (st w') = JNum 0
    /\ localStorage w' !! "renewalActivityLogs" = None
    /\ cleared w'
    /\ out w' = out w
    /\ clearActivityLogs w' = w'
    /\ results (st (loadLogs now (mount (localStorage w')))) = []
    /\ totalRenewed (st (loadLogs now (mount (localStorage w')))) = JNum 0.
Proof.
  intros now w w'. subst w'. rewrite !clearActivityLogs_world.
  set (ls := localStorage w).
  cbn [st localStorage out accounts selectedAccounts renewalCount loading
       results totalRenewed activeRenewalJobId].
  assert (Hlogs : delete "activeRenewalJobId" (delete "renewalActivityLogs" ls)
                    !! "renewalActivityLogs" = None).
  { rewrite lookup_delete_ne by discriminate. apply lookup_delete_eq. }
  split; [reflexivity |]. split; [reflexivity |]. split; [reflexivity |].
  split; [exact Hlogs |].
  split.
  { unfold cleared. cbn [st localStorage activeRenewalJobId loading].
    split; [reflexivity | split; [apply lookup_delete_eq | reflexivity]]. }
  split; [reflexivity |].
  split; [rewrite delete_both_twice; reflexivity |].
  unfold loadLogs, getItem, mount. cbn [localStorage]. rewrite Hlogs.
  split; reflexivity.
Qed.

(** The worlds that the two parts of [handleRenewal] and the status
    check leave. *)
Lemma handleRenewal_request_world r now rnd w :
  submits r = true ->
  handleRenewal_request r now rnd w
  = mkWorld (mkState (accounts (st w)) (selectedAccounts (st w))
               (renewalCount (st w)) true [] (JNum 0) (Some (jobId now rnd)))
      (<["activeRenewalJobId" := jobId now rnd]> (localStorage w))
      (out w ++ [RenewListings (selectedAccounts r) (renewalCount r)]).
Proof.
  intros Hs. unfold submits in Hs. apply andb_true_iff in Hs as [Hsel Hcount].
  apply negb_true_iff in Hsel, Hcount.
  unfold handleRenewal_request. rewrite Hsel, Hcount.
  generalize (jobId now rnd). intros j. reflexivity.
Qed.

Lemma handleRenewal_request_blocked r now rnd w :
  submits r = false ->
  exists msg,
    handleRenewal_request r now rnd w
    = mkWorld (st w) (localStorage w) (out w ++ [Alert msg]).
Proof.
  intros Hs. unfold submits in Hs. unfold handleRenewal_request.
  destruct (length (selectedAccounts r) =? 0)%nat; [eexists; reflexivity |].
  destruct ((renewalCount r <? 1) || (renewalCount r >? 20));
    [eexists; reflexivity | discriminate].
Qed.

Lemma checkRenewalStatus_stale r w j :
  activeRenewalJobId r = Some j -> truthy j = true -> results r = [] ->
  checkRenewalStatus r w
  = mkWorld (mkState (accounts (st w)) (selectedAccounts (st w))
               (renewalCount (st w)) false (results (st w))
               (totalRenewed (st w)) None)
      (delete "activeRenewalJobId" (localStorage w))
      (out w ++ [ConsoleLog "Found stale renewal job ID, clearing..."]).
Proof.
  intros Hid Ht Hres. unfold checkRenewalStatus. rewrite Hid, Ht, Hres.
  reflexivity.
Qed.

Lemma handleRenewal_settle_resolved clock d w :
  handleRenewal_settle clock (Resolved d) w
  = mkWorld (mkState (accounts (st w)) (selectedAccounts (st w))
               (renewalCount (st w)) false
               (imap (fun i result =>
                        with_timestamp result (Some (TimeValue (clock i))))
                     (Response.results d))
               (match calculatedTotal d with
                | Some total => total
                | None => totalRenewed (st w)
                end)
               None)
      (delete "activeRenewalJobId" (localStorage w))
      (match calculatedTotal d with
       | Some _ => out w
       | None => out w ++ [Alert (errorMessage NoResponse)]
       end).
Proof.
  unfold handleRenewal_settle. destruct (calculatedTotal d); reflexivity.
Qed.

Lemma handleRenewal_settle_rejected clock e w :
  handleRenewal_settle clock (Rejected e) w
  = mkWorld (mkState (accounts (st w)) (selectedAccounts (st w))
               (renewalCount (st w)) false (results (st w))
               (totalRenewed (st w)) None)
      (delete "activeRenewalJobId" (localStorage w))
      (out w ++ [Alert (errorMessage e)]).
Proof. reflexivity. Qed.

Lemma requests_snoc_request calls ids n :
  requests (calls ++ [RenewListings ids n]) = requests calls ++ [(ids, n)].
Proof. unfold requests. rewrite omap_app. reflexivity. Qed.

Lemma requests_snoc_alert calls msg :
  requests (calls ++ [Alert msg]) = requests calls.
Proof. unfold requests. rewrite omap_app. apply app_nil_r. Qed.

Lemma requests_snoc_log calls msg :
  requests (calls ++ [ConsoleLog msg]) = requests calls.
Proof. unfold requests. rewrite omap_app. apply app_nil_r. Qed.

Lemma requests_settled clock o w :
  requests (out (handleRenewal_settle clock o w)) = requests (out w).
Proof.
  destruct o as [d | e].
  - rewrite handleRenewal_settle_resolved. cbn [out].
    destruct (calculatedTotal d); [reflexivity | apply requests_snoc_alert].
  - rewrite handleRenewal_settle_rejected. apply requests_snoc_alert.
Qed.

Lemma alerts_snoc_request calls ids n :
  alerts (calls ++ [RenewListings ids n]) = alerts calls.
Proof. unfold alerts. rewrite omap_app. apply app_nil_r. Qed.

Lemma alerts_snoc_alert calls msg :
  alerts (calls ++ [Alert msg]) = alerts calls ++ [msg].
Proof. unfold alerts. rewrite omap_app. reflexivity. Qed.

(** X5.  After a click on Execute Renewal that passes the guards, the
    status check that runs on the resulting render finds the new job id
    with no results yet, takes it for stale, and clears the job marker
    and the loading flag while the request is still in flight: the
    Execute button is enabled again and no further request was made. *)
Theorem X5_status_check_ends_loading_in_flight :
  forall (now : Z) (rnd : string) (w : World),
    submits (st w) = true ->
    let submitted := onClick_execute now rnd w in
    let checked := effect_checkRenewalStatus submitted in
    loading (st submitted) = true
    /\ activeRenewalJobId (st submitted) = Some (jobId now rnd)
    /\ localStorage submitted !! "activeRenewalJobId" = Some (jobId now rnd)
    /\ cleared checked
    /\ executeDisabled (st checked) = false
    /\ requests (out checked)
       = requests (out w) ++ [(selectedAccounts (st w), renewalCount (st w))].
Proof.
  intros now rnd w Hs submitted checked. subst checked submitted.
  unfold effect_checkRenewalStatus, onClick_execute.
  rewrite (handleRenewal_request_world (st w) now rnd w Hs).
  rewrite (checkRenewalStatus_stale _ _ (jobId now rnd));
    [| reflexivity | apply jobId_truthy | reflexivity].
  generalize (jobId now rnd). intros j.
  cbn [st localStorage out accounts selectedAccounts renewalCount loading
       results totalRenewed activeRenewalJobId].
  split; [reflexivity | split; [reflexivity | split; [apply lookup_insert_eq |]]].
  split.
  { unfold cleared. cbn [st localStorage activeRenewalJobId loading].
    split; [reflexivity | split; [apply lookup_delete_eq | reflexivity]]. }
  split.
  { unfold submits in Hs. apply andb_true_iff in Hs as [Hsel Hcount].
    apply negb_true_iff in Hsel, Hcount.
    unfold executeDisabled. cbn [selectedAccounts renewalCount loading].
    rewrite Hsel, <- orb_assoc, Hcount. reflexivity. }
  rewrite requests_snoc_log, requests_snoc_request. reflexivity.
Qed.

(** X6.  [handleRenewal] issues a request exactly when its guards
    pass, and then exactly one, carrying the selection and the count of
    the render; it alerts exactly when they do not.  Whenever the
    Execute button is enabled the guards pass.  The part that runs after
    the request settles never issues a request. *)
Theorem X6_one_request_iff_guards_pass :
  forall (r : State) (now : Z) (rnd : string) (clock : nat -> Z)
         (o : Outcome) (w : World),
    requests (out (handleRenewal_request r now rnd w))
    = requests (out w)
      ++ (if submits r then [(selectedAccounts r, renewalCount r)] else [])
    /\ (submits r = true ->
        alerts (out (handleRenewal_request r now rnd w)) = alerts (out w))
    /\ (submits r = false ->
        exists msg,
          alerts (out (handleRenewal_request r now rnd w)) = alerts (out w) ++ [msg])
    /\ (executeDisabled r = false -> submits r = true)
    /\ requests (out (handleRenewal_settle clock o w)) = requests (out w).
Proof.
  intros r now rnd clock o w.
  destruct (submits r) eqn:Hs.
  - rewrite (handleRenewal_request_world r now rnd w Hs). cbn [out].
    rewrite requests_snoc_request, alerts_snoc_request.
    split; [reflexivity | split; [reflexivity | split; [discriminate |]]].
    split; [reflexivity | apply requests_settled].
  - destruct (handleRenewal_request_blocked r now rnd w Hs) as [msg ->].
    cbn [out]. rewrite requests_snoc_alert, alerts_snoc_alert, app_nil_r.
    split; [reflexivity | split; [discriminate | split; [exists msg; reflexivity |]]].
    split.
    + intros Hd. unfold submits in Hs. unfold executeDisabled in Hd.
      destruct (loading r); [discriminate |].
      destruct (length (selectedAccounts r) =? 0)%nat; [discriminate |].
      cbn in Hs, Hd. rewrite Hd in Hs. discriminate.
    + apply requests_settled.
Qed.
End RenewalFlow.

Section StoredLog.
Import JS Renew.
Context `{Runtime}.

Lemma loadLogs_reads_logs_key now (ls1 ls2 : gmap string string) :
  ls1 !! "renewalActivityLogs" = ls2 !! "renewalActivityLogs" ->
  results (st (loadLogs now (mount ls1))) = results (st (loadLogs now (mount ls2)))
  /\ totalRenewed (st (loadLogs now (mount ls1)))
     = totalRenewed (st (loadLogs now (mount ls2))).
Proof.
  intros Heq. unfold loadLogs, getItem, mount. cbn [localStorage]. rewrite Heq.
  destruct (ls2 !! "renewalActivityLogs") as [savedLogs|]; [| split; reflexivity].
  destruct (truthy savedLogs); [| split; reflexivity].
  destruct (readLogs savedLogs) as [logs|]; [| split; reflexivity].
  cbv zeta. unfold seq. destruct (sumRenewed _); split; reflexivity.
Qed.

Lemma handleRenewal_keeps_logs_key api r now rnd clock w :
  localStorage (handleRenewal api r now rnd clock w) !! "renewalActivityLogs"
  = localStorage w !! "renewalActivityLogs".
Proof.
  unfold handleRenewal, seq. destruct (submits r) eqn:Hs.
  - rewrite (handleRenewal_request_world r now rnd w Hs).
    generalize (jobId now rnd). intros j.
    destruct (api (selectedAccounts r) (renewalCount r));
      [rewrite handleRenewal_settle_resolved
      | rewrite handleRenewal_settle_rejected];
      cbn [localStorage];
      rewrite lookup_delete_ne by discriminate;
      apply lookup_insert_ne; discriminate.
  - destruct (handleRenewal_request_blocked r now rnd w Hs) as [msg ->].
    reflexivity.
Qed.

(** X7.  [handleRenewal] never writes or removes the stored activity
    log.  So after a renewal that is rejected the page shows no results,
    while a page loaded afterwards shows exactly what it would have shown
    before the renewal. *)
Theorem X7_renewal_leaves_stored_log :
  forall api (r : State) (now : Z) (rnd : string) (clock : nat -> Z)
         (later : Z) (w : World),
    let w' := handleRenewal api r now rnd clock w in
    localStorage w' !! "renewalActivityLogs"
    = localStorage w !! "renewalActivityLogs"
    /\ results (st (loadLogs later (mount (localStorage w'))))
       = results (st (loadLogs later (mount (localStorage w))))
    /\ totalRenewed (st (loadLogs later (mount (localStorage w'))))
       = totalRenewed (st (loadLogs later (mount (localStorage w))))
    /\ (forall e,
           submits r = true ->
           api (selectedAccounts r) (renewalCount r) = Rejected e ->
           results (st w') = [] /\ totalRenewed (st w') = JNum 0).
Proof.
  intros api r now rnd clock later w w'.
  assert (Hkey := handleRenewal_keeps_logs_key api r now rnd clock w).
  fold w' in Hkey.
  destruct (loadLogs_reads_logs_key later _ _ Hkey) as [Hres Htot].
  split; [exact Hkey | split; [exact Hres | split; [exact Htot |]]].
  intros e Hs He. unfold w', handleRenewal, seq.
  rewrite Hs, He, (handleRenewal_request_world r now rnd w Hs).
  rewrite handleRenewal_settle_rejected. split; reflexivity.
Qed.

Lemma imap_imap {A B C} (f : nat -> A -> B) (g : nat -> B -> C) (l : list A) :
  imap g (imap f l) = imap (fun i x => g i (f i x)) l.
Proof.
  revert f g. induction l as [|x l IH]; intros f g; [reflexivity |].
  rewrite !imap_cons. f_equal. apply IH.
Qed.

(** The save effect ignores the timestamps the entries carry. *)
Lemma logsWithTimestamp_restamp (clock : nat -> Z) (g : nat -> option Date)
    (rs : list RenewalResult) :
  logsWithTimestamp clock (imap (fun i log => with_timestamp log (g i)) rs)
  = logsWithTimestamp clock rs.
Proof.
  unfold logsWithTimestamp. rewrite imap_imap. reflexivity.
Qed.

(** X8.  When a renewal resolves with at least one result and the save
    effect runs on the resulting render, the stored log is exactly the
    results of this response, stamped by the save: whatever the key held
    before, entries of earlier renewals included, is gone. *)
Theorem X8_new_results_replace_stored_log :
  forall (clock clock' : nat -> Z) (d : Response.data) (w : World),
    Response.results d <> [] ->
    let settled := handleRenewal_settle clock (Resolved d) w in
    let saved := saveLogs (st settled) clock' settled in
    localStorage saved !! "renewalActivityLogs"
    = Some (JSON_stringify
              (JArr (map log_to_json
                       (logsWithTimestamp clock' (Response.results d)))))
    /\ length (logsWithTimestamp clock' (Response.results d))
       = length (Response.results d).
Proof.
  intros clock clock' d w Hne settled saved. split.
  - unfold saved, settled. rewrite handleRenewal_settle_resolved.
    rewrite saveLogs_nonempty.
    + cbn [localStorage st results]. rewrite lookup_insert_eq.
      rewrite (logsWithTimestamp_restamp clock'
                 (fun i => Some (TimeValue (clock i)))).
      reflexivity.
    + cbn [st results]. destruct (Response.results d); [congruence | discriminate].
  - unfold logsWithTimestamp. apply length_imap.
Qed.

(** Entries that were stored and loaded before are written like the
    entries they came from: the new string takes the place of the old
    one. *)
Lemma logsWithTimestamp_again (clock0 clock1 : nat -> Z) (t : nat -> Z)
    (rs : list RenewalResult) :
  map log_to_json
    (logsWithTimestamp clock1
       (imap (fun i log =>
                mkLog (set_prop "timestamp" (JStr (toISOString (clock0 i)))
                                (fields log))
                      (Some (TimeValue (t i))))
             rs))
  = map log_to_json (logsWithTimestamp clock1 rs).
Proof.
  unfold logsWithTimestamp. rewrite imap_imap.
  change (map log_to_json ?l) with (log_to_json <$> l). rewrite !fmap_imap.
  apply imap_ext. intros i log _. unfold compose, log_to_json, with_timestamp.
  cbn [fields timestamp]. rewrite set_prop_twice. reflexivity.
Qed.

(** X9.  Every load writes the entries it shows back with the time of
    that load, so the 24 hours count from the last visit, not from the
    renewal: entries saved at [clock0], shown by a load at [now1] and
    saved again by it at [clock1], are all shown by a load at [now2]
    that is less than 24 hours after [clock1], however long after
    [clock0] that is; each is the object stored by the second save,
    with the date of that save. *)
Theorem X9_each_load_restarts_the_24_hours :
  forall (r : State) (clock0 clock1 : nat -> Z) (now1 now2 : Z) (w : World),
    let text c :=
      JSON_stringify (JArr (map log_to_json (logsWithTimestamp c (results r)))) in
    results r <> [] ->
    truthy (text clock0) = true ->
    truthy (text clock1) = true ->
    JSON_parse (text clock0)
    = Some (JArr (map log_to_json (logsWithTimestamp clock0 (results r)))) ->
    JSON_parse (text clock1)
    = Some (JArr (map log_to_json (logsWithTimestamp clock1 (results r)))) ->
    (forall i, (i < length (results r))%nat ->
               Date_parse (toISOString (clock0 i)) = TimeValue (clock0 i)
               /\ Date_parse (toISOString (clock1 i)) = TimeValue (clock1 i)) ->
    (forall i, (i < length (results r))%nat ->
               now1 - 86400000 < clock0 i /\ now2 - 86400000 < clock1 i) ->
    let first := persist_then_reload r clock0 now1 w in
    let second := persist_then_reload (st first) clock1 now2 first in
    results (st second)
    = imap (fun i log =>
              mkLog (set_prop "timestamp" (JStr (toISOString (clock1 i)))
                              (fields log))
                    (Some (TimeValue (clock1 i))))
           (results r).
Proof.
  intros r clock0 clock1 now1 now2 w text Hne Ht0 Ht1 Hp0 Hp1 Hd Hc first second.
  assert (Hfirst : results (st first)
                   = imap (fun i log =>
                             mkLog (set_prop "timestamp"
                                             (JStr (toISOString (clock0 i)))
                                             (fields log))
                                   (Some (TimeValue (clock0 i))))
                          (results r)).
  { apply reload_shows_saved; try assumption; intros i Hi.
    - apply (Hd i Hi).
    - apply (Hc i Hi). }
  assert (Hlen : length (results (st first)) = length (results r))
    by (rewrite Hfirst; apply length_imap).
  assert (Hstamp : map log_to_json (logsWithTimestamp clock1 (results (st first)))
                   = map log_to_json (logsWithTimestamp clock1 (results r))).
  { rewrite Hfirst. apply logsWithTimestamp_again. }
  unfold second. rewrite reload_shows_saved.
  - rewrite Hfirst, imap_imap. apply imap_ext. intros i log _.
    cbn [fields]. rewrite set_prop_twice. reflexivity.
  - rewrite Hfirst. destruct (results r); [congruence | discriminate].
  - rewrite Hstamp. exact Ht1.
  - unfold reads_back. rewrite Hstamp. exact Hp1.
  - intros i Hi. rewrite Hlen in Hi. apply (Hd i Hi).
  - intros i Hi. rewrite Hlen in Hi. apply (Hc i Hi).
Qed.

(** X10.  After the count input changes, a renewal can be submitted
    exactly when an account is selected and the input parsed to a number
    from 1 to 20: an empty or non-numeric input, read as 0, blocks it. *)
Theorem X10_count_input_gates_submission :
  forall (parsed : option Z) (w : World),
    let w' := onRenewalCountChange parsed w in
    renewalCount (st w') = match parsed with Some n => n | None => 0 end
    /\ (submits (st w') = true
        <-> selectedAccounts (st w) <> []
            /\ exists n, parsed = Some n /\ 1 <= n <= 20).
Proof.
  intros parsed w w'. split.
  - cbn. destruct parsed as [n|]; cbn; [| reflexivity].
    destruct (Z.eqb_spec n 0); congruence.
  - unfold submits; cbn. rewrite andb_true_iff, !negb_true_iff, orb_false_iff.
    rewrite Nat.eqb_neq, Z.ltb_ge, Z.gtb_ltb, Z.ltb_ge.
    assert (Hlen : length (selectedAccounts (st w)) <> 0%nat
                   <-> selectedAccounts (st w) <> []).
    { destruct (selectedAccounts (st w)); cbn; split; congruence. }
    rewrite Hlen. destruct parsed as [n|]; cbn.
    + destruct (Z.eqb_spec n 0) as [-> | Hn].
      * split; [lia |]. intros (_ & m & [= <-] & Hm). lia.
      * split.
        -- intros (Hsel & Hlo & Hhi). split; [exact Hsel |]. exists n. split; [reflexivity | lia].
        -- intros (Hsel & m & [= <-] & Hm). split; [exact Hsel | lia].
    + split; [lia |]. intros (_ & m & Hm & _). discriminate.
Qed.
End StoredLog.

(** * Further properties of the bulk upload modal *)

Section Strings.
Import JS.

Lemma length_append (a b : string) :
  String.length (a +:+ b) = (String.length a + String.length b)%nat.
Proof. induction a as [|c a IH]; simpl; [reflexivity | f_equal; exact IH]. Qed.

Lemma substring_all (s : string) : substring 0 (String.length s) s = s.
Proof. induction s as [|c s IH]; simpl; [reflexivity | f_equal; exact IH]. Qed.

Lemma substring_skip (a b : string) :
  substring (String.length a) (String.length b) (a +:+ b) = b.
Proof. induction a as [|c a IH]; simpl; [apply substring_all | exact IH]. Qed.

Lemma substring_take (a b : string) :
  substring 0 (String.length a) (a +:+ b) = a.
Proof.
  induction a as [|c a IH]; simpl; [destruct b; reflexivity | f_equal; exact IH].
Qed.

Lemma substring_none (n : nat) (s : string) : substring n 0 s = "".
Proof.
  revert n. induction s as [|c s IH]; intros [|n]; simpl; try reflexivity. apply IH.
Qed.

Lemma substring_split (s : string) (k : nat) :
  (k <= String.length s)%nat ->
  substring 0 k s +:+ substring k (String.length s - k) s = s.
Proof.
  revert k. induction s as [|c s IH]; intros [|k] Hk; simpl in *.
  - reflexivity.
  - lia.
  - change ("" +:+ ?x) with x. f_equal. apply substring_all.
  - change (String c ?x +:+ ?y) with (String c (x +:+ y)).
    f_equal. apply IH. lia.
Qed.

(** [s.endsWith(p)] holds exactly of the strings that end in [p]. *)
Lemma endsWith_iff (s p : string) :
  endsWith s p = true <-> exists base, s = base +:+ p.
Proof.
  unfold endsWith. rewrite andb_true_iff, Nat.leb_le, String.eqb_eq. split.
  - intros [Hle Hsub].
    exists (substring 0 (String.length s - String.length p) s).
    assert (Hm : (String.length s - (String.length s - String.length p))%nat
                 = String.length p) by lia.
    pose proof (substring_split s (String.length s - String.length p)) as Hsp.
    rewrite Hm, Hsub in Hsp. symmetry. apply Hsp. lia.
  - intros [base ->]. rewrite length_append. split; [lia |].
    replace (String.length base + String.length p - String.length p)%nat
      with (String.length base) by lia.
    apply substring_skip.
Qed.

(** [s.startsWith(p)] holds exactly of the strings that begin with [p]. *)
Lemma startsWith_iff (s p : string) :
  startsWith s p = true <-> exists rest, s = p +:+ rest.
Proof.
  unfold startsWith. revert s.
  induction p as [|c p IH]; intros s.
  - split; [intros _; exists s; reflexivity | intros _; destruct s; reflexivity].
  - destruct s as [|d s].
    { split; [discriminate | intros [rest Hr]; discriminate Hr]. }
    change (String.prefix (String c p) (String d s))
      with (if ascii_dec c d then String.prefix p s else false).
    destruct (ascii_dec c d) as [-> | Hne].
    + rewrite IH. split; intros [rest Hr]; exists rest.
      * rewrite Hr. reflexivity.
      * injection Hr as Hr. exact Hr.
    + split; [discriminate |].
      intros [rest Hr]. injection Hr as Hcd _. congruence.
Qed.
End Strings.

Section BulkUploadForm.
Import JS BulkUpload.

Lemma filter_keeps_all {A} (p : A -> bool) (l : list A) :
  length (List.filter p l) = length l <-> forall x, In x l -> p x = true.
Proof.
  split.
  - intros Hlen. apply forallb_forall, filter_length_forallb. exact Hlen.
  - intros Hall. rewrite forallb_filter_id; [reflexivity |].
    apply forallb_forall. exact Hall.
Qed.

(** X11.  Choosing image files replaces the previous choice by the
    chosen files whose MIME type begins with [image/], in the order in
    which they were chosen and as often as they were chosen; an error
    toast is raised exactly when some chosen file was left out; the
    result panel is reset, and text file and selection are kept. *)
Theorem X11_image_files_are_filtered :
  forall (chosen : list File.t) (w : World),
    let w' := handleImageFilesChange (Some chosen) w in
    imageFiles (st w') = List.filter isImage chosen
    /\ (forall file,
          isImage file = true <-> exists rest, File.type file = "image/" +:+ rest)
    /\ ((forall file, In file chosen -> isImage file = true) ->
        imageFiles (st w') = chosen /\ out w' = out w)
    /\ ((exists file, In file chosen /\ isImage file = false) ->
        out w' = out w ++ [OnToast toast_error
                             (Some "Some files are not valid images")])
    /\ uploadResult (st w') = None
    /\ txtFile (st w') = txtFile (st w)
    /\ selectedAccounts (st w') = selectedAccounts (st w).
Proof.
  intros chosen w w'. unfold w', handleImageFilesChange, seq.
  split.
  { destruct (negb (length (List.filter isImage chosen) =? length chosen)%nat);
      reflexivity. }
  split; [intros file; unfold isImage; apply startsWith_iff |].
  split.
  { intros Hall. pose proof (proj2 (filter_keeps_all isImage chosen) Hall) as Hlen.
    rewrite Hlen, Nat.eqb_refl. cbn.
    split; [| reflexivity]. apply forallb_filter_id, forallb_forall. exact Hall. }
  split.
  { intros (file & Hin & Hno).
    destruct (Nat.eqb_spec (length (List.filter isImage chosen)) (length chosen))
      as [Hlen | Hlen]; [| reflexivity].
    pose proof (proj1 (filter_keeps_all isImage chosen) Hlen) as Hall.
    rewrite (Hall file Hin) in Hno. discriminate. }
  destruct (negb (length (List.filter isImage chosen) =? length chosen)%nat);
    repeat split.
Qed.

Lemma handleFileChange_accepts (file : File.t) (w : World) :
  (exists base, File.name file = base +:+ ".txt") ->
  handleFileChange (Some file) w
  = mkWorld (mkState (accounts (st w)) (selectedAccounts (st w)) (Some file)
               (imageFiles (st w)) (loading (st w)) None)
            (out w).
Proof.
  intros Hends. unfold handleFileChange.
  apply endsWith_iff in Hends. rewrite Hends. reflexivity.
Qed.

(** X12.  Choosing a text file: a file whose name ends in [.txt] becomes
    the text file and resets the result panel, with no toast; any other
    file is refused with an error toast and changes nothing; no file
    changes nothing at all. *)
Theorem X12_only_txt_names_are_accepted :
  forall (file : File.t) (w : World),
    ((exists base, File.name file = base +:+ ".txt") ->
     handleFileChange (Some file) w
     = mkWorld (mkState (accounts (st w)) (selectedAccounts (st w)) (Some file)
                  (imageFiles (st w)) (loading (st w)) None)
               (out w))
    /\ ((forall base, File.name file <> base +:+ ".txt") ->
        handleFileChange (Some file) w
        = mkWorld (st w)
            (out w ++ [OnToast toast_error (Some "Please select a TXT file")]))
    /\ handleFileChange None w = w.
Proof.
  intros file w. split; [| split; [| reflexivity]].
  - apply handleFileChange_accepts.
  - intros Hno. destruct (endsWith (File.name file) ".txt") eqn:He.
    + apply endsWith_iff in He as [base Hb]. destruct (Hno base Hb).
    + unfold handleFileChange. rewrite He. reflexivity.
Qed.



End BulkUploadForm.

(** * Further properties of the import session modal *)

Section ImportSessionForm.
Import JS ImportSession.
Context `{Runtime}.

Lemma append_empty (s : string) : s +:+ "" = s.
Proof.
  induction s as [|c s IH]; [reflexivity |].
  change (String c s +:+ "") with (String c (s +:+ "")). f_equal. exact IH.
Qed.

(** Where the first [.json] of a name is, when the name ends in [.json]
    and has no earlier one. *)
Lemma index_of_extension (base : string) :
  (forall p, (p < String.length base)%nat ->
             substring p 5 (base +:+ ".json") <> ".json") ->
  index 0 ".json" (base +:+ ".json") = Some (String.length base).
Proof.
  intros Hfirst.
  assert (Hat : substring (String.length base) 5 (base +:+ ".json") = ".json")
    by apply (substring_skip base ".json").
  destruct (index 0 ".json" (base +:+ ".json")) as [m|] eqn:Hi.
  - f_equal.
    destruct (Nat.lt_trichotomy m (String.length base)) as [Hlt | [Heq | Hgt]].
    + destruct (Hfirst m Hlt). exact (index_correct1 0 m ".json" _ Hi).
    + exact Heq.
    + exfalso.
      apply (index_correct2 0 m ".json" _ Hi (String.length base));
        [lia | exact Hgt | exact Hat].
  - exfalso.
    apply (index_correct3 0 (String.length base) ".json" _ Hi);
      [discriminate | lia | exact Hat].
Qed.

Lemma remove_first_extension (base : string) :
  (forall p, (p < String.length base)%nat ->
             substring p 5 (base +:+ ".json") <> ".json") ->
  remove_first ".json" (base +:+ ".json") = base.
Proof.
  intros Hfirst. unfold remove_first. rewrite (index_of_extension base Hfirst).
  rewrite (substring_take base ".json"), length_append.
  change (String.length ".json") with 5%nat.
  replace (String.length base + 5 - (String.length base + 5))%nat with 0%nat by lia.
  rewrite substring_none. apply append_empty.
Qed.

(** X15.  Choosing a session file: a name that does not end in [.json]
    is refused with an error and the file is not read; a name that ends
    in [.json] and has no earlier [.json] in it puts the name without
    the extension in the filename field and the file is read, with error
    and session data untouched until the file is loaded. *)
Theorem X15_session_file_name :
  forall (name : string) (w : World),
    ((forall base, name <> base +:+ ".json") ->
     reads (Some name) = false
     /\ error (st (handleFileUpload (Some name) w)) = "Please upload a JSON file"
     /\ filename (st (handleFileUpload (Some name) w)) = filename (st w)
     /\ sessionData (st (handleFileUpload (Some name) w)) = sessionData (st w))
    /\ (forall base,
        name = base +:+ ".json" ->
        (forall p, (p < String.length base)%nat ->
                   substring p 5 name <> ".json") ->
        reads (Some name) = true
        /\ filename (st (handleFileUpload (Some name) w)) = base
        /\ error (st (handleFileUpload (Some name) w)) = error (st w)
        /\ sessionData (st (handleFileUpload (Some name) w)) = sessionData (st w))
    /\ handleFileUpload None w = w.
Proof.
  intros name w. split; [| split; [| reflexivity]].
  - intros Hno.
    assert (He : endsWith name ".json" = false).
    { destruct (endsWith name ".json") eqn:He; [| reflexivity].
      change (JS.endsWith name ".json" = true) in He.
      apply endsWith_iff in He as [base Hb]. destruct (Hno base Hb). }
    unfold reads, handleFileUpload. rewrite He. repeat split.
  - intros base -> Hfirst.
    assert (He : endsWith (base +:+ ".json") ".json" = true).
    { change (JS.endsWith (base +:+ ".json") ".json" = true).
      apply endsWith_iff. exists base. reflexivity. }
    unfold reads, handleFileUpload. rewrite He.
    cbn [negb]. cbn [st filename error sessionData setFilename modify].
    rewrite (remove_first_extension base Hfirst). repeat split.
Qed.

(** The worlds that closing and settling leave. *)
Lemma handleClose_world w :
  handleClose w
  = mkWorld (mkState "" "" (loading (st w)) "" false None upload)
            (out w ++ [OnClose]).
Proof. reflexivity. Qed.

Lemma fire_world message type w :
  fire (close_and_notify message type) w
  = mkWorld (mkState "" "" (loading (st w)) "" false None upload)
            ((out w ++ [OnClose]) ++ [OnSuccess message type]).
Proof. reflexivity. Qed.

Lemma handleSubmit_settle_resolved details w :
  handleSubmit_settle (Resolved details) w
  = mkWorld (mkState (sessionData (st w)) (filename (st w)) false (error (st w))
               true (Some details) (inputMethod (st w)))
      (out w ++ [SetTimeout (close_and_notify (successMsg details) type_success)
                   1500]).
Proof. reflexivity. Qed.

Lemma handleSubmit_settle_rejected e w :
  handleSubmit_settle (Rejected e) w
  = mkWorld (mkState (sessionData (st w)) (filename (st w)) false (errorMsg e)
               (success (st w)) (importDetails (st w)) (inputMethod (st w)))
      ((out w ++ [SetTimeout (close_and_notify (errorMsg e) type_error) 3000])
       ++ (if unexpected e then [ConsoleError "Import session error:"] else [])).
Proof.
  unfold handleSubmit_settle. destruct (unexpected e).
  - reflexivity.
  - unfold seq, skip. cbn [setLoading modify st out]. rewrite app_nil_r.
    reflexivity.
Qed.

(** X16.  When an import settles, one timer is scheduled and no request
    is made: 1500 ms with the success message after a success, 3000 ms
    with the error message after a rejection, which keeps the typed
    session data and filename on screen with the error until then.  When
    the timer fires the form is emptied, [onClose] is called and then
    [onSuccess] with that message: also after a rejection the input is
    gone.  Only a rejection other than HTTP 400 is logged to the
    console. *)
Theorem X16_settled_import_closes_the_form :
  forall (o : Outcome) (w later : World),
    let settled := handleSubmit_settle o w in
    let timer :=
      match o with
      | Resolved details =>
          (close_and_notify (successMsg details) type_success, 1500)
      | Rejected e => (close_and_notify (errorMsg e) type_error, 3000)
      end in
    let fired := fire (fst timer) later in
    timers (out settled) = timers (out w) ++ [timer]
    /\ calls (out settled) = calls (out w)
    /\ sessionData (st settled) = sessionData (st w)
    /\ filename (st settled) = filename (st w)
    /\ loading (st settled) = false
    /\ (forall e, o = Rejected e ->
          error (st settled) = errorMsg e
          /\ (console_errors (out settled) = console_errors (out w)
              <-> exists message, e = WithResponse message (Some 400)))
    /\ sessionData (st fired) = ""
    /\ filename (st fired) = ""
    /\ error (st fired) = ""
    /\ out fired
       = out later ++ [OnClose;
                       match o with
                       | Resolved details =>
                           OnSuccess (successMsg details) type_success
                       | Rejected e => OnSuccess (errorMsg e) type_error
                       end].
Proof.
  intros o w later settled timer fired. subst fired timer settled.
  destruct o as [details | e].
  - cbn [fst]. rewrite handleSubmit_settle_resolved, fire_world.
    cbn [st out sessionData filename loading error fst].
    unfold timers, calls. rewrite !omap_app, <- app_assoc. cbn [omap list_omap].
    rewrite !app_nil_r.
    do 5 (split; [reflexivity |]). split; [intros e0 [=] |].
    split; [reflexivity | split; [reflexivity | split; reflexivity]].
  - cbn [fst]. rewrite handleSubmit_settle_rejected, fire_world.
    cbn [st out sessionData filename loading error fst].
    unfold timers, calls, console_errors.
    rewrite !omap_app, <- !app_assoc. cbn [omap list_omap app].
    assert (Hnone : forall b : bool,
      omap (fun ev => match ev with
                      | SetTimeout callback ms => Some (callback, ms)
                      | _ => None
                      end)
           (if b then [ConsoleError "Import session error:"] else []) = []
      /\ omap (fun ev => match ev with
                         | ImportSessionCall session_data filename =>
                             Some (session_data, filename)
                         | _ => None
                         end)
              (if b then [ConsoleError "Import session error:"] else []) = [])
      by (intros [|]; split; reflexivity).
    destruct (Hnone (unexpected e)) as [-> ->]. rewrite !app_nil_r.
    split; [reflexivity |]. split; [reflexivity |].
    split; [reflexivity |]. split; [reflexivity |]. split; [reflexivity |].
    split; [| split; [reflexivity | split; [reflexivity | split; reflexivity]]].
    intros e' [= <-]. split; [reflexivity |].
    destruct e as [| message [status|]]; cbn [unexpected].
    + cbn [omap list_omap]. split.
      * intros Heq. apply (f_equal length) in Heq.
        rewrite length_app in Heq. cbn in Heq. lia.
      * intros [message [=]].
    + destruct (Z.eqb_spec status 400) as [-> | Hne]; cbn [negb omap list_omap].
      * rewrite app_nil_r. split; [intros _; exists message; reflexivity | reflexivity].
      * split.
        -- intros Heq. apply (f_equal length) in Heq.
           rewrite length_app in Heq. cbn in Heq. lia.
        -- intros [message' [= _ Hs]]. congruence.
    + cbn [omap list_omap]. split.
      * intros Heq. apply (f_equal length) in Heq.
        rewrite length_app in Heq. cbn in Heq. lia.
      * intros [message' [=]].
Qed.

(** X17.  [handleSubmit] makes the import call exactly when the session
    data and the filename are not blank and the session data parses,
    and then one call, with the parsed value and the filename as typed;
    in every other case it makes no call of any kind and shows an
    error.  It always clears the previous success panel first. *)
Theorem X17_import_call :
  forall (r : State) (w : World),
    let w' := handleSubmit_request r w in
    (forall parsedData,
        blank (sessionData r) = false -> blank (filename r) = false ->
        JSON_parse (sessionData r) = Some parsedData ->
        out w' = out w ++ [ImportSessionCall parsedData (filename r)]
        /\ loading (st w') = true
        /\ error (st w') = "")
    /\ (blank (sessionData r) = true \/ blank (filename r) = true
        \/ JSON_parse (sessionData r) = None ->
        out w' = out w /\ errorShown (st w') = true)
    /\ success (st w') = false
    /\ importDetails (st w') = None.
Proof.
  intros r w w'. subst w'. unfold handleSubmit_request, seq.
  destruct (blank (sessionData r)) eqn:Hd.
  { split; [intros ? [=] |]. repeat split. }
  destruct (blank (filename r)) eqn:Hf.
  { split; [intros ? _ [=] |]. repeat split. }
  destruct (JSON_parse (sessionData r)) as [j|] eqn:Hp.
  - split; [intros ? _ _ [= <-]; repeat split |].
    split; [| split; reflexivity].
    intros [[=] | [[=] | [=]]].
  - split; [intros ? _ _ [=] |]. repeat split.
Qed.
End ImportSessionForm.

(** * Further properties of the image proxy *)

Section ImageProxyAnswers.
Import JS ImageProxy.

(** X18.  The answer depends on the upstream only through the one
    request for the given url, made with the ngrok-skip-browser-warning
    header; an empty [url] parameter is answered like a missing one, 400
    "Missing image URL", whatever the upstream would do. *)
Theorem X18_one_upstream_request :
  forall (fetch fetch' : Fetch) (imageUrl : string),
    (fetch imageUrl [("ngrok-skip-browser-warning", "true")]
     = fetch' imageUrl [("ngrok-skip-browser-warning", "true")] ->
     GET fetch (Some imageUrl) = GET fetch' (Some imageUrl))
    /\ GET fetch (Some "")
       = mkResponse (Text "Missing image URL") 400
                    [("content-type", "text/plain;charset=UTF-8")]
    /\ GET fetch (Some "") = GET fetch' None.
Proof.
  intros fetch fetch' imageUrl. split; [| split; reflexivity].
  intros Hsame. unfold GET. rewrite Hsame. reflexivity.
Qed.

End ImageProxyAnswers.

(** * The further properties on concrete inputs *)

Section FurtherInstances.
Import JS Examples.

Lemma X1_witness :
  ~ In 2 (Renew.selectedAccounts (Renew.st (page [1])))
  /\ In 2 (Renew.selectedAccounts (Renew.st (Renew.toggleAccount 2 (page [1]))))
  /\ In 2 (BulkUpload.selectedAccounts
             (BulkUpload.st (BulkUpload.handleAccountToggle 2 (modal [1])))).
Proof.
  assert (Hn : ~ In 2 [1]) by (cbn; intuition lia).
  destruct (X1_toggle_flips_one_account 2 2 (page [1]) (modal [1]))
    as [Hrenew Hbulk].
  split; [exact Hn | split].
  - apply Hrenew. left. split; [reflexivity | exact Hn].
  - apply Hbulk. left. split; [reflexivity | exact Hn].
Defined.

Lemma X2_witness :
  In 2 [1; 2] /\ List.NoDup [1] /\ incl [1] [1; 2]
  /\ List.NoDup (Renew.selectedAccounts
                   (Renew.st (Renew.toggleAccount 2 (page [1]))))
  /\ incl (BulkUpload.selectedAccounts
             (BulkUpload.st (BulkUpload.handleAccountToggle 2 (modal [1]))))
          [1; 2].
Proof.
  assert (Hid : In 2 [1; 2]) by (right; left; reflexivity).
  assert (Hnd : List.NoDup [1]) by (repeat constructor; intros []).
  assert (Hincl : incl [1] [1; 2])
    by (intros x [<- | []]; left; reflexivity).
  destruct (X2_toggle_keeps_selection_wellformed 2 (page [1]) (modal [1]))
    as [Hrenew Hbulk].
  split; [exact Hid | split; [exact Hnd | split; [exact Hincl | split]]].
  - apply (Hrenew Hid Hnd Hincl).
  - apply (Hbulk Hid Hnd Hincl).
Defined.

Lemma X3_witness :
  ~ In 2 (Renew.selectedAccounts (Renew.st (page [1])))
  /\ Renew.selectedAccounts
       (Renew.st (Renew.toggleAccount 2 (Renew.toggleAccount 2 (page [1]))))
     = [1]
  /\ same_set
       (BulkUpload.selectedAccounts
          (BulkUpload.st (BulkUpload.handleAccountToggle 1
                            (BulkUpload.handleAccountToggle 1 (modal [1; 2])))))
       [1; 2].
Proof.
  assert (Hn : ~ In 2 (Renew.selectedAccounts (Renew.st (page [1]))))
    by (cbn; intuition lia).
  destruct (X3_toggle_twice 2 (page [1]) (modal [1])) as (_ & _ & Heq & _).
  destruct (X3_toggle_twice 1 (page [1]) (modal [1; 2])) as (_ & Hset & _).
  split; [exact Hn | split; [exact (Heq Hn) | exact Hset]].
Defined.

Lemma X5_witness :
  Renew.submits (Renew.st (page [1])) = true
  /\ Renew.loading (Renew.st (Renew.onClick_execute now0 "k3x9q2m1z" (page [1])))
     = true
  /\ Renew.cleared
       (Renew.effect_checkRenewalStatus
          (Renew.onClick_execute now0 "k3x9q2m1z" (page [1])))
  /\ Renew.executeDisabled
       (Renew.st (Renew.effect_checkRenewalStatus
                    (Renew.onClick_execute now0 "k3x9q2m1z" (page [1]))))
     = false.
Proof.
  assert (Hs : Renew.submits (Renew.st (page [1])) = true) by reflexivity.
  destruct (X5_status_check_ends_loading_in_flight now0 "k3x9q2m1z" (page [1]) Hs)
    as (Hloading & _ & _ & Hcleared & Henabled & _).
  split; [exact Hs | split; [exact Hloading | split; [exact Hcleared |]]].
  exact Henabled.
Defined.

Lemma X6_witness :
  Renew.submits (render [1] 20 []) = true
  /\ Renew.submits (render [] 20 []) = false
  /\ Renew.executeDisabled (render [1] 20 []) = false
  /\ Renew.alerts
       (Renew.out (Renew.handleRenewal_request (render [1] 20 []) now0
                     "k3x9q2m1z" (page [1])))
     = []
  /\ (exists msg,
        Renew.alerts
          (Renew.out (Renew.handleRenewal_request (render [] 20 []) now0
                        "k3x9q2m1z" (page [])))
        = [msg]).
Proof.
  assert (Hyes : Renew.submits (render [1] 20 []) = true) by reflexivity.
  assert (Hno : Renew.submits (render [] 20 []) = false) by reflexivity.
  assert (Hbutton : Renew.executeDisabled (render [1] 20 []) = false)
    by reflexivity.
  destruct (@X6_one_request_iff_guards_pass Reference.runtime
              (render [1] 20 []) now0 "k3x9q2m1z"
              (ticking now0) (Renew.Rejected Renew.NoResponse) (page [1]))
    as (_ & Hquiet & _ & _ & _).
  destruct (@X6_one_request_iff_guards_pass Reference.runtime
              (render [] 20 []) now0 "k3x9q2m1z"
              (ticking now0) (Renew.Rejected Renew.NoResponse) (page []))
    as (_ & _ & Halert & _ & _).
  split; [exact Hyes | split; [exact Hno | split; [exact Hbutton | split]]].
  - exact (Hquiet Hyes).
  - exact (Halert Hno).
Defined.

Lemma X7_witness :
  Renew.submits (render [1] 20 []) = true
  /\ Renew.results
       (Renew.st
          (@Renew.handleRenewal Reference.runtime
             (fun _ _ => Renew.Rejected Renew.NoResponse)
             (render [1] 20 []) now0 "k3x9q2m1z" (ticking now0)
             (@Renew.loadLogs Reference.runtime now0 (Renew.mount logs_store))))
     = []
  /\ Renew.localStorage
       (@Renew.handleRenewal Reference.runtime
          (fun _ _ => Renew.Rejected Renew.NoResponse)
          (render [1] 20 []) now0 "k3x9q2m1z" (ticking now0)
          (@Renew.loadLogs Reference.runtime now0 (Renew.mount logs_store)))
       !! "renewalActivityLogs"
     = Renew.localStorage
         (@Renew.loadLogs Reference.runtime now0 (Renew.mount logs_store))
         !! "renewalActivityLogs".
Proof.
  assert (Hs : Renew.submits (render [1] 20 []) = true) by reflexivity.
  destruct (@X7_renewal_leaves_stored_log Reference.runtime
              (fun _ _ => Renew.Rejected Renew.NoResponse)
              (render [1] 20 []) now0 "k3x9q2m1z" (ticking now0) (now0 + hour)
              (@Renew.loadLogs Reference.runtime now0 (Renew.mount logs_store)))
    as (Hkey & _ & _ & Hempty).
  split; [exact Hs | split; [| exact Hkey]].
  apply (Hempty Renew.NoResponse Hs eq_refl).
Defined.

Lemma X8_witness :
  Renew.Response.results (Renew.Response.mk [entry 1 (Some 5)] None) <> []
  /\ Renew.localStorage
       (@Renew.saveLogs Reference.runtime
          (Renew.st
             (@Renew.handleRenewal_settle Reference.runtime (ticking now0)
                (Renew.Resolved (Renew.Response.mk [entry 1 (Some 5)] None))
                (Renew.mount logs_store)))
          (ticking (now0 + 1))
          (@Renew.handleRenewal_settle Reference.runtime (ticking now0)
             (Renew.Resolved (Renew.Response.mk [entry 1 (Some 5)] None))
             (Renew.mount logs_store)))
       !! "renewalActivityLogs"
     = Some (logs_text [stored_at (now0 + 1) 1 (Some 5)]).
Proof.
  assert (Hne : Renew.Response.results
                  (Renew.Response.mk [entry 1 (Some 5)] None) <> [])
    by discriminate.
  destruct (@X8_new_results_replace_stored_log Reference.runtime
              (ticking now0) (ticking (now0 + 1))
              (Renew.Response.mk [entry 1 (Some 5)] None)
              (Renew.mount logs_store) Hne) as [Hstored _].
  split; [exact Hne | exact Hstored].
Defined.

Lemma X9_witness :
  now0 + 46 * hour - 86400000 > ticking now0 1
  /\ Renew.results
       (Renew.st
          (@Renew.persist_then_reload Reference.runtime
             (Renew.st
                (@Renew.persist_then_reload Reference.runtime
                   (render [1; 2] 20 [entry 1 (Some 5); entry 2 None])
                   (ticking now0) (now0 + 23 * hour) (page [])))
             (ticking (now0 + 23 * hour)) (now0 + 46 * hour)
             (@Renew.persist_then_reload Reference.runtime
                (render [1; 2] 20 [entry 1 (Some 5); entry 2 None])
                (ticking now0) (now0 + 23 * hour) (page []))))
     = [Renew.mkLog (fst (as_stored (stored_at (now0 + 23 * hour) 1 (Some 5))))
          (Some (TimeValue (now0 + 23 * hour)));
        Renew.mkLog (fst (as_stored (stored_at (now0 + 23 * hour + 1) 2 None)))
          (Some (TimeValue (now0 + 23 * hour + 1)))].
Proof.
  pose (r := render [1; 2] 20 [entry 1 (Some 5); entry 2 None]).
  assert (Hne : Renew.results r <> []) by discriminate.
  split; [unfold ticking, now0, hour; lia |].
  apply (@X9_each_load_restarts_the_24_hours Reference.runtime r
           (ticking now0) (ticking (now0 + 23 * hour))
           (now0 + 23 * hour) (now0 + 46 * hour) (page []) Hne).
  - vm_compute; reflexivity.
  - vm_compute; reflexivity.
  - vm_compute; reflexivity.
  - vm_compute; reflexivity.
  - intros [|[|i]] Hi; [split; vm_compute; reflexivity
                       | split; vm_compute; reflexivity |].
    cbn in Hi; lia.
  - intros i _. unfold ticking, now0, hour. lia.
Defined.

Lemma X10_witness :
  Renew.selectedAccounts (Renew.st (page [1])) <> []
  /\ Renew.submits
       (Renew.st (Renew.onRenewalCountChange (Some 5) (page [1]))) = true
  /\ Renew.renewalCount
       (Renew.st (Renew.onRenewalCountChange None (page [1]))) = 0.
Proof.
  assert (Hsel : Renew.selectedAccounts (Renew.st (page [1])) <> [])
    by discriminate.
  destruct (X10_count_input_gates_submission (Some 5) (page [1])) as [_ Hfive].
  destruct (X10_count_input_gates_submission None (page [1])) as [Hzero _].
  split; [exact Hsel | split; [| exact Hzero]].
  apply Hfive. split; [exact Hsel |]. exists 5. split; [reflexivity | lia].
Defined.

Lemma X11_witness :
  In notes_pdf [photo_jpg; notes_pdf; photo_jpg]
  /\ BulkUpload.isImage notes_pdf = false
  /\ BulkUpload.out
       (BulkUpload.handleImageFilesChange
          (Some [photo_jpg; notes_pdf; photo_jpg]) (modal [1]))
     = [BulkUpload.OnToast BulkUpload.toast_error
          (Some "Some files are not valid images")]
  /\ BulkUpload.imageFiles
       (BulkUpload.st
          (BulkUpload.handleImageFilesChange
             (Some [photo_jpg; notes_pdf; photo_jpg]) (modal [1])))
     = [photo_jpg; photo_jpg].
Proof.
  assert (Hin : In notes_pdf [photo_jpg; notes_pdf; photo_jpg])
    by (right; left; reflexivity).
  assert (Hpdf : BulkUpload.isImage notes_pdf = false) by reflexivity.
  destruct (X11_image_files_are_filtered [photo_jpg; notes_pdf; photo_jpg]
              (modal [1]))
    as (Hkept & _ & _ & Htoast & _).
  split; [exact Hin | split; [exact Hpdf | split]].
  - apply Htoast. exists notes_pdf. split; [exact Hin | exact Hpdf].
  - rewrite Hkept. reflexivity.
Defined.

Lemma X12_witness :
  (exists base, BulkUpload.File.name posts_txt = base +:+ ".txt")
  /\ (forall base, BulkUpload.File.name notes_pdf <> base +:+ ".txt")
  /\ BulkUpload.txtFile
       (BulkUpload.st (BulkUpload.handleFileChange (Some posts_txt) (modal [1])))
     = Some posts_txt
  /\ BulkUpload.out (BulkUpload.handleFileChange (Some notes_pdf) (modal [1]))
     = [BulkUpload.OnToast BulkUpload.toast_error (Some "Please select a TXT file")].
Proof.
  assert (Htxt : exists base, BulkUpload.File.name posts_txt = base +:+ ".txt")
    by (exists "posts"; reflexivity).
  assert (Hpdf : forall base, BulkUpload.File.name notes_pdf <> base +:+ ".txt").
  { intros base Hb.
    assert (He : endsWith (BulkUpload.File.name notes_pdf) ".txt" = true)
      by (apply endsWith_iff; exists base; exact Hb).
    discriminate He. }
  destruct (X12_only_txt_names_are_accepted posts_txt (modal [1])) as (Hyes & _).
  destruct (X12_only_txt_names_are_accepted notes_pdf (modal [1])) as (_ & Hno & _).
  split; [exact Htxt | split; [exact Hpdf | split]].
  - rewrite (Hyes Htxt). reflexivity.
  - rewrite (Hno Hpdf). reflexivity.
Defined.



Lemma X15_witness :
  (forall p, (p < String.length "cookies")%nat ->
             substring p 5 "cookies.json" <> ".json")
  /\ (forall base, "cookies.txt" <> base +:+ ".json")
  /\ ImportSession.filename
       (ImportSession.st (ImportSession.handleFileUpload (Some "cookies.json")
                            paste_form))
     = "cookies"
  /\ ImportSession.reads (Some "cookies.txt") = false.
Proof.
  assert (Hfirst : forall p, (p < String.length "cookies")%nat ->
                             substring p 5 "cookies.json" <> ".json").
  { intros p Hp. do 7 (destruct p as [|p]; [discriminate |]). cbn in Hp. lia. }
  assert (Htxt : forall base, "cookies.txt" <> base +:+ ".json").
  { intros base Hb.
    assert (He : endsWith "cookies.txt" ".json" = true)
      by (apply endsWith_iff; exists base; exact Hb).
    discriminate He. }
  destruct (X15_session_file_name "cookies.json" paste_form) as (_ & Hyes & _).
  destruct (X15_session_file_name "cookies.txt" paste_form) as (Hno & _).
  split; [exact Hfirst | split; [exact Htxt | split]].
  - destruct (Hyes "cookies" eq_refl Hfirst) as (_ & Hname & _). exact Hname.
  - destruct (Hno Htxt) as (Hreads & _). exact Hreads.
Defined.

Lemma X16_witness :
  ImportSession.error
    (ImportSession.st
       (ImportSession.handleSubmit_settle
          (ImportSession.Rejected
             (ImportSession.WithResponse (Some "Invalid session data") (Some 400)))
          filled_form))
  = "Invalid session data"
  /\ ImportSession.console_errors
       (ImportSession.out
          (ImportSession.handleSubmit_settle
             (ImportSession.Rejected
                (ImportSession.WithResponse (Some "Invalid session data") (Some 400)))
             filled_form))
     = ImportSession.console_errors (ImportSession.out filled_form)
  /\ ImportSession.sessionData
       (ImportSession.st
          (ImportSession.fire
             (ImportSession.close_and_notify "Invalid session data"
                ImportSession.type_error)
             filled_form))
     = "".
Proof.
  destruct (X16_settled_import_closes_the_form
              (ImportSession.Rejected
                 (ImportSession.WithResponse (Some "Invalid session data") (Some 400)))
              filled_form filled_form)
    as (_ & _ & _ & _ & _ & Hrejected & Hdata & _).
  destruct (Hrejected _ eq_refl) as [Herror Hlog].
  split; [exact Herror | split; [| exact Hdata]].
  apply Hlog. exists (Some "Invalid session data"). reflexivity.
Defined.

Lemma X17_witness :
  @ImportSession.blank Reference.runtime
    (ImportSession.sessionData (ImportSession.st filled_form)) = false
  /\ @ImportSession.blank Reference.runtime
       (ImportSession.filename (ImportSession.st filled_form)) = false
  /\ Reference.JSON_parse (ImportSession.sessionData (ImportSession.st filled_form))
     = Some (JArr [JObj [("name", JStr "c_user"); ("value", JStr "x")]])
  /\ ImportSession.out
       (@ImportSession.handleSubmit_request Reference.runtime
          (ImportSession.st filled_form) filled_form)
     = [ImportSession.ImportSessionCall
          (JArr [JObj [("name", JStr "c_user"); ("value", JStr "x")]])
          "user@example.com"]
  /\ ImportSession.out
       (@ImportSession.handleSubmit_request Reference.runtime
          (ImportSession.st paste_form) paste_form)
     = [].
Proof.
  assert (Hd : @ImportSession.blank Reference.runtime
                 (ImportSession.sessionData (ImportSession.st filled_form)) = false)
    by (vm_compute; reflexivity).
  assert (Hf : @ImportSession.blank Reference.runtime
                 (ImportSession.filename (ImportSession.st filled_form)) = false)
    by (vm_compute; reflexivity).
  assert (Hp : @JSON_parse Reference.runtime
                 (ImportSession.sessionData (ImportSession.st filled_form))
               = Some (JArr [JObj [("name", JStr "c_user"); ("value", JStr "x")]]))
    by (vm_compute; reflexivity).
  assert (Hblank : @ImportSession.blank Reference.runtime
                     (ImportSession.sessionData (ImportSession.st paste_form)) = true)
    by (vm_compute; reflexivity).
  destruct (@X17_import_call Reference.runtime (ImportSession.st filled_form)
              filled_form) as (Hcall & _).
  destruct (@X17_import_call Reference.runtime (ImportSession.st paste_form)
              paste_form) as (_ & Hnone & _).
  split; [exact Hd | split; [exact Hf | split; [exact Hp | split]]].
  - destruct (Hcall _ Hd Hf Hp) as (Hout & _). exact Hout.
  - destruct (Hnone (or_introl Hblank)) as (Hout & _). exact Hout.
Defined.

Lemma X18_witness :
  answering png_response image_url [("ngrok-skip-browser-warning", "true")]
  = (fun url _ => if String.eqb url image_url then Some png_response else None)
      image_url [("ngrok-skip-browser-warning", "true")]
  /\ ImageProxy.GET (answering png_response) (Some image_url)
     = ImageProxy.GET
         (fun url _ => if String.eqb url image_url then Some png_response else None)
         (Some image_url).
Proof.
  assert (Hsame : answering png_response image_url
                    [("ngrok-skip-browser-warning", "true")]
                  = (fun url (_ : list (string * string)) =>
                       if String.eqb url image_url
                       then Some png_response else None)
                      image_url [("ngrok-skip-browser-warning", "true")])
    by reflexivity.
  destruct (X18_one_upstream_request (answering png_response)
              (fun url _ => if String.eqb url image_url
                            then Some png_response else None)
              image_url) as (Hget & _).
  split; [exact Hsame | exact (Hget Hsame)].
Defined.
End FurtherInstances.

(** * The first commit of the renewal page *)

Section FirstCommit.
Import JS Renew.
Context `{Runtime}.

(** What the load effect leaves alone, and what it can log. *)
Lemma loadLogs_frame now w :
  loading (st (loadLogs now w)) = loading (st w)
  /\ (out (loadLogs now w) = out w
      \/ out (loadLogs now w)
         = out w ++ [ConsoleError "Failed to load renewal activity logs:"]).
Proof.
  unfold loadLogs.
  destruct (getItem w "renewalActivityLogs") as [savedLogs|];
    [| split; [| left]; reflexivity].
  destruct (truthy savedLogs); [| split; [| left]; reflexivity].
  destruct (readLogs savedLogs) as [logs|];
    [| split; [| right]; reflexivity].
  cbv zeta. unfold seq.
  destruct (sumRenewed _); (split; [| first [left; reflexivity | right; reflexivity]]);
    reflexivity.
Qed.

Lemma checkRenewalStatus_initial ls w :
  checkRenewalStatus (initialState ls) w = w
  \/ checkRenewalStatus (initialState ls) w
     = mkWorld (mkState (accounts (st w)) (selectedAccounts (st w))
                  (renewalCount (st w)) false (results (st w))
                  (totalRenewed (st w)) None)
         (delete "activeRenewalJobId" (localStorage w))
         (out w ++ [ConsoleLog "Found stale renewal job ID, clearing..."]).
Proof.
  destruct (ls !! "activeRenewalJobId") as [j|] eqn:Hj.
  - destruct (truthy j) eqn:Ht.
    + right. apply (checkRenewalStatus_stale _ _ j); [exact Hj | exact Ht | reflexivity].
    + left. unfold checkRenewalStatus. cbn [initialState activeRenewalJobId].
      rewrite Hj, Ht. reflexivity.
  - left. unfold checkRenewalStatus. cbn [initialState activeRenewalJobId].
    rewrite Hj. reflexivity.
Qed.

Lemma requests_snoc_error calls msg :
  requests (calls ++ [ConsoleError msg]) = requests calls.
Proof. unfold requests. rewrite omap_app. apply app_nil_r. Qed.

Lemma requests_snoc_list calls :
  requests (calls ++ [ListAccounts]) = requests calls.
Proof. unfold requests. rewrite omap_app. apply app_nil_r. Qed.

Lemma account_requests_snoc calls e :
  account_requests (calls ++ [e])
  = (account_requests calls
     + match e with ListAccounts => 1 | _ => 0 end)%nat.
Proof.
  unfold account_requests. rewrite List.filter_app, length_app.
  destruct e; reflexivity.
Qed.

(** X20.  The effects of the first commit show what the load effect
    shows and never write the stored log: the save effect still sees the
    empty results of the first render, so the log key is left as it was
    or, when reading its text throws, removed.  They end with [loading]
    false, ask once for the list of accounts, and make no renewal
    request. *)
Theorem X20_first_commit_never_writes_the_log :
  forall (now : Z) (clock : nat -> Z) (ls : gmap string string),
    let w := mountEffects now clock ls in
    results (st w) = results (st (loadLogs now (mount ls)))
    /\ totalRenewed (st w) = totalRenewed (st (loadLogs now (mount ls)))
    /\ (localStorage w !! "renewalActivityLogs" = ls !! "renewalActivityLogs"
        \/ localStorage w !! "renewalActivityLogs" = None)
    /\ loading (st w) = false
    /\ account_requests (out w) = 1%nat
    /\ requests (out w) = [].
Proof.
  intros now clock ls w. subst w. unfold mountEffects, seq.
  rewrite (saveLogs_empty (initialState ls) clock) by reflexivity.
  set (loaded := loadLogs now (mount ls)).
  assert (Hloaded :
    (localStorage loaded !! "renewalActivityLogs" = ls !! "renewalActivityLogs"
     \/ localStorage loaded !! "renewalActivityLogs" = None)
    /\ loading (st loaded) = false
    /\ account_requests (out loaded) = 0%nat
    /\ requests (out loaded) = []).
  { unfold loaded.
    destruct (loadLogs_frame now (mount ls)) as (Hloading & Hout).
    split.
    { destruct (loadLogs_store now (mount ls)) as [-> | ->];
        [left; reflexivity | right; apply lookup_delete_eq]. }
    split; [rewrite Hloading; reflexivity |].
    destruct Hout as [-> | ->]; split; reflexivity. }
  destruct Hloaded as (Hkey & Hloading & Hlists & Hreq).
  unfold loadAccounts_request, emit.
  set (asked := mkWorld (st loaded) (localStorage loaded) (out loaded ++ [ListAccounts])).
  assert (Hasked : account_requests (out asked) = 1%nat
                   /\ requests (out asked) = []).
  { unfold asked. cbn [out].
    rewrite account_requests_snoc, requests_snoc_list, Hlists, Hreq.
    split; reflexivity. }
  destruct Hasked as (Hone & Hnone).
  destruct (checkRenewalStatus_initial ls asked) as [-> | ->].
  - split; [reflexivity | split; [reflexivity |]].
    split; [exact Hkey | split; [exact Hloading | split; [exact Hone | exact Hnone]]].
  - cbn [st localStorage out results totalRenewed loading].
    split; [reflexivity | split; [reflexivity |]].
    split; [| split; [reflexivity | split]].
    + unfold asked. cbn [localStorage].
      rewrite lookup_delete_ne by discriminate. exact Hkey.
    + rewrite account_requests_snoc, Hone. reflexivity.
    + rewrite requests_snoc_log. exact Hnone.
Qed.
End FirstCommit.
